(** * MercuryRising: the progressive campaign scheduler of [email_sender.py]

    A shallow embedding of the script's state store ([load_history],
    [save_history], [update_history]), quota computation
    ([get_current_day_info]), trigger management ([setup_crontab],
    [remove_crontab], [check_and_cleanup_crontab]) and orchestration
    ([main]), together with the properties the specification states about
    them.

    Python values are modelled by [pyval] (what [json.load] can return),
    exceptions and [sys.exit] by a result type, and everything the script
    touches outside its own variables (the history file, the crontab, the
    clock, the random generator, the swaks executable, standard output) by
    an explicit [world] threaded through a small state-and-error monad. *)

From Stdlib Require Import ZArith List Permutation Bool Lia Ascii String.
Import ListNotations.

Local Open Scope string_scope.
Local Open Scope Z_scope.

(** ** Calendar dates: the part of [datetime] the script uses *)

Module Calendar.

Record date := mkdate { year : Z; month : Z; day : Z }.

(** A [datetime]: a calendar date and the microseconds elapsed since
    midnight. Values returned by [strptime] with the format [%Y-%m-%d] have
    [micros = 0]. *)
Record datetime := mkdatetime { dt_date : date; micros : Z }.

Definition MICROS_PER_DAY : Z := 86400 * 1000000.

(** [datetime._is_leap] *)
Definition is_leap (y : Z) : bool :=
  (y mod 4 =? 0) && (negb (y mod 100 =? 0) || (y mod 400 =? 0)).

(** [datetime._days_before_year] *)
Definition days_before_year (y : Z) : Z :=
  let y' := y - 1 in y' * 365 + y' / 4 - y' / 100 + y' / 400.

(** [datetime._DAYS_IN_MONTH] and [datetime._days_in_month] *)
Definition DAYS_IN_MONTH (m : Z) : Z :=
  match m with
  | 1 => 31 | 2 => 28 | 3 => 31 | 4 => 30 | 5 => 31 | 6 => 30
  | 7 => 31 | 8 => 31 | 9 => 30 | 10 => 31 | 11 => 30 | 12 => 31
  | _ => -1
  end.

Definition days_in_month (y m : Z) : Z :=
  if (m =? 2) && is_leap y then 29 else DAYS_IN_MONTH m.

(** [datetime._DAYS_BEFORE_MONTH] and [datetime._days_before_month] *)
Definition DAYS_BEFORE_MONTH (m : Z) : Z :=
  match m with
  | 1 => 0 | 2 => 31 | 3 => 59 | 4 => 90 | 5 => 120 | 6 => 151
  | 7 => 181 | 8 => 212 | 9 => 243 | 10 => 273 | 11 => 304 | 12 => 334
  | _ => -1
  end.

Definition days_before_month (y m : Z) : Z :=
  DAYS_BEFORE_MONTH m + (if (2 <? m) && is_leap y then 1 else 0).

(** [datetime._ymd2ord], i.e. [date.toordinal]: 0001-01-01 is day 1. *)
Definition toordinal (d : date) : Z :=
  days_before_year (year d) + days_before_month (year d) (month d) + day d.

(** The dates [datetime] can represent ([MINYEAR = 1], [MAXYEAR = 9999]). *)
Definition valid_date (d : date) : bool :=
  (1 <=? year d) && (year d <=? 9999) &&
  (1 <=? month d) && (month d <=? 12) &&
  (1 <=? day d) && (day d <=? days_in_month (year d) (month d)).

(** In range for its month, whatever the year. *)
Definition wf_date (d : date) : bool :=
  (1 <=? month d) && (month d <=? 12) &&
  (1 <=? day d) && (day d <=? days_in_month (year d) (month d)).

Definition valid_datetime (t : datetime) : bool :=
  valid_date (dt_date t) && (0 <=? micros t) && (micros t <? MICROS_PER_DAY).

(** [(a - b).days] for two datetimes: a [timedelta] is normalised so that
    its seconds and microseconds are non-negative, hence [days] is the floor
    of the difference measured in days. *)
Definition abs_micros (t : datetime) : Z :=
  toordinal (dt_date t) * MICROS_PER_DAY + micros t.

Definition timedelta_days (a b : datetime) : Z :=
  (abs_micros a - abs_micros b) / MICROS_PER_DAY.

(** Midnight of a date, as produced by [strptime(_, '%Y-%m-%d')]. *)
Definition midnight (d : date) : datetime := mkdatetime d 0.

(** The calendar successor of a date, and [d + k days] by stepping the
    calendar [k] times. This is the reading of "D + k days" that the
    properties below use; it does not go through the ordinal formula. *)
Definition next_day (d : date) : date :=
  if day d <? days_in_month (year d) (month d)
  then mkdate (year d) (month d) (day d + 1)
  else if month d <? 12
       then mkdate (year d) (month d + 1) 1
       else mkdate (year d + 1) 1 1.

Fixpoint add_days (d : date) (k : nat) : date :=
  match k with
  | O => d
  | S k' => next_day (add_days d k')
  end.

End Calendar.
Import Calendar.

(** ** Text: decimal fields of [%Y-%m-%d] *)

Module DateText.

(** The character of a decimal digit and back, through the character
    codes 48 to 57. *)
Definition digit_char (n : Z) : ascii := ascii_of_nat (48 + Z.to_nat n).

Definition digit_val (c : ascii) : option Z :=
  let code := Z.of_nat (nat_of_ascii c) in
  if (48 <=? code) && (code <=? 57) then Some (code - 48) else None.

(** Zero-padded decimal fields ([%Y] is four digits wide for the years a
    clock reports, [%m] and [%d] are two). *)
Definition fmt2 (n : Z) (rest : string) : string :=
  String (digit_char (n / 10 mod 10)) (String (digit_char (n mod 10)) rest).

Definition fmt4 (n : Z) (rest : string) : string :=
  String (digit_char (n / 1000 mod 10))
    (String (digit_char (n / 100 mod 10)) (fmt2 n rest)).

(** [d.strftime('%Y-%m-%d')] *)
Definition strftime (d : date) : string :=
  fmt4 (year d) (String "-" (fmt2 (month d) (String "-" (fmt2 (day d) "")))).

(** [%Y]: exactly four digits. *)
Definition parse_year (s : string) : option (Z * string) :=
  match s with
  | String a (String b (String c (String d rest))) =>
      match digit_val a, digit_val b, digit_val c, digit_val d with
      | Some a, Some b, Some c, Some d =>
          Some (a * 1000 + b * 100 + c * 10 + d, rest)
      | _, _, _, _ => None
      end
  | _ => None
  end.

(** The literal [-] of the format. *)
Definition parse_dash (s : string) : option string :=
  match s with
  | String "-" rest => Some rest
  | _ => None
  end.

(** [%m] is the regular expression [1[0-2]|0[1-9]|[1-9]]; it is followed by
    the literal [-], so the one-digit alternative is taken exactly when the
    two-digit ones do not lead to a dash. The result is the month and the
    text after the dash. *)
Definition parse_month_dash (s : string) : option (Z * string) :=
  let one := match s with
             | String a (String "-" rest) =>
                 match digit_val a with
                 | Some a => if 1 <=? a then Some (a, rest) else None
                 | None => None
                 end
             | _ => None
             end in
  match s with
  | String a (String b (String "-" rest)) =>
      match digit_val a, digit_val b with
      | Some 1, Some b => if b <=? 2 then Some (10 + b, rest) else one
      | Some 0, Some b => if 1 <=? b then Some (b, rest) else one
      | _, _ => one
      end
  | _ => one
  end.

(** [%d] is [3[01]|[12]\d|0[1-9]|[1-9]| [1-9]], tried in this order; the
    pattern ends here, so the first alternative that matches is the one
    taken, and text left over afterwards is "unconverted data". *)
Definition parse_day (s : string) : option (Z * string) :=
  match s with
  | EmptyString => None
  | String a rest =>
      let one := match digit_val a with
                 | Some a => if 1 <=? a then Some (a, rest) else None
                 | None => None
                 end in
      match rest with
      | EmptyString => one
      | String b rest' =>
          match digit_val a, digit_val b with
          | Some 3, Some b => if b <=? 1 then Some (30 + b, rest') else one
          | Some 1, Some b => Some (10 + b, rest')
          | Some 2, Some b => Some (20 + b, rest')
          | Some 0, Some b => if 1 <=? b then Some (b, rest') else one
          | Some _, _ => one
          | None, Some b =>
              if (a =? " ")%char && (1 <=? b) then Some (b, rest') else None
          | None, None => None
          end
      end
  end.

(** [datetime.strptime(s, '%Y-%m-%d')]: [None] stands for [ValueError]
    (no match, unconverted data, or a day or year out of range). *)
Definition strptime (s : string) : option date :=
  match parse_year s with
  | None => None
  | Some (y, s1) =>
      match parse_dash s1 with
      | None => None
      | Some s2 =>
          match parse_month_dash s2 with
          | None => None
          | Some (m, s3) =>
              match parse_day s3 with
              | Some (d, EmptyString) =>
                  if valid_date (mkdate y m d) then Some (mkdate y m d)
                  else None
              | _ => None
              end
          end
      end
  end.

End DateText.
Import DateText.

(** ** Text: the string operations of the crontab functions *)

Module Text.

(** The line separator of the crontab table. *)
Definition NL : ascii := "010"%char.

(** The carriage return. *)
Definition CR : ascii := "013"%char.

(** What a process has written, as [subprocess.run(..., text=True)] hands
    it over: [data.replace('\r\n', '\n').replace('\r', '\n')], so a
    carriage return, together with the newline right after it if there is
    one, becomes one newline. *)
Fixpoint universal_newlines (s : string) : string :=
  match s with
  | EmptyString => EmptyString
  | String c s' =>
      if (c =? CR)%char then
        String NL
          match s' with
          | EmptyString => EmptyString
          | String d s'' =>
              if (d =? NL)%char then universal_newlines s''
              else universal_newlines s'
          end
      else String c (universal_newlines s')
  end.

(** [needle in hay] *)
Fixpoint contains (needle hay : string) : bool :=
  String.prefix needle hay ||
  match hay with
  | EmptyString => false
  | String _ hay' => contains needle hay'
  end.

(** [s.split('\n')]: never empty, the last element is the text after the
    last newline. *)
Fixpoint split_lines (s : string) : list string :=
  match s with
  | EmptyString => [EmptyString]
  | String c s' =>
      if (c =? NL)%char then EmptyString :: split_lines s'
      else match split_lines s' with
           | [] => [String c EmptyString]
           | l :: ls => String c l :: ls
           end
  end.

(** ['\n'.join(ls)] *)
Definition join_lines (ls : list string) : string :=
  String.concat (String NL EmptyString) ls.

(** Text is held as its UTF-8 bytes. The characters [str.strip] removes
    are those of [str.isspace]: U+0009 to U+000D and U+001C to U+0020, which
    take one byte, and U+0085, U+00A0, U+1680, U+2000 to U+200A, U+2028,
    U+2029, U+202F, U+205F and U+3000, which take two or three. *)
Definition is_space (c : ascii) : bool :=
  let n := nat_of_ascii c in
  ((9 <=? n) && (n <=? 13) || (28 <=? n) && (n <=? 32))%nat.

(** [c d] is U+0085 or U+00A0. *)
Definition is_space2 (c d : ascii) : bool :=
  let d := nat_of_ascii d in
  ((nat_of_ascii c =? 194) && ((d =? 133) || (d =? 160)))%nat.

(** [c d e] is one of the white space characters from U+1680 on. *)
Definition is_space3 (c d e : ascii) : bool :=
  let c := nat_of_ascii c in
  let d := nat_of_ascii d in
  let e := nat_of_ascii e in
  ((c =? 225) && (d =? 154) && (e =? 128)
   || (c =? 226) && (d =? 128)
      && ((128 <=? e) && (e <=? 138) || (e =? 168) || (e =? 169) || (e =? 175))
   || (c =? 226) && (d =? 129) && (e =? 159)
   || (c =? 227) && (d =? 128) && (e =? 128))%nat.

(** [bool(s.strip())]: some character of [s] is not white space. *)
Fixpoint has_non_space (s : string) : bool :=
  match s with
  | EmptyString => false
  | String c s1 =>
      if is_space c then has_non_space s1
      else
        match s1 with
        | EmptyString => true
        | String d s2 =>
            if is_space2 c d then has_non_space s2
            else
              match s2 with
              | EmptyString => true
              | String e s3 =>
                  if is_space3 c d e then has_non_space s3 else true
              end
        end
  end.

(** [s.rstrip()]: the text up to its last character that is not white
    space. *)
Fixpoint rstrip (s : string) : string :=
  match s with
  | EmptyString => EmptyString
  | String c s' =>
      if has_non_space (String c s') then String c (rstrip s')
      else EmptyString
  end.

(** No character of [s] is a newline. *)
Fixpoint no_newline (s : string) : bool :=
  match s with
  | EmptyString => true
  | String c s' => negb (c =? NL)%char && no_newline s'
  end.

(** No character of [s] is a carriage return. *)
Fixpoint no_return (s : string) : bool :=
  match s with
  | EmptyString => true
  | String c s' => negb (c =? CR)%char && no_return s'
  end.

End Text.
Import Text.

(** ** Python values, exceptions and the dynamic operations the script
    applies to what [json.load] returned *)

Module Py.

(** What [json.load] returns. JSON numbers are integers here: the record
    and the datasets hold counts and text only. A dictionary is an
    association list in insertion order. A string is held as its UTF-8
    bytes, so the strings here are those UTF-8 can encode: a string with a
    lone surrogate, which [json.load] accepts and standard output refuses,
    is outside these values. *)
#[local] Unset Elimination Schemes.
Inductive pyval :=
| PNone
| PBool (b : bool)
| PInt (n : Z)
| PStr (s : string)
| PList (l : list pyval)
| PDict (d : list (string * pyval)).
#[local] Set Elimination Schemes.

Inductive exn :=
| KeyError (k : string)
| TypeError
| AttributeError
| ValueError
| IndexError
| OSError
| Hang.  (* no exception: the call has not returned, see [redraw] *)

(** The outcome of running a piece of the script: a value, an uncaught
    exception, or [sys.exit(code)]. Nothing in the script catches what
    [Raise] carries, so [Raise Hang] stands for a call that is still
    running when the observation ends. *)
Inductive res (A : Type) :=
| Ok (a : A)
| Raise (e : exn)
| Exit (code : Z).
Arguments Ok {A} a.
Arguments Raise {A} e.
Arguments Exit {A} code.

(** [bool(v)] *)
Definition truthy (v : pyval) : bool :=
  match v with
  | PNone => false
  | PBool b => b
  | PInt n => negb (n =? 0)
  | PStr s => negb (s =? "")%string
  | PList l => match l with [] => false | _ => true end
  | PDict d => match d with [] => false | _ => true end
  end.

Fixpoint dict_get (d : list (string * pyval)) (k : string) : option pyval :=
  match d with
  | [] => None
  | (k', v) :: d' => if (k' =? k)%string then Some v else dict_get d' k
  end.

(** [d[k] = v] on a dictionary: replaces in place, or appends a new key. *)
Fixpoint dict_set (d : list (string * pyval)) (k : string) (v : pyval)
  : list (string * pyval) :=
  match d with
  | [] => [(k, v)]
  | (k', v') :: d' =>
      if (k' =? k)%string then (k, v) :: d' else (k', v') :: dict_set d' k v
  end.

(** [v[k]] with a string key *)
Definition getitem (v : pyval) (k : string) : res pyval :=
  match v with
  | PDict d => match dict_get d k with
               | Some x => Ok x
               | None => Raise (KeyError k)
               end
  | _ => Raise TypeError
  end.

(** [v[k] = x] with a string key; the result is the mutated object. *)
Definition setitem (v : pyval) (k : string) (x : pyval) : res pyval :=
  match v with
  | PDict d => Ok (PDict (dict_set d k x))
  | _ => Raise TypeError
  end.

(** [v.get(k, default)] *)
Definition get_default (v : pyval) (k : string) (default : pyval) : res pyval :=
  match v with
  | PDict d => Ok (match dict_get d k with Some x => x | None => default end)
  | _ => Raise AttributeError
  end.

(** An operand of integer arithmetic ([bool] is a subclass of [int]). *)
Definition as_int (v : pyval) : res Z :=
  match v with
  | PInt n => Ok n
  | PBool b => Ok (if b then 1 else 0)
  | _ => Raise TypeError
  end.

(** [sum(d.values())] *)
Fixpoint sum_values (d : list (string * pyval)) (acc : Z) : res Z :=
  match d with
  | [] => Ok acc
  | (_, v) :: d' =>
      match as_int v with
      | Ok n => sum_values d' (acc + n)
      | Raise e => Raise e
      | Exit c => Exit c
      end
  end.

(** [datetime.strptime(v, '%Y-%m-%d')] *)
Definition py_strptime (v : pyval) : res datetime :=
  match v with
  | PStr s => match strptime s with
              | Some d => Ok (midnight d)
              | None => Raise ValueError
              end
  | _ => Raise TypeError
  end.

End Py.
Import Py.

(** ** The world outside the script *)

Module World.

(** The files next to the script. *)
Inductive path := HistoryJson | SendJson | MessagesJson | ReceiveJson.

(** A file as [open] and [json.load] see it. *)
Inductive file :=
| Missing              (* the file does not exist *)
| Unreadable           (* it exists, but opening or reading it raises *)
| Blank                (* zero bytes, the state [open(path, 'w')] leaves *)
| Garbage              (* text that [json.load] rejects *)
| Json (v : pyval).    (* the JSON text of [v] *)

(** The user's crontab: the [crontab] program may be missing (running it
    raises); otherwise the user has a table or none. A table is the text
    [crontab -l] writes, in UTF-8; the script reads it through
    [universal_newlines]. *)
Inductive crontab :=
| CronUnavailable
| CronTable (table : option string).

(** How one run of the swaks executable ends. *)
Inductive swaks_outcome :=
| SwaksOk
| SwaksFailed (stderr : string)
| SwaksTimeout
| SwaksError.

(** The arguments of one swaks invocation that vary. *)
Record swaks_cmd := mkcmd {
  cmd_sender : string;
  cmd_password : string;
  cmd_display_name : pyval;
  cmd_x_mailer : string;
  cmd_priority : string;
  cmd_recipient : string;
  cmd_subject : string;
  cmd_body : string
}.

Inductive day_label := DayForced | DayNumber (n : Z).

(** One constructor per [print] of the script, with the values it
    interpolates. *)
Inductive msg :=
| MsgCronExists
| MsgCronSetUp (cron_command : string)
| MsgCronSetupFailed
| MsgCronSetupError
| MsgNoCrontab
| MsgCronEntryNotFound
| MsgCronRemoved
| MsgCronRemoveError
| MsgFiveDaysCompleted (days_passed : Z)
| MsgFileNotFound (p : path)
| MsgInvalidJson (p : path)
| MsgErrorReading (p : path)
| MsgSending (recipient : pyval)
| MsgSubject (subject : pyval)
| MsgFrom (display_name sender : pyval)
| MsgSent (recipient : pyval)
| MsgSendFailed (recipient : pyval)
| MsgSendStderr (stderr : string)
| MsgSendTimeout (recipient : pyval)
| MsgSendError (recipient : pyval)
| MsgCronHasBeenSetUp
| MsgCronWillRemoveItself
| MsgStatusHeader
| MsgCampaignStarted (start_date : pyval)
| MsgCurrentDay (day_number : Z)
| MsgDailyHistoryHeader
| MsgDailyHistoryLine (date : string) (count : pyval)
| MsgNoCampaign
| MsgLoadingConfig
| MsgCouldNotLoad (p : path)
| MsgNotAnArray (p : path)
| MsgSwaksNotFound
| MsgSwaksHint
| MsgFoundCredentials (n : Z)
| MsgFoundMessages (n : Z)
| MsgFoundRecipients (n : Z)
| MsgBlank
| MsgForceSending (n : Z)
| MsgPlanning (day_number n : Z)
| MsgNoEmails
| MsgWarnRecipients (requested available : Z)
| MsgProcessing (i n : Z)
| MsgInvalidRecipient (recipient : pyval)
| MsgInvalidCredentials
| MsgWaiting (delay : Z)
| MsgSummaryHeader
| MsgAttempted (day : day_label) (n : Z)
| MsgSuccessful (n : Z)
| MsgFailedSends (n : Z)
| MsgHistoryUpdated (today : string)
| MsgRemaining (n : Z).

(** What the script does to the outside, in order. *)
Inductive event :=
| Print (m : msg)
| Sleep (seconds : Z)
| RunSwaks (c : swaks_cmd).

Record world := mkworld {
  files : path -> file;
  record_writable : bool;          (* [open(history_file, 'w')] succeeds *)
  swaks_present : bool;            (* [os.path.exists('./swaks')] *)
  script_path : string;            (* [str(Path(__file__).resolve())] *)
  cron : crontab;
  clock : nat -> datetime;         (* the successive [datetime.now()] *)
  clock_reads : nat;
  random_source : nat -> nat;      (* the successive random draws *)
  draws : nat;
  swaks_run : nat -> swaks_outcome; (* how the successive swaks runs end *)
  swaks_runs : nat;
  trace : list event;
  patience : nat;                  (* the redraws followed, see [redraw] *)
  install_code : Z                 (* the return code of [crontab -] *)
}.

Definition set_file (p : path) (f : file) (w : world) : world :=
  mkworld (fun q => match p, q with
                    | HistoryJson, HistoryJson | SendJson, SendJson
                    | MessagesJson, MessagesJson | ReceiveJson, ReceiveJson => f
                    | _, _ => files w q
                    end)
    (record_writable w) (swaks_present w) (script_path w) (cron w) (clock w)
    (clock_reads w)
    (random_source w) (draws w) (swaks_run w) (swaks_runs w) (trace w)
    (patience w) (install_code w).

Definition set_cron (c : crontab) (w : world) : world :=
  mkworld (files w) (record_writable w) (swaks_present w) (script_path w) c (clock w)
    (clock_reads w) (random_source w) (draws w) (swaks_run w) (swaks_runs w)
    (trace w) (patience w) (install_code w).

Definition tick (w : world) : world :=
  mkworld (files w) (record_writable w) (swaks_present w) (script_path w) (cron w) (clock w)
    (S (clock_reads w)) (random_source w) (draws w) (swaks_run w)
    (swaks_runs w) (trace w) (patience w) (install_code w).

Definition drew (w : world) : world :=
  mkworld (files w) (record_writable w) (swaks_present w) (script_path w) (cron w) (clock w)
    (clock_reads w) (random_source w) (S (draws w)) (swaks_run w)
    (swaks_runs w) (trace w) (patience w) (install_code w).

Definition ran_swaks (w : world) : world :=
  mkworld (files w) (record_writable w) (swaks_present w) (script_path w) (cron w) (clock w)
    (clock_reads w) (random_source w) (draws w) (swaks_run w)
    (S (swaks_runs w)) (trace w) (patience w) (install_code w).

Definition emit (e : event) (w : world) : world :=
  mkworld (files w) (record_writable w) (swaks_present w) (script_path w) (cron w) (clock w)
    (clock_reads w) (random_source w) (draws w) (swaks_run w) (swaks_runs w)
    (trace w ++ [e]) (patience w) (install_code w).

(** *** The state-and-error monad of the script *)

Definition M (A : Type) : Type := world -> res A * world.

Definition ret {A} (a : A) : M A := fun w => (Ok a, w).

Definition bind {A B} (m : M A) (k : A -> M B) : M B :=
  fun w => match m w with
           | (Ok a, w') => k a w'
           | (Raise e, w') => (Raise e, w')
           | (Exit c, w') => (Exit c, w')
           end.

(** The outcome of a pure dynamic operation, in the monad. *)
Definition lift {A} (r : res A) : M A := fun w => (r, w).

Definition raise {A} (e : exn) : M A := lift (Raise e).

(** [sys.exit(code)] *)
Definition sys_exit {A} (code : Z) : M A := lift (Exit code).

(** [print(...)]: the line goes to standard output, a UTF-8 stream that is
    taken to accept every line of the values above. *)
Definition print (m : msg) : M unit := fun w => (Ok tt, emit (Print m) w).

(** [time.sleep(seconds)] *)
Definition sleep (seconds : Z) : M unit :=
  fun w => (Ok tt, emit (Sleep seconds) w).

(** [datetime.now()] *)
Definition datetime_now : M datetime :=
  fun w => (Ok (clock w (clock_reads w)), tick w).

(** A uniform draw from [0, n), for [n > 0]. *)
Definition randbelow (n : nat) : M nat :=
  fun w => (Ok (random_source w (draws w) mod n)%nat, drew w).

End World.
Import World.

Declare Scope monad_scope.
Delimit Scope monad_scope with monad.
Notation "x <- m ;; k" := (bind m (fun x => k))
  (at level 61, m at next level, right associativity) : monad_scope.
Notation "' pat <- m ;; k" := (bind m (fun x => match x with pat => k end))
  (at level 61, pat pattern, m at next level, right associativity)
  : monad_scope.
Notation "m ;; k" := (bind m (fun _ => k))
  (at level 61, right associativity) : monad_scope.
Local Open Scope monad_scope.

(** ** The script *)

Module Script.

(** *** State store *)

(** The value of [{"start_date": None, "daily_sends": {}}]. *)
Definition FRESH_HISTORY : pyval :=
  PDict [("start_date", PNone); ("daily_sends", PDict [])].

(** [load_history]: the decoded record when the file exists and both
    [open] and [json.load] succeed; every exception of the two is passed
    over and the fresh value returned, as it is when the file is absent. *)
Definition load_history : M pyval :=
  fun w =>
    match files w HistoryJson with
    | Missing => (Ok FRESH_HISTORY, w)
    | Json v => (Ok v, w)
    | Unreadable | Blank | Garbage => (Ok FRESH_HISTORY, w)
    end.

(** What [save_history] does to the file system, step by step:
    [open(history_file, 'w')] truncates the file at its own path, and the
    encoded text is in place once the [with] block has closed the file. *)
Inductive fs_op :=
| OpenTruncate (p : path)
| WriteJson (p : path) (v : pyval).

Definition fs_op_path (op : fs_op) : path :=
  match op with
  | OpenTruncate p => p
  | WriteJson p _ => p
  end.

Definition apply_fs_op (op : fs_op) (w : world) : world :=
  match op with
  | OpenTruncate p => set_file p Blank w
  | WriteJson p v => set_file p (Json v) w
  end.

Definition save_history_ops (history : pyval) : list fs_op :=
  [OpenTruncate HistoryJson; WriteJson HistoryJson history].

(** [save_history]; when the file cannot be opened for writing, [open]
    raises before anything is touched. *)
Definition save_history (history : pyval) : M unit :=
  fun w =>
    if record_writable w
    then (Ok tt, fold_left (fun w op => apply_fs_op op w)
                           (save_history_ops history) w)
    else (Raise OSError, w).

(** The successive worlds another process can observe while a list of
    file-system steps runs, the initial one included. *)
Fixpoint observable (ops : list fs_op) (w : world) : list world :=
  match ops with
  | [] => [w]
  | op :: ops' => w :: observable ops' (apply_fs_op op w)
  end.

(** [update_history]; the dictionary is mutated in place, so the caller's
    [history] is the returned one from here on. *)
Definition update_history (history : pyval) (date : string) (count : Z)
  : M pyval :=
  daily_sends <- lift (getitem history "daily_sends") ;;
  old <- lift (get_default daily_sends date (PInt 0)) ;;
  n <- lift (as_int old) ;;
  daily_sends <- lift (getitem history "daily_sends") ;;
  daily_sends <- lift (setitem daily_sends date (PInt (n + count))) ;;
  history <- lift (setitem history "daily_sends" daily_sends) ;;
  save_history history ;;
  ret history.

(** *** Quota *)

(** [get_current_day_info]; it may set [history["start_date"]], so the
    history is returned together with [(day_number, emails_to_send,
    today)]. *)
Definition get_current_day_info (history : pyval)
  : M (pyval * (Z * Z * string)) :=
  now <- datetime_now ;;
  let today := strftime (dt_date now) in
  start <- lift (getitem history "start_date") ;;
  '(history, day_number) <-
    (if negb (truthy start) then
       history <- lift (setitem history "start_date" (PStr today)) ;;
       ret (history, 1)
     else
       start_date <- lift (py_strptime start) ;;
       current_date <- lift (py_strptime (PStr today)) ;;
       ret (history, timedelta_days current_date start_date + 1)) ;;
  daily_sends <- lift (getitem history "daily_sends") ;;
  emails_sent_today <- lift (get_default daily_sends today (PInt 0)) ;;
  sent <- lift (as_int emails_sent_today) ;;
  let emails_to_send := Z.max 0 (day_number - sent) in
  ret (history, (day_number, emails_to_send, today)).

(** *** Trigger *)

Definition cron_command (w : world) : string :=
  "0 10 * * * /usr/bin/python3 " ++ script_path w.

(** [crontab -] with [table] on its standard input: the table of the user
    becomes [table]; the return code of the program is the world's. *)
Definition crontab_install (table : string) : M Z :=
  fun w => (Ok (install_code w), set_cron (CronTable (Some table)) w).

(** [crontab -r] *)
Definition crontab_clear : M unit :=
  fun w => (Ok tt, set_cron (CronTable None) w).

(** [setup_crontab] *)
Definition setup_crontab : M bool :=
  fun w =>
    match cron w with
    | CronUnavailable => (print MsgCronSetupError ;; ret false) w
    | CronTable table =>
        let current_cron := match table with
                            | Some stdout => universal_newlines stdout
                            | None => EmptyString
                            end in
        if contains (script_path w) current_cron then
          (print MsgCronExists ;; ret true) w
        else
          let new_cron :=
            if negb (current_cron =? "")%string
            then rstrip current_cron ++ String NL (cron_command w)
                 ++ String NL EmptyString
            else cron_command w ++ String NL EmptyString in
          (returncode <- crontab_install new_cron ;;
           if returncode =? 0 then
             print (MsgCronSetUp (cron_command w)) ;; ret true
           else
             print MsgCronSetupFailed ;; ret false) w
    end.

(** The lines [remove_crontab] keeps: those without the script path that
    are not blank. *)
Definition kept_lines (script : string) (current_cron : string)
  : list string :=
  filter (fun line => negb (contains script line) && has_non_space line)
         (split_lines current_cron).

(** [remove_crontab] *)
Definition remove_crontab : M bool :=
  fun w =>
    match cron w with
    | CronUnavailable => (print MsgCronRemoveError ;; ret false) w
    | CronTable None => (print MsgNoCrontab ;; ret true) w
    | CronTable (Some stdout) =>
        let current_cron := universal_newlines stdout in
        let new_lines := kept_lines (script_path w) current_cron in
        let removed :=
          existsb (contains (script_path w)) (split_lines current_cron) in
        if negb removed then (print MsgCronEntryNotFound ;; ret true) w
        else
          ((match new_lines with
            | _ :: _ =>
                _ <- crontab_install
                       (join_lines new_lines ++ String NL EmptyString) ;;
                ret tt
            | [] => crontab_clear
            end) ;;
           print MsgCronRemoved ;;
           ret true) w
    end.

(** [check_and_cleanup_crontab] *)
Definition check_and_cleanup_crontab (history : pyval) : M unit :=
  start <- lift (getitem history "start_date") ;;
  if negb (truthy start) then ret tt
  else
    start_date <- lift (py_strptime start) ;;
    current_date <- datetime_now ;;
    let days_passed := timedelta_days current_date start_date + 1 in
    if 5 <? days_passed then
      print (MsgFiveDaysCompleted days_passed) ;;
      _ <- remove_crontab ;;
      ret tt
    else ret tt.

(** *** Dispatch *)

(** [random.choice(seq)] *)
Definition random_choice {A} (seq : list A) : M A :=
  match seq with
  | [] => raise IndexError
  | _ :: _ =>
      j <- randbelow (List.length seq) ;;
      match nth_error seq j with
      | Some x => ret x
      | None => raise IndexError
      end
  end.

(** [pool[j] = x] *)
Fixpoint list_update {A} (pool : list A) (j : nat) (x : A) : list A :=
  match pool, j with
  | [], _ => []
  | _ :: pool', O => x :: pool'
  | y :: pool', S j' => y :: list_update pool' j' x
  end.

(** The loop of [random.sample] over its pool: the [i]-th pick is
    [pool[j]] for a draw [j] below [n - i], and the last live slot is moved
    into the hole. *)
Fixpoint sample_pool {A} (pool : list A) (n k : nat) : M (list A) :=
  match k with
  | O => ret []
  | S k' =>
      j <- randbelow n ;;
      match nth_error pool j, nth_error pool (n - 1) with
      | Some x, Some y =>
          rest <- sample_pool (list_update pool j y) (n - 1) k' ;;
          ret (x :: rest)
      | _, _ => raise IndexError
      end
  end.

(** The least power of 4 that is at least [m], from the power [p] on. *)
Fixpoint power_of_4_from (fuel : nat) (p m : Z) : Z :=
  match fuel with
  | O => p
  | S fuel' => if m <=? p then p else power_of_4_from fuel' (4 * p) m
  end.

(** [setsize] of [random.sample]: 21, plus [4 ** ceil(log(3 * k, 4))] when
    more than 5 entries are asked for. (The logarithm of the library is
    in floating point; it gives this power for every list that fits in
    memory.) *)
Definition setsize (k : nat) : Z :=
  21 + (if (5 <? k)%nat
        then power_of_4_from k 1 (3 * Z.of_nat k)
        else 0).

(** [while j in selected: j = randbelow(n)]. The loop of the library has
    no bound; it is followed for [fuel] redraws, and a loop still running
    then is reported as [Hang]. *)
Fixpoint redraw (fuel n : nat) (selected : list nat) (j : nat) : M nat :=
  if existsb (Nat.eqb j) selected then
    match fuel with
    | O => raise Hang
    | S fuel' => j' <- randbelow n ;; redraw fuel' n selected j'
    end
  else ret j.

(** The other loop of [random.sample], over the set of the positions
    selected so far: the [i]-th pick is [population[j]] for the first draw
    [j] below [n] that is not in the set. *)
Fixpoint sample_set {A} (population : list A) (n k : nat)
    (selected : list nat) : M (list A) :=
  match k with
  | O => ret []
  | S k' =>
      j <- randbelow n ;;
      fuel <- (fun w => (Ok (patience w), w)) ;;
      j <- redraw fuel n selected j ;;
      match nth_error population j with
      | Some x =>
          rest <- sample_set population n k' (j :: selected) ;;
          ret (x :: rest)
      | None => raise IndexError
      end
  end.

(** [random.sample(population, k)]: over a pool when the list has at most
    [setsize] entries, over the set of selected positions otherwise. *)
Definition random_sample {A} (population : list A) (k : nat) : M (list A) :=
  let n := List.length population in
  if (k <=? n)%nat then
    if Z.of_nat n <=? setsize k then sample_pool population n k
    else sample_set population n k []
  else raise ValueError.

(** [random.randint(a, b)] *)
Definition randint (a b : Z) : M Z :=
  j <- randbelow (Z.to_nat (b - a + 1)) ;;
  ret (a + Z.of_nat j).

Definition X_MAILERS : list string :=
  [ "Microsoft Outlook 16.0"; "Microsoft Outlook 15.0";
    "Mozilla Thunderbird 78.14.0"; "Mozilla Thunderbird 91.13.0";
    "Apple Mail (16.0)"; "Apple Mail (14.0)"; "Gmail - Android";
    "Outlook-Android/2.0"; "Microsoft Outlook Express 6.00.2900.5512" ].

Definition PRIORITIES : list string :=
  [ "1 (Highest)"; "3 (Normal)"; "5 (Lowest)" ].

Definition as_str (v : pyval) : option string :=
  match v with
  | PStr s => Some s
  | _ => None
  end.

(** [subprocess.run(cmd, ...)] on the swaks command line *)
Definition run_swaks (c : swaks_cmd) : M swaks_outcome :=
  fun w => (Ok (swaks_run w (swaks_runs w)), emit (RunSwaks c) (ran_swaks w)).

(** [send_email]. An argument of the command line that is not a string
    makes [subprocess.run] raise before anything runs; like every other
    exception it is caught and reported. *)
Definition send_email
    (sender_email sender_password sender_display_name recipient_email
     subject body : pyval) : M bool :=
  selected_xmailer <- random_choice X_MAILERS ;;
  selected_priority <- random_choice PRIORITIES ;;
  print (MsgSending recipient_email) ;;
  print (MsgSubject subject) ;;
  print (MsgFrom sender_display_name sender_email) ;;
  match as_str sender_email, as_str sender_password, as_str recipient_email,
        as_str subject, as_str body with
  | Some se, Some sp, Some re, Some su, Some bo =>
      result <- run_swaks (mkcmd se sp sender_display_name selected_xmailer
                             selected_priority re su bo) ;;
      match result with
      | SwaksOk => print (MsgSent recipient_email) ;; ret true
      | SwaksFailed stderr =>
          print (MsgSendFailed recipient_email) ;;
          print (MsgSendStderr stderr) ;;
          ret false
      | SwaksTimeout => print (MsgSendTimeout recipient_email) ;; ret false
      | SwaksError => print (MsgSendError recipient_email) ;; ret false
      end
  | _, _, _, _, _ => print (MsgSendError recipient_email) ;; ret false
  end.

Definition DEFAULT_SUBJECT : string := "Hello Great Meetings".
Definition DEFAULT_BODY : string :=
  "Hey there, just wanted to say thanks for the great meeting and business conversation the other day!".

(** The recipient's address: the entry itself when it is a string, its
    ['email'] when it is a dictionary that has one. *)
Definition recipient_email_of (recipient : pyval) : option pyval :=
  match recipient with
  | PStr _ => Some recipient
  | PDict d => dict_get d "email"
  | _ => None
  end.

(** The body of the [for] loop of [main] once the credentials and the
    message have been drawn for the [i]-th selected recipient (from "Extract
    recipient email" on): the new value of [successful_sends]. *)
Definition dispatch_selected (selected_creds selected_message : pyval)
    (emails_to_send i : Z) (recipient : pyval) (successful_sends : Z) : M Z :=
  match recipient_email_of recipient with
  | None => print (MsgInvalidRecipient recipient) ;; ret successful_sends
  | Some recipient_email =>
      sender_email <- lift (get_default selected_creds "email" (PStr "")) ;;
      sender_password <-
        lift (get_default selected_creds "password" (PStr "")) ;;
      sender_display_name <-
        lift (get_default selected_creds "display_name" sender_email) ;;
      subject <-
        lift (get_default selected_message "subject" (PStr DEFAULT_SUBJECT)) ;;
      body <- lift (get_default selected_message "body" (PStr DEFAULT_BODY)) ;;
      if negb (truthy sender_email) || negb (truthy sender_password) then
        print MsgInvalidCredentials ;; ret successful_sends
      else
        sent <- send_email sender_email sender_password sender_display_name
                  recipient_email subject body ;;
        let successful_sends :=
          if sent : bool then successful_sends + 1 else successful_sends in
        (if i <? emails_to_send then
           delay <- randint 30 180 ;;
           print (MsgWaiting delay) ;;
           sleep delay ;;
           print MsgBlank
         else ret tt) ;;
        ret successful_sends
  end.

(** The body of the [for] loop of [main] for the [i]-th selected
    recipient. *)
Definition process_recipient (send_data messages_data : list pyval)
    (emails_to_send i : Z) (recipient : pyval) (successful_sends : Z) : M Z :=
  print (MsgProcessing i emails_to_send) ;;
  selected_creds <- random_choice send_data ;;
  selected_message <- random_choice messages_data ;;
  dispatch_selected selected_creds selected_message emails_to_send i
    recipient successful_sends.

(** [for i, recipient in enumerate(selected_recipients, 1): ...] *)
Fixpoint send_loop (send_data messages_data : list pyval)
    (emails_to_send : Z) (selected_recipients : list pyval) (i : Z)
    (successful_sends : Z) : M Z :=
  match selected_recipients with
  | [] => ret successful_sends
  | recipient :: rest =>
      successful_sends <-
        process_recipient send_data messages_data emails_to_send i recipient
          successful_sends ;;
      send_loop send_data messages_data emails_to_send rest (i + 1)
        successful_sends
  end.

(** *** Orchestration *)

(** [load_json_file(filename)]: [None] after a diagnostic when the file
    cannot be opened or decoded. *)
Definition load_json_file (filename : path) : M pyval :=
  fun w =>
    match files w filename with
    | Json data => (Ok data, w)
    | Missing => (print (MsgFileNotFound filename) ;; ret PNone) w
    | Blank | Garbage => (print (MsgInvalidJson filename) ;; ret PNone) w
    | Unreadable => (print (MsgErrorReading filename) ;; ret PNone) w
    end.

(** The command line, as [parse_arguments] returns it. *)
Record args := mkargs {
  setup_cron : bool;
  remove_cron : bool;
  force_send : option Z;
  status : bool
}.

(** [bool(args.force_send)]: the option was given and is not zero. *)
Definition force_requested (a : args) : bool :=
  match force_send a with
  | Some n => negb (n =? 0)
  | None => false
  end.

(** [isinstance(v, list)] and the list itself. *)
Definition is_list (v : pyval) : bool :=
  match v with
  | PList _ => true
  | _ => false
  end.

Definition list_of (v : pyval) : list pyval :=
  match v with
  | PList l => l
  | _ => []
  end.

Definition len (v : pyval) : Z := Z.of_nat (List.length (list_of v)).

(** [d.items()] and [d.values()] exist on dictionaries only. *)
Definition dict_of (v : pyval) : res (list (string * pyval)) :=
  match v with
  | PDict d => Ok d
  | _ => Raise AttributeError
  end.

(** [sorted(items)] for the items of a dictionary: by key. *)
Fixpoint insert_item (x : string * pyval) (l : list (string * pyval))
  : list (string * pyval) :=
  match l with
  | [] => [x]
  | y :: l' =>
      if String.leb (fst y) (fst x) then y :: insert_item x l' else x :: y :: l'
  end.

Definition sorted_items (l : list (string * pyval)) : list (string * pyval) :=
  fold_left (fun acc x => insert_item x acc) l [].

Fixpoint print_history_lines (items : list (string * pyval)) : M unit :=
  match items with
  | [] => ret tt
  | (date, count) :: rest =>
      print (MsgDailyHistoryLine date count) ;; print_history_lines rest
  end.

(** The [--status] branch of [main]. *)
Definition show_status (history : pyval) : M unit :=
  print MsgStatusHeader ;;
  start <- lift (getitem history "start_date") ;;
  if truthy start then
    start_date <- lift (py_strptime start) ;;
    current_date <- datetime_now ;;
    let day_number := timedelta_days current_date start_date + 1 in
    print (MsgCampaignStarted start) ;;
    print (MsgCurrentDay day_number) ;;
    print MsgDailyHistoryHeader ;;
    daily_sends <- lift (getitem history "daily_sends") ;;
    items <- lift (dict_of daily_sends) ;;
    print_history_lines (sorted_items items)
  else print MsgNoCampaign.

(** [if not ok: print(message); sys.exit(1)] *)
Definition require (ok : bool) (message : msg) : M unit :=
  if ok then ret tt else print message ;; sys_exit 1.

(** The blocks "Limit emails to available recipients" and "Randomly select
    recipients for today" of [main]: the clamped number of emails and the
    recipients selected. *)
Definition select_recipients (emails_to_send : Z) (receive_data : list pyval)
  : M (Z * list pyval) :=
  let available_recipients := Z.of_nat (List.length receive_data) in
  emails_to_send <-
    (if available_recipients <? emails_to_send then
       print (MsgWarnRecipients emails_to_send available_recipients) ;;
       ret available_recipients
     else ret emails_to_send) ;;
  selected_recipients <-
    random_sample receive_data (Z.to_nat emails_to_send) ;;
  ret (emails_to_send, selected_recipients).

(** The part of [main] from "Determine how many emails to send today" to
    the end, once the three datasets are known to be non-empty lists. *)
Definition run_campaign (a : args) (history : pyval)
    (send_data messages_data receive_data : list pyval) : M unit :=
  '(history, day_number, emails_to_send, today) <-
    (if force_requested a then
       let emails_to_send := match force_send a with
                             | Some n => n
                             | None => 0
                             end in
       now <- datetime_now ;;
       print (MsgForceSending emails_to_send) ;;
       ret (history, DayForced, emails_to_send, strftime (dt_date now))
     else
       '(history, (day_number, emails_to_send, today)) <-
         get_current_day_info history ;;
       print (MsgPlanning day_number emails_to_send) ;;
       ret (history, DayNumber day_number, emails_to_send, today)) ;;
  if emails_to_send <=? 0 then print MsgNoEmails
  else
    '(emails_to_send, selected_recipients) <-
      select_recipients emails_to_send receive_data ;;
    successful_sends <-
      send_loop send_data messages_data emails_to_send selected_recipients
        1 0 ;;
    history <-
      (if negb (force_requested a) && (0 <? successful_sends)
       then update_history history today successful_sends
       else ret history) ;;
    print MsgSummaryHeader ;;
    print (MsgAttempted day_number emails_to_send) ;;
    print (MsgSuccessful successful_sends) ;;
    print (MsgFailedSends (emails_to_send - successful_sends)) ;;
    if negb (force_requested a) then
      print (MsgHistoryUpdated today) ;;
      daily_sends <- lift (getitem history "daily_sends") ;;
      values <- lift (dict_of daily_sends) ;;
      total <- lift (sum_values values 0) ;;
      print (MsgRemaining (Z.of_nat (List.length receive_data) - total))
    else ret tt.

(** [main], for the command line [a]. *)
Definition main (a : args) : M unit :=
  if setup_cron a then
    ok <- setup_crontab ;;
    if ok : bool then
      print MsgCronHasBeenSetUp ;; print MsgCronWillRemoveItself
    else ret tt
  else if remove_cron a then
    _ <- remove_crontab ;; ret tt
  else
    history <- load_history ;;
    if status a then show_status history
    else
      check_and_cleanup_crontab history ;;
      print MsgLoadingConfig ;;
      send_data <- load_json_file SendJson ;;
      require (truthy send_data) (MsgCouldNotLoad SendJson) ;;
      messages_data <- load_json_file MessagesJson ;;
      require (truthy messages_data) (MsgCouldNotLoad MessagesJson) ;;
      receive_data <- load_json_file ReceiveJson ;;
      require (truthy receive_data) (MsgCouldNotLoad ReceiveJson) ;;
      require (is_list send_data && negb (len send_data =? 0))
        (MsgNotAnArray SendJson) ;;
      require (is_list messages_data && negb (len messages_data =? 0))
        (MsgNotAnArray MessagesJson) ;;
      require (is_list receive_data && negb (len receive_data =? 0))
        (MsgNotAnArray ReceiveJson) ;;
      present <- (fun w => (Ok (swaks_present w), w)) ;;
      (if present : bool then ret tt
       else print MsgSwaksNotFound ;; print MsgSwaksHint ;; sys_exit 1) ;;
      print (MsgFoundCredentials (len send_data)) ;;
      print (MsgFoundMessages (len messages_data)) ;;
      print (MsgFoundRecipients (len receive_data)) ;;
      print MsgBlank ;;
      run_campaign a history (list_of send_data) (list_of messages_data)
        (list_of receive_data).

End Script.
Import Script.

(** ** Well-shaped campaign states *)

Module State.

(** The durable record as the specification describes it: a start date or
    none, and a count per day (the keys are the [%Y-%m-%d] texts). *)
Record campaign_state := mkstate {
  start_date : option date;
  daily_sends : list (string * Z)
}.

Definition encode_start (s : option date) : pyval :=
  match s with
  | Some d => PStr (strftime d)
  | None => PNone
  end.

Definition encode_sends (l : list (string * Z)) : list (string * pyval) :=
  map (fun kv => (fst kv, PInt (snd kv))) l.

(** The Python dictionary of a state. *)
Definition encode (st : campaign_state) : pyval :=
  PDict [("start_date", encode_start (start_date st));
         ("daily_sends", PDict (encode_sends (daily_sends st)))].

Fixpoint sends_get (l : list (string * Z)) (k : string) : option Z :=
  match l with
  | [] => None
  | (k', n) :: l' => if (k' =? k)%string then Some n else sends_get l' k
  end.

(** [daily_sends[today]] when that key is present, and 0 otherwise. *)
Definition already_sent (st : campaign_state) (today : string) : Z :=
  match sends_get (daily_sends st) today with
  | Some n => n
  | None => 0
  end.

(** The state once its campaign has been started on [today]. *)
Definition started (st : campaign_state) (today : date) : campaign_state :=
  mkstate (Some today) (daily_sends st).

(** The start date, when there is one, is a date of the calendar. *)
Definition start_valid (st : campaign_state) : bool :=
  match start_date st with
  | Some D => valid_date D
  | None => true
  end.

(** The date the next [datetime.now()] will report. *)
Definition today_of (w : world) : date := dt_date (clock w (clock_reads w)).

Definition clock_valid (w : world) : bool :=
  valid_datetime (clock w (clock_reads w)).

End State.
Import State.

(** ** Notions the properties are stated with *)

Module Notions.

(** The lines of the user's crontab, as [remove_crontab] reads them. *)
Definition cron_lines (c : crontab) : list string :=
  match c with
  | CronTable (Some stdout) => split_lines (universal_newlines stdout)
  | CronTable None | CronUnavailable => []
  end.

(** The trigger is registered: some line of the crontab holds the path of
    the script. *)
Definition registered (w : world) : bool :=
  existsb (contains (script_path w)) (cron_lines (cron w)).

(** The shape the specification gives the durable record: a dictionary
    whose [start_date] is null or a date and whose [daily_sends] maps to
    non-negative integers. *)
Definition is_count (v : pyval) : bool :=
  match v with
  | PInt n => 0 <=? n
  | _ => false
  end.

Definition is_start_date (v : pyval) : bool :=
  match v with
  | PNone => true
  | PStr s => match strptime s with Some _ => true | None => false end
  | _ => false
  end.

Definition well_shaped (v : pyval) : bool :=
  match v with
  | PDict d =>
      match dict_get d "start_date", dict_get d "daily_sends" with
      | Some s, Some (PDict sends) =>
          is_start_date s && forallb (fun kv => is_count (snd kv)) sends
      | _, _ => false
      end
  | _ => false
  end.

(** A record that is there and can be read, but does not hold a campaign
    state: it does not decode, or decodes to something of another shape. *)
Definition corrupt (f : file) : bool :=
  match f with
  | Missing | Unreadable => false
  | Blank | Garbage => true
  | Json v => negb (well_shaped v)
  end.


(** The history [load_history] returns in a world. *)
Definition loaded_history (w : world) : pyval :=
  match files w HistoryJson with
  | Json v => v
  | Missing | Unreadable | Blank | Garbage => FRESH_HISTORY
  end.

(** Running [m] leaves the component [f] of the world as it was. *)
Definition keeps {X A : Type} (f : world -> X) (m : M A) : Prop :=
  forall w, f (snd (m w)) = f w.

(** No run of swaks succeeds in this world. *)
Definition no_send_succeeds (w : world) : Prop :=
  forall n, swaks_run w n <> SwaksOk.

(** How the swaks runs end, and the files. *)
Definition sends_and_files (w : world)
  : (nat -> swaks_outcome) * (path -> file) :=
  (swaks_run w, files w).

(** Where no run of swaks succeeds, [m] changes neither that nor the
    files. *)
Definition quiet {A : Type} (m : M A) : Prop :=
  forall w, no_send_succeeds w ->
            sends_and_files (snd (m w)) = sends_and_files w.

(** Two worlds that differ at most in what [history.json] holds. *)
Definition same_but_record (w1 w2 : world) : Prop :=
  (forall p, p <> HistoryJson -> files w1 p = files w2 p) /\
  record_writable w1 = record_writable w2 /\
  swaks_present w1 = swaks_present w2 /\
  script_path w1 = script_path w2 /\
  cron w1 = cron w2 /\
  clock w1 = clock w2 /\
  clock_reads w1 = clock_reads w2 /\
  random_source w1 = random_source w2 /\
  draws w1 = draws w2 /\
  swaks_run w1 = swaks_run w2 /\
  swaks_runs w1 = swaks_runs w2 /\
  trace w1 = trace w2 /\
  patience w1 = patience w2 /\
  install_code w1 = install_code w2.

(** [m] does not look at what [history.json] holds: from two worlds that
    differ at most there it gives the same outcome and two worlds that
    differ at most there. *)
Definition blind {A : Type} (m : M A) : Prop :=
  forall w1 w2, same_but_record w1 w2 ->
                fst (m w1) = fst (m w2) /\
                same_but_record (snd (m w1)) (snd (m w2)).

(** The world once a list of file-system steps has run. *)
Definition run_fs_ops (ops : list fs_op) (w : world) : world :=
  fold_left (fun w op => apply_fs_op op w) ops w.

(** A list of file-system steps replaces the file at [p] atomically: at
    every moment another process finds there either what was there before or
    what is there in the end. *)
Definition atomic_on (p : path) (ops : list fs_op) (w : world) : Prop :=
  forall w', In w' (observable ops w) ->
             files w' p = files w p \/ files w' p = files (run_fs_ops ops w) p.

(** [selected] holds the entries of [population] at pairwise different
    positions. *)
Definition drawn_without_replacement (population selected : list pyval)
  : Prop :=
  exists positions : list nat,
    NoDup positions /\
    Forall (fun p => (p < List.length population)%nat) positions /\
    selected = map (fun p => nth p population PNone) positions.

(** The positions the [patience w + 1] draws from the [d]-th on fall on,
    for a list of [n] entries: what one search of [random.sample] for a
    position not yet selected gets to see. *)
Definition window (w : world) (n d : nat) : list nat :=
  map (fun i => (random_source w i mod n)%nat) (seq d (S (patience w))).

(** From now on, any [patience w + 1] draws in a row fall on at least [k]
    different positions. *)
Definition varied (w : world) (n k : nat) : Prop :=
  forall d, (draws w <= d)%nat ->
            (k <= List.length (nodup Nat.eq_dec (window w n d)))%nat.

End Notions.
Import Notions.

(** ** Sample worlds *)

Module Samples.

Definition SCRIPT : string := "/opt/mercury/email_sender.py".

(** Ten o'clock in the morning of a date, when the crontab entry fires. *)
Definition ten_am (d : date) : datetime :=
  mkdatetime d (10 * 3600 * 1000000).

Definition CREDENTIALS : pyval :=
  PList [PDict [("email", PStr "sender@example.org");
                ("password", PStr "secret")]].

Definition MESSAGES : pyval :=
  PList [PDict [("subject", PStr "Hello"); ("body", PStr "Thanks")]].

Definition RECIPIENTS : pyval :=
  PList [PStr "a@example.org"; PStr "b@example.org"].

(** The crontab after [--setup-cron] next to another user entry. *)
Definition CRON_TEXT : string :=
  "0 10 * * * /usr/bin/python3 " ++ SCRIPT ++ String NL
  ("30 2 * * * /usr/bin/backup" ++ String NL EmptyString).

(** A world where it is ten o'clock on [d], the history file is [history]
    and can be written,
    the three datasets are the ones above, every random draw is [draw],
    every swaks run ends as [outcome], [random.sample] is followed for 8
    redraws, and [crontab -] returns 0. *)
Definition sample_world (d : date) (history : file) (draw : nat)
    (outcome : swaks_outcome) : world :=
  mkworld
    (fun p => match p with
              | HistoryJson => history
              | SendJson => Json CREDENTIALS
              | MessagesJson => Json MESSAGES
              | ReceiveJson => Json RECIPIENTS
              end)
    true true SCRIPT (CronTable (Some CRON_TEXT))
    (fun _ => ten_am d) 0 (fun _ => draw) 0 (fun _ => outcome) 0 [] 8 0.


(** The sample world of a user who has no crontab yet. *)
Definition no_crontab_world (d : date) : world :=
  set_cron (CronTable None) (sample_world d Missing 0 SwaksOk).

(** The sample world of a user whose crontab holds one other entry. *)
Definition other_entry_world (d : date) : world :=
  set_cron
    (CronTable (Some ("30 2 * * * /usr/bin/backup" ++ String NL EmptyString)))
    (sample_world d Missing 0 SwaksOk).


(** The sample world of a user whose crontab holds other entries, written
    with carriage returns and with a line of one no-break space. *)
Definition foreign_text_world (d : date) : world :=
  set_cron
    (CronTable
       (Some ("MAILTO=ops" ++ String CR (String NL
              ("30 2 * * * /usr/bin/backup" ++ String CR
               (String (ascii_of_nat 194) (String (ascii_of_nat 160)
                  (String NL EmptyString))))))))
    (sample_world d Missing 0 SwaksOk).

(** Credentials of which the second entry is no object. *)
Definition MIXED_CREDENTIALS : list pyval :=
  [PDict [("email", PStr "sender@example.org"); ("password", PStr "secret")];
   PStr "sender@example.org:secret"].

(** The sample world with the random draws 0, 1, 2, ... *)
Definition counting_world (d : date) : world :=
  mkworld (files (sample_world d Missing 0 SwaksOk))
    true true SCRIPT (CronTable (Some CRON_TEXT))
    (fun _ => ten_am d) 0 (fun n => n) 0 (fun _ => SwaksOk) 0 [] 8 0.

(** A list of 22 recipients, one more than the pool loop of
    [random.sample] takes for a small request: the integers 0 to 21. *)
Definition MANY_RECIPIENTS : list pyval :=
  map (fun i => PInt (Z.of_nat i)) (seq 0 22).

(** The sample world with the random draws 0, 0, 21, 21, ... *)
Definition repeating_world (d : date) : world :=
  mkworld (files (sample_world d Missing 0 SwaksOk))
    true true SCRIPT (CronTable (Some CRON_TEXT))
    (fun _ => ten_am d) 0
    (fun i => match i with 0 | 1 => 0 | _ => 21 end)%nat 0
    (fun _ => SwaksOk) 0 [] 8 0.

Definition SCHEDULED : args := mkargs false false None false.

Definition FORCED (n : Z) : args := mkargs false false (Some n) false.

End Samples.
Import Samples.

(** ** Notions for the further properties *)

From Stdlib Require Import Sorted.

Module Further.

(** The text [setup_crontab] works on: the table, or nothing when the user
    has none. *)
Definition current_text (c : crontab) : string :=
  match c with
  | CronTable (Some stdout) => universal_newlines stdout
  | CronTable None | CronUnavailable => EmptyString
  end.

(** The lines of a crontab that are not blank. *)
Definition nonblank_lines (c : crontab) : list string :=
  filter has_non_space (cron_lines c).


(** [daily_sends[k] = n] on the counts of a state: in place when the day
    is there, at the end otherwise. *)
Fixpoint sends_set (l : list (string * Z)) (k : string) (n : Z)
  : list (string * Z) :=
  match l with
  | [] => [(k, n)]
  | (k', n') :: l' =>
      if (k' =? k)%string then (k, n) :: l' else (k', n') :: sends_set l' k n
  end.

(** The state once [count] more sends have been recorded for [date]. *)
Definition record_sent (st : campaign_state) (date : string) (count : Z)
  : campaign_state :=
  mkstate (start_date st)
    (sends_set (daily_sends st) date (already_sent st date + count)).

(** *** What a run does to the outside *)

Definition is_sleep (e : event) : bool :=
  match e with
  | Sleep _ => true
  | _ => false
  end.

Definition is_run (e : event) : bool :=
  match e with
  | RunSwaks _ => true
  | _ => false
  end.

(** A pause is paced when it lasts between 30 and 180 seconds. *)
Definition paced (e : event) : bool :=
  match e with
  | Sleep seconds => (30 <=? seconds) && (seconds <=? 180)
  | _ => true
  end.

(** From [w] to [w'] the trace has only grown, every added pause is paced,
    swaks has been run once per added [RunSwaks], at most [runs] times, and
    there are at most [pauses] added pauses. *)
Definition attempt_log (runs pauses : nat) (w w' : world) : Prop :=
  exists evs,
    trace w' = (trace w ++ evs)%list /\
    forallb paced evs = true /\
    swaks_runs w' = (swaks_runs w + List.length (filter is_run evs))%nat /\
    (List.length (filter is_run evs) <= runs)%nat /\
    (List.length (filter is_sleep evs) <= pauses)%nat.

Definition logs {A : Type} (runs pauses : nat) (m : M A) : Prop :=
  forall w, attempt_log runs pauses w (snd (m w)).

(** How many of the [n] swaks runs from the [from]-th on succeed. *)
Fixpoint successes (outcomes : nat -> swaks_outcome) (from n : nat) : Z :=
  match n with
  | O => 0
  | S n' =>
      (match outcomes from with
       | SwaksOk => 1
       | _ => 0
       end) + successes outcomes (S from) n'
  end.

(** How the swaks runs end, and how many there have been. *)
Definition swaks_state (w : world) : (nat -> swaks_outcome) * nat :=
  (swaks_run w, swaks_runs w).

(** [m] does not change how the swaks runs will end, it only runs swaks
    further, and the gain of what it returns is the number of its swaks
    runs that succeeded. *)
Definition counts {A : Type} (gain : A -> Z) (m : M A) : Prop :=
  forall w,
    swaks_run (snd (m w)) = swaks_run w /\
    (swaks_runs w <= swaks_runs (snd (m w)))%nat /\
    forall a, fst (m w) = Ok a ->
              gain a = successes (swaks_run w) (swaks_runs w)
                         (swaks_runs (snd (m w)) - swaks_runs w).

(** What a swaks run, and what [send_email] returns, adds to the tally. *)
Definition outcome_gain (result : swaks_outcome) : Z :=
  match result with
  | SwaksOk => 1
  | _ => 0
  end.

Definition sent_gain (sent : bool) : Z := if sent then 1 else 0.

(** The state a scheduled run works on: the campaign starts today when it
    has not started. *)
Definition begun (st : campaign_state) (today : date) : campaign_state :=
  match start_date st with
  | Some _ => st
  | None => started st today
  end.

(** What [load_json_file] returns for a file, and for the file at [p]. *)
Definition data_of (f : file) : pyval :=
  match f with
  | Json data => data
  | Missing | Unreadable | Blank | Garbage => PNone
  end.

Definition dataset (w : world) (p : path) : pyval := data_of (files w p).

(** [logs], from the worlds in which [receive.json] is [f]. *)
Definition logs_given {A : Type} (f : file) (runs pauses : nat) (m : M A)
  : Prop :=
  forall w, files w ReceiveJson = f -> attempt_log runs pauses w (snd (m w)).

(** The parts of [run_campaign]: the block "Determine how many emails to
    send today", and the rest of [main] from its result on, which ends with
    the summary. *)
Definition plan (a : args) (history : pyval)
  : M (pyval * day_label * Z * string) :=
  if force_requested a then
    let emails_to_send := match force_send a with
                          | Some n => n
                          | None => 0
                          end in
    now <- datetime_now ;;
    print (MsgForceSending emails_to_send) ;;
    ret (history, DayForced, emails_to_send, strftime (dt_date now))
  else
    '(history, (day_number, emails_to_send, today)) <-
      get_current_day_info history ;;
    print (MsgPlanning day_number emails_to_send) ;;
    ret (history, DayNumber day_number, emails_to_send, today).

(** The summary that ends a run. *)
Definition report (a : args) (receive_data : list pyval)
    (day_number : day_label) (emails_to_send : Z) (today : string)
    (successful_sends : Z) (history : pyval) : M unit :=
  print MsgSummaryHeader ;;
  print (MsgAttempted day_number emails_to_send) ;;
  print (MsgSuccessful successful_sends) ;;
  print (MsgFailedSends (emails_to_send - successful_sends)) ;;
  if negb (force_requested a) then
    print (MsgHistoryUpdated today) ;;
    daily_sends <- lift (getitem history "daily_sends") ;;
    values <- lift (dict_of daily_sends) ;;
    total <- lift (sum_values values 0) ;;
    print (MsgRemaining (Z.of_nat (List.length receive_data) - total))
  else ret tt.

Definition deliver (a : args) (send_data messages_data receive_data : list pyval)
    (planned : pyval * day_label * Z * string) : M unit :=
  let '(history, day_number, emails_to_send, today) := planned in
  if emails_to_send <=? 0 then print MsgNoEmails
  else
    '(emails_to_send, selected_recipients) <-
      select_recipients emails_to_send receive_data ;;
    successful_sends <-
      send_loop send_data messages_data emails_to_send selected_recipients
        1 0 ;;
    history <-
      (if negb (force_requested a) && (0 <? successful_sends)
       then update_history history today successful_sends
       else ret history) ;;
    report a receive_data day_number emails_to_send today successful_sends
      history.

(** The day number [get_current_day_info] computes for a state. *)
Definition day_of (st : campaign_state) (today : date) : Z :=
  match start_date st with
  | Some D => toordinal today - toordinal D + 1
  | None => 1
  end.

(** A dataset [main] accepts: a non-empty array. *)
Definition usable (v : pyval) : bool := is_list v && negb (len v =? 0).

(** The part of [main] from "Load JSON files" to the blank line after the
    three counts: the three datasets, once they and the swaks executable
    have passed the checks. *)
Definition load_config : M (pyval * pyval * pyval) :=
  print MsgLoadingConfig ;;
  send_data <- load_json_file SendJson ;;
  require (truthy send_data) (MsgCouldNotLoad SendJson) ;;
  messages_data <- load_json_file MessagesJson ;;
  require (truthy messages_data) (MsgCouldNotLoad MessagesJson) ;;
  receive_data <- load_json_file ReceiveJson ;;
  require (truthy receive_data) (MsgCouldNotLoad ReceiveJson) ;;
  require (is_list send_data && negb (len send_data =? 0))
    (MsgNotAnArray SendJson) ;;
  require (is_list messages_data && negb (len messages_data =? 0))
    (MsgNotAnArray MessagesJson) ;;
  require (is_list receive_data && negb (len receive_data =? 0))
    (MsgNotAnArray ReceiveJson) ;;
  present <- (fun w => (Ok (swaks_present w), w)) ;;
  (if present : bool then ret tt
   else print MsgSwaksNotFound ;; print MsgSwaksHint ;; sys_exit 1) ;;
  print (MsgFoundCredentials (len send_data)) ;;
  print (MsgFoundMessages (len messages_data)) ;;
  print (MsgFoundRecipients (len receive_data)) ;;
  print MsgBlank ;;
  ret (send_data, messages_data, receive_data).

(** What the checks of [load_config] look at. *)
Definition config_state (w : world) : (path -> file) * bool :=
  (files w, swaks_present w).

(** From a world whose files and swaks executable are [c], what [m]
    returns when it ends normally satisfies [Q]. *)
Definition yields {A : Type} (c : (path -> file) * bool) (m : M A)
    (Q : A -> Prop) : Prop :=
  forall w a, config_state w = c -> fst (m w) = Ok a -> Q a.

(** [m] ends normally or by [sys.exit(1)]. *)
Definition settles {A : Type} (m : M A) : Prop :=
  forall w, (exists a, fst (m w) = Ok a) \/ fst (m w) = Exit 1.

(** The order [sorted] puts the items of a dictionary in: by key. *)
Definition key_le (x y : string * pyval) : Prop :=
  String.leb (fst x) (fst y) = true.

(** The line [--status] prints for one item of [daily_sends]. *)
Definition history_line (item : string * pyval) : event :=
  Print (MsgDailyHistoryLine (fst item) (snd item)).

End Further.
Import Further.

(** ** Worked values *)

Example strftime_example : strftime (mkdate 2024 1 3) = "2024-01-03".
Proof. reflexivity. Qed.

Example strptime_example : strptime "2024-01-03" = Some (mkdate 2024 1 3).
Proof. reflexivity. Qed.

Example strptime_short : strptime "2024-1-3" = Some (mkdate 2024 1 3).
Proof. reflexivity. Qed.

Example strptime_feb30 : strptime "2023-02-29" = None.
Proof. reflexivity. Qed.

Example strptime_trailing : strptime "2024-01-032" = None.
Proof. reflexivity. Qed.

Example toordinal_example : toordinal (mkdate 2024 1 3) = 738888.
Proof. reflexivity. Qed.

Example split_lines_example :
  split_lines ("a" ++ String NL "b" ++ String NL "") = ["a"; "b"; ""]%string.
Proof. reflexivity. Qed.

Example rstrip_example : rstrip ("a b " ++ String NL " ") = "a b".
Proof. reflexivity. Qed.

(** The scenarios the specification lists for the quota. *)

Example scenario_fresh_state :
  fst (get_current_day_info (encode (mkstate None []))
         (sample_world (mkdate 2024 1 1) Missing 0 SwaksOk)) =
  Ok (encode (mkstate (Some (mkdate 2024 1 1)) []), (1, 1, "2024-01-01")).
Proof. reflexivity. Qed.

Example scenario_third_day :
  fst (get_current_day_info (encode (mkstate (Some (mkdate 2024 1 1)) []))
         (sample_world (mkdate 2024 1 3) Missing 0 SwaksOk)) =
  Ok (encode (mkstate (Some (mkdate 2024 1 1)) []), (3, 3, "2024-01-03")).
Proof. reflexivity. Qed.

Example scenario_third_day_two_sent :
  fst (get_current_day_info
         (encode (mkstate (Some (mkdate 2024 1 1)) [("2024-01-03", 2)]))
         (sample_world (mkdate 2024 1 3) Missing 0 SwaksOk)) =
  Ok (encode (mkstate (Some (mkdate 2024 1 1)) [("2024-01-03", 2)]),
      (3, 1, "2024-01-03")).
Proof. reflexivity. Qed.

Example scenario_two_recipients_quota_five :
  fst (select_recipients 5 (list_of RECIPIENTS)
         (sample_world (mkdate 2024 1 5) Missing 0 SwaksOk)) =
  Ok (2, [PStr "a@example.org"; PStr "b@example.org"]).
Proof. reflexivity. Qed.

Example scenario_leap_day :
  add_days (mkdate 2024 2 27) 3 = mkdate 2024 3 1 /\
  add_days (mkdate 2023 12 31) 1 = mkdate 2024 1 1.
Proof. split; reflexivity. Qed.

(** ** Facts about dates and their text *)

Module CalendarFacts.

Lemma valid_date_wf d : valid_date d = true -> wf_date d = true.
Proof.
  unfold valid_date, wf_date. intros H.
  repeat (apply andb_prop in H; destruct H as [H ?]).
  repeat (apply andb_true_intro; split); assumption.
Qed.

Lemma valid_date_bounds d :
  valid_date d = true ->
  1 <= year d <= 9999 /\ 1 <= month d <= 12 /\
  1 <= day d <= days_in_month (year d) (month d).
Proof.
  unfold valid_date. intros H.
  repeat (apply andb_prop in H; destruct H as [H ?]).
  repeat match goal with
         | H : (_ <=? _) = true |- _ => apply Z.leb_le in H
         end.
  lia.
Qed.

Lemma wf_date_bounds d :
  wf_date d = true ->
  1 <= month d <= 12 /\ 1 <= day d <= days_in_month (year d) (month d).
Proof.
  unfold wf_date. intros H.
  repeat (apply andb_prop in H; destruct H as [H ?]).
  repeat match goal with
         | H : (_ <=? _) = true |- _ => apply Z.leb_le in H
         end.
  lia.
Qed.

Lemma month_cases m :
  1 <= m <= 12 ->
  m = 1 \/ m = 2 \/ m = 3 \/ m = 4 \/ m = 5 \/ m = 6 \/
  m = 7 \/ m = 8 \/ m = 9 \/ m = 10 \/ m = 11 \/ m = 12.
Proof. lia. Qed.

(** One goal per month, from the disjunction [month_cases] gives. *)
Ltac each_month H := repeat (destruct H as [H|H]; [subst|]); subst.

Lemma days_in_month_le_31 y m : days_in_month y m <= 31.
Proof.
  unfold days_in_month.
  destruct ((m =? 2) && is_leap y); [lia|].
  unfold DAYS_IN_MONTH.
  repeat match goal with
         | |- context [match ?x with _ => _ end] => destruct x
         end; lia.
Qed.

(** A year has 365 days, and one more when it is a leap year. *)
Lemma days_before_year_succ y :
  days_before_year (y + 1) =
  days_before_year y + 365 + (if is_leap y then 1 else 0).
Proof.
  unfold days_before_year, is_leap. cbv zeta.
  replace (y + 1 - 1) with y by lia.
  destruct (Z.eqb_spec (y mod 4) 0) as [H4|H4];
    destruct (Z.eqb_spec (y mod 100) 0) as [H100|H100];
    destruct (Z.eqb_spec (y mod 400) 0) as [H400|H400];
    cbn [negb orb andb]; Z.div_mod_to_equations; lia.
Qed.

(** The ordinal of the calendar successor is the next ordinal. *)
Lemma toordinal_next_day d :
  wf_date d = true -> toordinal (next_day d) = toordinal d + 1.
Proof.
  intros Hwf. destruct (wf_date_bounds d Hwf) as [Hm Hd].
  destruct d as [y m dd]. cbn [year month day] in *.
  unfold next_day. cbn [year month day].
  destruct (Z.ltb_spec dd (days_in_month y m)) as [Hlt|Hge].
  - unfold toordinal. cbn [year month day]. lia.
  - assert (Hdd : dd = days_in_month y m) by lia.
    destruct (Z.ltb_spec m 12) as [Hm12|Hm12].
    + unfold toordinal. cbn [year month day]. subst dd.
      unfold days_before_month, days_in_month.
      pose proof (month_cases m Hm) as Hcases.
      each_month Hcases; try lia; destruct (is_leap y); cbn; lia.
    + assert (m = 12) by lia. subst m.
      unfold toordinal. cbn [year month day].
      rewrite days_before_year_succ. subst dd.
      unfold days_before_month, days_in_month.
      destruct (is_leap y); cbn; lia.
Qed.

Lemma wf_next_day d : wf_date d = true -> wf_date (next_day d) = true.
Proof.
  intros Hwf. destruct (wf_date_bounds d Hwf) as [Hm Hd].
  destruct d as [y m dd]. cbn [year month day] in *.
  unfold next_day. cbn [year month day].
  destruct (Z.ltb_spec dd (days_in_month y m)) as [Hlt|Hge].
  - unfold wf_date. cbn [year month day].
    repeat (apply andb_true_intro; split); apply Z.leb_le; lia.
  - destruct (Z.ltb_spec m 12) as [Hm12|Hm12].
    + unfold wf_date. cbn [year month day].
      repeat (apply andb_true_intro; split); try (apply Z.leb_le; lia).
      apply Z.leb_le. unfold days_in_month.
      pose proof (month_cases m Hm) as Hcases.
      each_month Hcases; try lia; destruct (is_leap y); cbn; lia.
    + reflexivity.
Qed.

Lemma wf_add_days d k : wf_date d = true -> wf_date (add_days d k) = true.
Proof.
  intros Hwf. induction k as [|k IH]; [assumption|].
  cbn [add_days]. apply wf_next_day. assumption.
Qed.

(** Stepping the calendar [k] times adds [k] to the ordinal. *)
Lemma toordinal_add_days d k :
  wf_date d = true -> toordinal (add_days d k) = toordinal d + Z.of_nat k.
Proof.
  intros Hwf. induction k as [|k IH].
  - cbn [add_days]. lia.
  - cbn [add_days].
    rewrite toordinal_next_day by (apply wf_add_days; assumption).
    rewrite IH. lia.
Qed.

(** [(now - start).days] when [start] is a midnight: the difference of the
    ordinals, whatever the time of day of [now]. *)
Lemma timedelta_days_midnight now d :
  0 <= micros now < MICROS_PER_DAY ->
  timedelta_days now (midnight d) = toordinal (dt_date now) - toordinal d.
Proof.
  intros Hm. unfold timedelta_days, abs_micros, midnight.
  cbn [dt_date micros].
  replace (toordinal (dt_date now) * MICROS_PER_DAY + micros now -
           (toordinal d * MICROS_PER_DAY + 0))
    with ((toordinal (dt_date now) - toordinal d) * MICROS_PER_DAY + micros now)
    by lia.
  rewrite Z.div_add_l by (unfold MICROS_PER_DAY; lia).
  rewrite Z.div_small by assumption. lia.
Qed.

End CalendarFacts.
Import CalendarFacts.

Module DateTextFacts.

Lemma digit_val_char n : 0 <= n <= 9 -> digit_val (digit_char n) = Some n.
Proof.
  intros H.
  assert (Hk : exists k, n = Z.of_nat k /\ (k <= 9)%nat)
    by (exists (Z.to_nat n); lia).
  destruct Hk as (k & -> & Hk).
  do 10 (destruct k as [|k]; [reflexivity|]). lia.
Qed.

Lemma parse_year_fmt4 y rest :
  0 <= y <= 9999 -> parse_year (fmt4 y rest) = Some (y, rest).
Proof.
  intros Hy. unfold fmt4, fmt2, parse_year.
  assert (Hdigit : forall x, 0 <= x mod 10 <= 9).
  { intros x. pose proof (Z.mod_pos_bound x 10). lia. }
  rewrite !digit_val_char by apply Hdigit.
  f_equal. f_equal. Z.div_mod_to_equations. lia.
Qed.

Lemma parse_month_dash_fmt2 m rest :
  1 <= m <= 12 ->
  parse_month_dash (fmt2 m (String "-" rest)) = Some (m, rest).
Proof.
  intros Hm.
  pose proof (month_cases m Hm) as Hcases.
  each_month Hcases; reflexivity.
Qed.

Lemma parse_day_fmt2 d :
  1 <= d <= 31 -> parse_day (fmt2 d "") = Some (d, EmptyString).
Proof.
  intros Hd.
  assert (exists k, d = Z.of_nat k /\ (k <= 31)%nat) as (k & -> & Hk).
  { exists (Z.to_nat d). lia. }
  do 32 (destruct k as [|k]; [try lia; reflexivity|]). lia.
Qed.

(** Parsing the text [strftime] writes gives the date back. *)
Lemma strptime_strftime d :
  valid_date d = true -> strptime (strftime d) = Some d.
Proof.
  intros Hv. destruct (valid_date_bounds d Hv) as (Hy & Hm & Hd).
  pose proof (days_in_month_le_31 (year d) (month d)).
  unfold strptime, strftime.
  rewrite parse_year_fmt4 by lia. cbn [parse_dash].
  rewrite parse_month_dash_fmt2 by lia.
  rewrite parse_day_fmt2 by lia.
  destruct d as [y m dd]. cbn [year month day] in *. rewrite Hv. reflexivity.
Qed.

End DateTextFacts.
Import DateTextFacts.

Module StateFacts.

Lemma dict_get_encode_sends l k :
  dict_get (encode_sends l) k = option_map PInt (sends_get l k).
Proof.
  induction l as [|[k' n] l IH]; [reflexivity|].
  cbn [encode_sends map dict_get sends_get fst snd].
  destruct (k' =? k)%string; [reflexivity|]. exact IH.
Qed.

Lemma getitem_encode_start st :
  getitem (encode st) "start_date" = Ok (encode_start (start_date st)).
Proof. reflexivity. Qed.

Lemma getitem_encode_sends st :
  getitem (encode st) "daily_sends" =
  Ok (PDict (encode_sends (daily_sends st))).
Proof. reflexivity. Qed.

Lemma setitem_encode_start st today :
  setitem (encode st) "start_date" (PStr (strftime today)) =
  Ok (encode (started st today)).
Proof. reflexivity. Qed.

Lemma get_default_encode_sends st today :
  get_default (PDict (encode_sends (daily_sends st))) today (PInt 0) =
  Ok (PInt (already_sent st today)).
Proof.
  unfold get_default, already_sent. rewrite dict_get_encode_sends.
  destruct (sends_get (daily_sends st) today); reflexivity.
Qed.

Lemma truthy_strftime d : truthy (PStr (strftime d)) = true.
Proof. reflexivity. Qed.

Lemma clock_valid_bounds w :
  clock_valid w = true ->
  valid_date (today_of w) = true /\
  0 <= micros (clock w (clock_reads w)) < MICROS_PER_DAY.
Proof.
  unfold clock_valid, valid_datetime, today_of. intros H.
  apply andb_prop in H. destruct H as [H H2].
  apply andb_prop in H. destruct H as [H H1].
  apply Z.leb_le in H1. apply Z.ltb_lt in H2. split; [assumption|lia].
Qed.

(** What [get_current_day_info] computes on a started campaign. *)
Lemma get_current_day_info_started st D w :
  start_date st = Some D ->
  valid_date D = true ->
  valid_date (today_of w) = true ->
  let day_number := toordinal (today_of w) - toordinal D + 1 in
  let today := strftime (today_of w) in
  get_current_day_info (encode st) w =
  (Ok (encode st,
       (day_number, Z.max 0 (day_number - already_sent st today), today)),
   tick w).
Proof.
  intros Hs HD Ht. cbv zeta.
  unfold get_current_day_info, bind, datetime_now.
  fold (today_of w). rewrite getitem_encode_start, Hs.
  cbn [lift encode_start]. rewrite truthy_strftime. cbn [negb].
  unfold py_strptime. rewrite !strptime_strftime by assumption.
  cbn [lift ret]. rewrite getitem_encode_sends. cbn [lift].
  rewrite get_default_encode_sends. cbn [lift as_int ret].
  rewrite timedelta_days_midnight by (cbn; unfold MICROS_PER_DAY; lia).
  reflexivity.
Qed.

(** What [get_current_day_info] computes on a state without start date. *)
Lemma get_current_day_info_fresh st w :
  start_date st = None ->
  let today := strftime (today_of w) in
  get_current_day_info (encode st) w =
  (Ok (encode (started st (today_of w)),
       (1, Z.max 0 (1 - already_sent st today), today)),
   tick w).
Proof.
  intros Hs. cbv zeta.
  unfold get_current_day_info, bind, datetime_now.
  fold (today_of w). rewrite getitem_encode_start, Hs.
  cbn [lift encode_start truthy negb].
  rewrite setitem_encode_start. cbn [lift ret].
  rewrite getitem_encode_sends. cbn [lift].
  change (daily_sends (started st (today_of w))) with (daily_sends st).
  rewrite get_default_encode_sends. reflexivity.
Qed.

End StateFacts.
Import StateFacts.

(** ** Facts about the crontab text *)

Module TextFacts.

Lemma append_assoc (a b c : string) : ((a ++ b) ++ c = a ++ (b ++ c))%string.
Proof. induction a as [|x a IH]; cbn; [reflexivity|]. now rewrite IH. Qed.

Lemma split_lines_not_nil s : split_lines s <> [].
Proof.
  induction s as [|c s IH]; cbn; [discriminate|].
  destruct (c =? NL)%char; [discriminate|].
  destruct (split_lines s); discriminate.
Qed.

Lemma split_lines_no_newline s :
  Forall (fun l => no_newline l = true) (split_lines s).
Proof.
  induction s as [|c s IH]; cbn.
  - repeat constructor.
  - destruct (c =? NL)%char eqn:Hc.
    + constructor; [reflexivity|assumption].
    + destruct (split_lines s) as [|l ls].
      * repeat constructor. cbn. now rewrite Hc.
      * inversion IH; subst. constructor; [|assumption].
        cbn. rewrite Hc. assumption.
Qed.

Lemma split_lines_line l rest :
  no_newline l = true ->
  split_lines (l ++ String NL rest) = l :: split_lines rest.
Proof.
  induction l as [|c l IH]; cbn; intros H.
  - reflexivity.
  - apply andb_prop in H. destruct H as [Hc Hl].
    apply negb_true_iff in Hc. rewrite Hc, (IH Hl). reflexivity.
Qed.

(** Splitting the table [remove_crontab] writes gives its lines back,
    followed by the empty text after the last newline. *)
Lemma join_lines_cons l l' ls :
  join_lines (l :: l' :: ls) = (l ++ String NL (join_lines (l' :: ls)))%string.
Proof. reflexivity. Qed.

Lemma split_lines_join ls :
  ls <> [] ->
  Forall (fun l => no_newline l = true) ls ->
  split_lines (join_lines ls ++ String NL EmptyString) =
  (ls ++ [EmptyString])%list.
Proof.
  intros Hne Hall.
  induction Hall as [|l ls Hl Hall IH]; [congruence|].
  destruct ls as [|l' ls'].
  - cbn [join_lines concat app]. now rewrite split_lines_line.
  - rewrite join_lines_cons, append_assoc. cbn [append].
    rewrite split_lines_line by assumption.
    cbn [app]. f_equal. apply IH. discriminate.
Qed.

Lemma contains_empty_hay needle :
  needle <> EmptyString -> contains needle EmptyString = false.
Proof. destruct needle; [congruence|reflexivity]. Qed.

Lemma contains_empty_needle hay : contains EmptyString hay = true.
Proof. destruct hay; reflexivity. Qed.

Lemma kept_lines_clean script text :
  existsb (contains script) (kept_lines script text) = false.
Proof.
  unfold kept_lines. induction (split_lines text) as [|l ls IH]; [reflexivity|].
  cbn [filter]. destruct (contains script l) eqn:Hc; cbn [negb andb].
  - assumption.
  - destruct (has_non_space l); [|assumption].
    cbn [existsb]. rewrite Hc. assumption.
Qed.

Lemma kept_lines_no_newline script text :
  Forall (fun l => no_newline l = true) (kept_lines script text).
Proof.
  unfold kept_lines. apply Forall_forall. intros l Hl.
  apply filter_In in Hl. destruct Hl as [Hl _].
  pose proof (split_lines_no_newline text) as H.
  rewrite Forall_forall in H. now apply H.
Qed.

Lemma kept_lines_script_not_empty script text :
  kept_lines script text <> [] -> script <> EmptyString.
Proof.
  intros Hne ->. apply Hne. unfold kept_lines.
  induction (split_lines text) as [|l ls IH]; [reflexivity|].
  cbn [filter]. now rewrite contains_empty_needle.
Qed.

(** Text without carriage return is read as it was written. *)
Lemma universal_newlines_plain s :
  no_return s = true -> universal_newlines s = s.
Proof.
  induction s as [|c s IH]; cbn; intros H; [reflexivity|].
  apply andb_prop in H. destruct H as [Hc Hs].
  apply negb_true_iff in Hc. rewrite Hc, (IH Hs). reflexivity.
Qed.

Lemma universal_newlines_bounded n s :
  (String.length s <= n)%nat -> no_return (universal_newlines s) = true.
Proof.
  revert s. induction n as [|n IH]; intros [|c s] Hlen; cbn in *;
    try reflexivity; try lia.
  destruct (c =? CR)%char eqn:Hc.
  - cbn. destruct s as [|d s]; [reflexivity|].
    destruct (d =? NL)%char; apply IH; cbn in *; lia.
  - cbn. rewrite Hc. cbn. apply IH. lia.
Qed.

(** What the script reads holds no carriage return. *)
Lemma universal_newlines_no_return s :
  no_return (universal_newlines s) = true.
Proof. apply (universal_newlines_bounded (String.length s)). lia. Qed.

Lemma no_return_app a b :
  no_return (a ++ b) = no_return a && no_return b.
Proof.
  induction a as [|c a IH]; cbn; [reflexivity|].
  now rewrite IH, andb_assoc.
Qed.

Lemma split_lines_no_return s :
  no_return s = true ->
  Forall (fun l => no_return l = true) (split_lines s).
Proof.
  induction s as [|c s IH]; cbn; intros H.
  - repeat constructor.
  - apply andb_prop in H. destruct H as [Hc Hs]. specialize (IH Hs).
    destruct (c =? NL)%char.
    + constructor; [reflexivity|assumption].
    + destruct (split_lines s) as [|l ls].
      * repeat constructor. cbn. now rewrite Hc.
      * inversion IH; subst. constructor; [|assumption].
        cbn. rewrite Hc. assumption.
Qed.

Lemma join_lines_no_return ls :
  Forall (fun l => no_return l = true) ls -> no_return (join_lines ls) = true.
Proof.
  induction 1 as [|l ls Hl Hall IH]; [reflexivity|].
  destruct ls as [|l' ls']; [exact Hl|].
  rewrite join_lines_cons, no_return_app, Hl. cbn [andb no_return].
  exact IH.
Qed.

Lemma kept_lines_no_return script text :
  no_return text = true ->
  Forall (fun l => no_return l = true) (kept_lines script text).
Proof.
  intros Htext. unfold kept_lines. apply Forall_forall. intros l Hl.
  apply filter_In in Hl. destruct Hl as [Hl _].
  pose proof (split_lines_no_return text Htext) as H.
  rewrite Forall_forall in H. now apply H.
Qed.

(** The table [remove_crontab] writes is read back as it was written. *)
Lemma universal_newlines_kept script stdout :
  universal_newlines
    (join_lines (kept_lines script (universal_newlines stdout))
     ++ String NL EmptyString) =
  (join_lines (kept_lines script (universal_newlines stdout))
   ++ String NL EmptyString)%string.
Proof.
  apply universal_newlines_plain.
  rewrite no_return_app, join_lines_no_return; [reflexivity|].
  apply kept_lines_no_return, universal_newlines_no_return.
Qed.

End TextFacts.
Import TextFacts.

(** ** Frame lemmas: what the parts of the script leave alone *)

Section Frame.

Context {X : Type} (f : world -> X).
Hypothesis f_emit : forall e w, f (emit e w) = f w.
Hypothesis f_tick : forall w, f (tick w) = f w.
Hypothesis f_drew : forall w, f (drew w) = f w.
Hypothesis f_ran_swaks : forall w, f (ran_swaks w) = f w.

Lemma keeps_ret {A} (a : A) : keeps f (ret a).
Proof. intros w. reflexivity. Qed.

Lemma keeps_lift {A} (r : res A) : keeps f (lift r).
Proof. intros w. reflexivity. Qed.

Lemma keeps_raise {A} (e : exn) : keeps f (@raise A e).
Proof. intros w. reflexivity. Qed.

Lemma keeps_sys_exit {A} (c : Z) : keeps f (@sys_exit A c).
Proof. intros w. reflexivity. Qed.

Lemma keeps_bind {A B} (m : M A) (k : A -> M B) :
  keeps f m -> (forall a, keeps f (k a)) -> keeps f (bind m k).
Proof.
  intros Hm Hk w. unfold bind. specialize (Hm w).
  destruct (m w) as [[a|e|c] w1]; cbn [snd] in *; [|assumption..].
  rewrite Hk. assumption.
Qed.

Lemma keeps_print m : keeps f (print m).
Proof. intros w. apply f_emit. Qed.

Lemma keeps_sleep n : keeps f (sleep n).
Proof. intros w. apply f_emit. Qed.

Lemma keeps_datetime_now : keeps f datetime_now.
Proof. intros w. apply f_tick. Qed.

Lemma keeps_randbelow n : keeps f (randbelow n).
Proof. intros w. apply f_drew. Qed.

Lemma keeps_run_swaks c : keeps f (run_swaks c).
Proof. intros w. cbn. now rewrite f_emit, f_ran_swaks. Qed.

Lemma keeps_read {A} (g : world -> A) : keeps f (fun w => (Ok (g w), w)).
Proof. intros w. reflexivity. Qed.

(** One step of a frame proof: split a bind, close a primitive, or case
    on what a conditional looks at. *)
Ltac frame_step :=
  first
    [ apply keeps_ret | apply keeps_lift | apply keeps_raise
    | apply keeps_sys_exit | apply keeps_print | apply keeps_sleep
    | apply keeps_datetime_now | apply keeps_randbelow
    | apply keeps_run_swaks | apply keeps_read
    | assumption
    | apply keeps_bind; [|intros]
    | match goal with
      | |- keeps _ (if ?b then _ else _) => destruct b
      | |- keeps _ (match ?x with _ => _ end) => destruct x
      end ].

Ltac frame := repeat frame_step.

Lemma keeps_random_choice {A} (seq : list A) : keeps f (random_choice seq).
Proof. unfold random_choice. frame. Qed.

Lemma keeps_sample_pool {A} (pool : list A) n k :
  keeps f (sample_pool pool n k).
Proof.
  revert pool n. induction k as [|k IH]; intros pool n; cbn [sample_pool].
  - frame.
  - apply keeps_bind; [frame|]. intros j.
    destruct (nth_error pool j); [|frame].
    destruct (nth_error pool (n - 1)); [|frame].
    apply keeps_bind; [apply IH|]. intros. frame.
Qed.

Lemma keeps_redraw fuel n selected j : keeps f (redraw fuel n selected j).
Proof.
  revert j. induction fuel as [|fuel IH]; intros j; cbn [redraw];
    destruct (existsb _ _); try solve [frame].
  apply keeps_bind; [frame|]. intros j'. apply IH.
Qed.

Lemma keeps_sample_set {A} (population : list A) n k selected :
  keeps f (sample_set population n k selected).
Proof.
  revert selected. induction k as [|k IH]; intros selected;
    cbn [sample_set].
  - frame.
  - apply keeps_bind; [frame|]. intros j0.
    apply keeps_bind; [frame|]. intros fuel.
    apply keeps_bind; [apply keeps_redraw|]. intros j.
    destruct (nth_error population j); [|frame].
    apply keeps_bind; [apply IH|]. intros. frame.
Qed.

Lemma keeps_random_sample {A} (population : list A) k :
  keeps f (random_sample population k).
Proof.
  unfold random_sample. cbv zeta.
  destruct (k <=? List.length population)%nat; [|frame].
  destruct (_ <=? _); [apply keeps_sample_pool|apply keeps_sample_set].
Qed.

Lemma keeps_randint a b : keeps f (randint a b).
Proof. unfold randint. frame. Qed.

Lemma keeps_send_email a b c d e g : keeps f (send_email a b c d e g).
Proof.
  unfold send_email.
  repeat (apply keeps_bind;
          [first [apply keeps_random_choice | apply keeps_print]|intros]).
  frame.
Qed.

Lemma keeps_dispatch_selected creds message n i recipient successful :
  keeps f (dispatch_selected creds message n i recipient successful).
Proof.
  unfold dispatch_selected.
  destruct (recipient_email_of recipient); [|frame].
  do 5 (apply keeps_bind; [frame|intros]).
  match goal with |- keeps _ (if ?b then _ else _) => destruct b end;
    [frame|].
  apply keeps_bind; [apply keeps_send_email|intros].
  apply keeps_bind; [|frame].
  match goal with |- keeps _ (if ?b then _ else _) => destruct b end;
    [|frame].
  apply keeps_bind; [apply keeps_randint|intros]. frame.
Qed.

Lemma keeps_process_recipient send_data messages_data n i recipient s :
  keeps f (process_recipient send_data messages_data n i recipient s).
Proof.
  unfold process_recipient.
  apply keeps_bind; [frame|intros].
  apply keeps_bind; [apply keeps_random_choice|intros].
  apply keeps_bind; [apply keeps_random_choice|intros].
  apply keeps_dispatch_selected.
Qed.

Lemma keeps_send_loop send_data messages_data n selected i s :
  keeps f (send_loop send_data messages_data n selected i s).
Proof.
  revert i s. induction selected as [|r rest IH]; intros i s;
    cbn [send_loop].
  - frame.
  - apply keeps_bind; [apply keeps_process_recipient|intros]. apply IH.
Qed.

Lemma keeps_select_recipients n receive_data :
  keeps f (select_recipients n receive_data).
Proof.
  unfold select_recipients.
  apply keeps_bind; [frame|intros].
  apply keeps_bind; [apply keeps_random_sample|intros]. frame.
Qed.

Lemma keeps_load_json_file p : keeps f (load_json_file p).
Proof.
  intros w. unfold load_json_file.
  destruct (files w p); cbn; try reflexivity; apply f_emit.
Qed.

Lemma keeps_require ok message : keeps f (require ok message).
Proof. unfold require. frame. Qed.

Lemma keeps_load_history : keeps f load_history.
Proof.
  intros w. unfold load_history. destruct (files w HistoryJson); reflexivity.
Qed.

Lemma keeps_get_current_day_info history :
  keeps f (get_current_day_info history).
Proof. unfold get_current_day_info. frame. Qed.

Lemma keeps_print_history_lines items : keeps f (print_history_lines items).
Proof.
  induction items as [|[date count] rest IH]; cbn [print_history_lines].
  - frame.
  - apply keeps_bind; [frame|intros]. apply IH.
Qed.

Lemma keeps_show_status history : keeps f (show_status history).
Proof.
  unfold show_status.
  do 2 (apply keeps_bind; [frame|intros]).
  match goal with |- keeps _ (if ?b then _ else _) => destruct b end;
    [|frame].
  do 7 (apply keeps_bind; [frame|intros]).
  apply keeps_print_history_lines.
Qed.

Lemma keeps_after {A B} (m : M A) (k : A -> M B) w :
  (forall a, keeps f (k a)) -> f (snd (bind m k w)) = f (snd (m w)).
Proof.
  intros Hk. unfold bind.
  destruct (m w) as [[a|e|c] w1]; cbn [snd]; try reflexivity. apply Hk.
Qed.

(** From here on [f] does not look at the files either. *)
Hypothesis f_set_file : forall p x w, f (set_file p x w) = f w.

Lemma keeps_save_history history : keeps f (save_history history).
Proof.
  intros w. unfold save_history.
  destruct (record_writable w); cbn; [now rewrite !f_set_file|reflexivity].
Qed.

Lemma keeps_update_history history date count :
  keeps f (update_history history date count).
Proof.
  unfold update_history.
  do 6 (apply keeps_bind; [frame|intros]).
  apply keeps_bind; [apply keeps_save_history|intros]. frame.
Qed.

Lemma keeps_run_campaign a history send_data messages_data receive_data :
  keeps f (run_campaign a history send_data messages_data receive_data).
Proof.
  unfold run_campaign.
  apply keeps_bind.
  { destruct (force_requested a).
    - frame.
    - apply keeps_bind; [apply keeps_get_current_day_info|intros]. frame. }
  intros [[[history' day_number] emails_to_send] today].
  destruct (emails_to_send <=? 0); [frame|].
  apply keeps_bind; [apply keeps_select_recipients|].
  intros [emails_to_send' selected].
  apply keeps_bind; [apply keeps_send_loop|]. intros successful.
  apply keeps_bind.
  { destruct (negb (force_requested a) && (0 <? successful));
      [apply keeps_update_history|frame]. }
  intros history''. frame.
Qed.

(** Whatever the command line says about forcing, a run that is not
    [--setup-cron], [--remove-cron] or [--status] leaves [f] as
    [check_and_cleanup_crontab] on the loaded history left it. *)
Lemma main_after_check a w :
  setup_cron a = false -> remove_cron a = false -> status a = false ->
  f (snd (main a w)) =
  f (snd (check_and_cleanup_crontab (loaded_history w) w)).
Proof.
  intros Hsetup Hremove Hstatus. unfold main.
  rewrite Hsetup, Hremove, Hstatus.
  unfold bind at 1.
  assert (Hload : load_history w = (Ok (loaded_history w), w)).
  { unfold load_history, loaded_history.
    destruct (files w HistoryJson); reflexivity. }
  rewrite Hload.
  apply keeps_after. intros _.
  apply keeps_bind; [frame|intros].
  do 3 (apply keeps_bind; [apply keeps_load_json_file|intros];
        apply keeps_bind; [apply keeps_require|intros]).
  do 3 (apply keeps_bind; [apply keeps_require|intros]).
  apply keeps_bind; [frame|intros].
  apply keeps_bind; [frame|intros].
  do 4 (apply keeps_bind; [frame|intros]).
  apply keeps_run_campaign.
Qed.

End Frame.

(** ** Facts about the trigger *)

Module TriggerFacts.

Lemma remove_crontab_ok w : fst (remove_crontab w) = Ok true \/
                            fst (remove_crontab w) = Ok false.
Proof.
  unfold remove_crontab.
  destruct (cron w) as [|[text|]]; cbn; auto.
  destruct (existsb _ _); cbn; auto.
  destruct (kept_lines _ _); cbn; auto.
Qed.

Lemma remove_crontab_script_path w :
  script_path (snd (remove_crontab w)) = script_path w.
Proof.
  unfold remove_crontab.
  destruct (cron w) as [|[text|]]; cbn; try reflexivity.
  destruct (existsb _ _); cbn; try reflexivity.
  destruct (kept_lines _ _); reflexivity.
Qed.

(** After [remove_crontab] no line of the crontab holds the script path. *)
Lemma remove_crontab_unregisters w :
  registered (snd (remove_crontab w)) = false.
Proof.
  unfold registered. rewrite remove_crontab_script_path.
  unfold remove_crontab.
  destruct (cron w) as [|[text|]] eqn:Hcron; cbn.
  - rewrite Hcron. reflexivity.
  - pose proof (universal_newlines_kept (script_path w) text) as Hread.
    destruct (existsb (contains (script_path w))
                (split_lines (universal_newlines text))) eqn:Hreg;
      cbn.
    + pose proof (kept_lines_clean (script_path w) (universal_newlines text))
        as Hclean.
      pose proof (kept_lines_no_newline (script_path w)
                    (universal_newlines text)) as Hnl.
      pose proof (kept_lines_script_not_empty (script_path w)
                    (universal_newlines text)) as Hne.
      destruct (kept_lines (script_path w) (universal_newlines text))
        as [|l ls];
        cbn -[join_lines split_lines contains existsb universal_newlines].
      * reflexivity.
      * rewrite Hread.
        rewrite split_lines_join by (assumption || discriminate).
        rewrite existsb_app, Hclean. cbn [existsb orb].
        rewrite contains_empty_hay; [reflexivity|]. apply Hne. discriminate.
    + rewrite Hcron. cbn. assumption.
  - rewrite Hcron. reflexivity.
Qed.

(** [remove_crontab] touches nothing but the crontab and the output. *)
Lemma remove_crontab_keeps_files : keeps files remove_crontab.
Proof.
  intros w. unfold remove_crontab.
  destruct (cron w) as [|[text|]]; cbn; try reflexivity.
  destruct (existsb _ _); cbn; try reflexivity.
  destruct (kept_lines _ _); reflexivity.
Qed.

(** What [check_and_cleanup_crontab] does on a started campaign. *)
Lemma check_and_cleanup_crontab_started st D w :
  start_date st = Some D ->
  valid_date D = true ->
  clock_valid w = true ->
  let days_passed := toordinal (today_of w) - toordinal D + 1 in
  check_and_cleanup_crontab (encode st) w =
  if 5 <? days_passed
  then (Ok tt,
        snd (remove_crontab
               (emit (Print (MsgFiveDaysCompleted days_passed)) (tick w))))
  else (Ok tt, tick w).
Proof.
  intros Hs HD Hclock. cbv zeta.
  destruct (clock_valid_bounds w Hclock) as [_ Hmicros].
  unfold check_and_cleanup_crontab, bind.
  rewrite getitem_encode_start, Hs. cbn [lift encode_start].
  rewrite truthy_strftime. cbn [negb].
  unfold py_strptime. rewrite strptime_strftime by assumption.
  cbn [lift datetime_now].
  rewrite timedelta_days_midnight by assumption. fold (today_of w).
  destruct (5 <? toordinal (today_of w) - toordinal D + 1); [|reflexivity].
  cbn [print].
  destruct (remove_crontab_ok
              (emit (Print (MsgFiveDaysCompleted
                              (toordinal (today_of w) - toordinal D + 1)))
                    (tick w))) as [H|H];
    destruct (remove_crontab _) as [r w1]; cbn [fst snd] in *; subst r;
    reflexivity.
Qed.

(** On a state without start date it does nothing. *)
Lemma check_and_cleanup_crontab_fresh st w :
  start_date st = None ->
  check_and_cleanup_crontab (encode st) w = (Ok tt, w).
Proof.
  intros Hs. unfold check_and_cleanup_crontab, bind.
  rewrite getitem_encode_start, Hs. reflexivity.
Qed.

End TriggerFacts.
Import TriggerFacts.

(** ** Facts about sampling *)

Module SampleFacts.

Lemma length_list_update {A} (pool : list A) j y :
  List.length (list_update pool j y) = List.length pool.
Proof.
  revert j. induction pool as [|x pool IH]; intros [|j]; cbn; auto.
Qed.

Lemma list_update_map {A B} (g : A -> B) pool j y :
  list_update (map g pool) j (g y) = map g (list_update pool j y).
Proof.
  revert j. induction pool as [|x pool IH]; intros [|j]; cbn; auto.
  now rewrite IH.
Qed.

(** Sampling commutes with relabelling the pool: the positions drawn do
    not depend on what the pool holds. *)
Lemma sample_pool_map {A B} (g : A -> B) pool n k w :
  sample_pool (map g pool) n k w =
  match sample_pool pool n k w with
  | (Ok selected, w') => (Ok (map g selected), w')
  | (Raise e, w') => (Raise e, w')
  | (Exit c, w') => (Exit c, w')
  end.
Proof.
  revert pool n w. induction k as [|k IH]; intros pool n w.
  - reflexivity.
  - cbn [sample_pool]. unfold bind. cbn [randbelow].
    rewrite !nth_error_map.
    destruct (nth_error pool _) as [x|]; [|reflexivity].
    destruct (nth_error pool (n - 1)) as [y|]; [|reflexivity].
    cbn [option_map]. rewrite list_update_map, IH.
    destruct (sample_pool (list_update pool _ y) (n - 1) k (drew w))
      as [[selected|e|c] w']; reflexivity.
Qed.

Lemma firstn_snoc {A} (l : list A) m y :
  nth_error l m = Some y -> firstn (S m) l = (firstn m l ++ [y])%list.
Proof.
  revert l. induction m as [|m IH]; intros [|x l] H; try discriminate.
  - cbn in *. congruence.
  - cbn [nth_error] in H. cbn [firstn app]. f_equal. now apply IH.
Qed.

(** One step of the pool: the live slots before it are the pick together
    with the live slots after it. *)
Lemma pool_step {A} (pool : list A) j n x y :
  (j < n)%nat ->
  nth_error pool j = Some x ->
  nth_error pool (n - 1) = Some y ->
  Permutation (firstn n pool)
    (x :: firstn (n - 1) (list_update pool j y)).
Proof.
  revert pool n. induction j as [|j IH]; intros [|a pool] n Hj Hx Hy;
    try discriminate; destruct n as [|n]; try lia;
    replace (S n - 1)%nat with n in * by lia.
  - cbn in Hx. injection Hx as ->. cbn [list_update].
    rewrite firstn_cons. constructor. destruct n as [|m]; [constructor|].
    cbn [nth_error] in Hy. rewrite firstn_cons.
    rewrite (firstn_snoc pool m y Hy).
    apply Permutation_sym, Permutation_cons_append.
  - cbn [nth_error] in Hx. destruct n as [|m]; [lia|].
    cbn [nth_error] in Hy. cbn [list_update]. rewrite !firstn_cons.
    eapply perm_trans; [|apply perm_swap].
    constructor.
    replace m with (S m - 1)%nat at 2 by lia.
    apply IH; [lia|assumption|].
    replace (S m - 1)%nat with m by lia. assumption.
Qed.

(** The pool loop over pairwise different live slots returns [k] of them,
    pairwise different. *)
Lemma sample_pool_nodup (pool : list nat) n k w :
  (k <= n <= List.length pool)%nat ->
  NoDup (firstn n pool) ->
  exists selected,
    sample_pool pool n k w = (Ok selected, snd (sample_pool pool n k w)) /\
    List.length selected = k /\
    NoDup selected /\
    incl selected (firstn n pool).
Proof.
  revert pool n w. induction k as [|k IH]; intros pool n w Hk Hnd.
  - exists []. repeat split; [constructor|intros ? []].
  - cbn [sample_pool]. unfold bind. cbn [randbelow].
    set (j := (random_source w (draws w) mod n)%nat).
    assert (Hj : (j < n)%nat) by (apply Nat.mod_upper_bound; lia).
    destruct (nth_error pool j) as [x|] eqn:Hx;
      [|apply nth_error_None in Hx; lia].
    destruct (nth_error pool (n - 1)) as [y|] eqn:Hy;
      [|apply nth_error_None in Hy; lia].
    pose proof (pool_step pool j n x y Hj Hx Hy) as Hperm.
    pose proof (Permutation_NoDup Hperm Hnd) as Hnd'.
    inversion Hnd' as [|? ? Hfresh Hrest]; subst.
    destruct (IH (list_update pool j y) (n - 1)%nat (drew w))
      as (rest & Heq & Hlen & Hnodup & Hincl);
      [rewrite length_list_update; lia|assumption|].
    rewrite Heq. cbn [ret fst snd].
    exists (x :: rest). repeat split.
    + cbn. now rewrite Hlen.
    + constructor; [|assumption]. intros Hin. apply Hfresh, Hincl, Hin.
    + intros z [<-|Hz].
      * eapply Permutation_in;
          [apply Permutation_sym, Hperm|now left].
      * eapply Permutation_in;
          [apply Permutation_sym, Hperm|right; now apply Hincl].
Qed.

Lemma map_nth_seq (population : list pyval) :
  map (fun p => nth p population PNone) (seq 0 (List.length population)) =
  population.
Proof.
  induction population as [|x l IH]; [reflexivity|].
  cbn [List.length seq map nth]. f_equal.
  rewrite <- seq_shift, map_map. exact IH.
Qed.

(** The pool loop on a list with at least [k] entries returns [k] entries
    from pairwise different positions. *)
Lemma sample_pool_distinct (population : list pyval) k w :
  (k <= List.length population)%nat ->
  exists selected,
    sample_pool population (List.length population) k w =
    (Ok selected,
     snd (sample_pool population (List.length population) k w)) /\
    List.length selected = k /\
    drawn_without_replacement population selected.
Proof.
  intros Hk.
  set (N := List.length population).
  assert (Hmap : sample_pool population N k w =
                 match sample_pool (seq 0 N) N k w with
                 | (Ok positions, w') =>
                     (Ok (map (fun p => nth p population PNone) positions), w')
                 | (Raise e, w') => (Raise e, w')
                 | (Exit c, w') => (Exit c, w')
                 end).
  { rewrite <- sample_pool_map. unfold N. rewrite map_nth_seq. reflexivity. }
  rewrite Hmap. unfold N in *. clear Hmap.
  destruct (sample_pool_nodup (seq 0 (List.length population))
              (List.length population) k w)
    as (positions & Heq & Hlen & Hnodup & Hincl).
  - rewrite length_seq. lia.
  - rewrite firstn_all2 by (rewrite length_seq; lia). apply seq_NoDup.
  - rewrite Heq. cbn [snd].
    exists (map (fun p => nth p population PNone) positions).
    repeat split.
    + rewrite length_map. assumption.
    + exists positions. repeat split; [assumption|].
      apply Forall_forall. intros p Hp. apply Hincl in Hp.
      rewrite firstn_all2 in Hp by (rewrite length_seq; lia).
      apply in_seq in Hp. lia.
Qed.

Lemma existsb_eqb_in j l : existsb (Nat.eqb j) l = true <-> In j l.
Proof.
  rewrite existsb_exists. split.
  - intros (x & Hx & Heq). apply Nat.eqb_eq in Heq. now subst.
  - intros Hin. exists j. split; [assumption|apply Nat.eqb_refl].
Qed.

(** A search that returns, returns a position not yet selected, and one
    below [n] when the draw it started from is. *)
Lemma redraw_fresh fuel n selected j w j' :
  fst (redraw fuel n selected j w) = Ok j' ->
  ~ In j' selected /\ ((0 < n)%nat -> (j < n)%nat -> (j' < n)%nat).
Proof.
  revert j w. induction fuel as [|fuel IH]; intros j w; cbn [redraw];
    destruct (existsb (Nat.eqb j) selected) eqn:Hj.
  - discriminate.
  - cbn. intros [= <-]. split; [|auto].
    intros Hin. apply existsb_eqb_in in Hin. congruence.
  - unfold bind. cbn [randbelow]. intros Hres.
    destruct (IH _ _ Hres) as [Hfresh Hbelow]. split; [assumption|].
    intros Hn _. apply Hbelow; [assumption|].
    apply Nat.mod_upper_bound. lia.
  - cbn. intros [= <-]. split; [|auto].
    intros Hin. apply existsb_eqb_in in Hin. congruence.
Qed.

(** A search either returns or is still running when the patience has
    run out. *)
Lemma redraw_outcome fuel n selected j w :
  (exists j', fst (redraw fuel n selected j w) = Ok j') \/
  fst (redraw fuel n selected j w) = Raise Hang.
Proof.
  revert j w. induction fuel as [|fuel IH]; intros j w; cbn [redraw];
    destruct (existsb (Nat.eqb j) selected).
  - now right.
  - left. now exists j.
  - unfold bind. cbn [randbelow]. apply IH.
  - left. now exists j.
Qed.

Lemma redraw_draws fuel n selected j w :
  (draws w <= draws (snd (redraw fuel n selected j w)))%nat.
Proof.
  revert j w. induction fuel as [|fuel IH]; intros j w; cbn [redraw];
    destruct (existsb (Nat.eqb j) selected); cbn; try lia.
  unfold bind. cbn [randbelow].
  specialize (IH (random_source w (draws w) mod n)%nat (drew w)).
  cbn [draws drew] in IH. lia.
Qed.

(** A search returns as soon as one of the draws it gets to see is a
    position not yet selected. *)
Lemma redraw_finds fuel n selected j w :
  (exists x,
      In x (j :: map (fun i => (random_source w i mod n)%nat)
                     (seq (draws w) fuel)) /\
      ~ In x selected) ->
  exists j', fst (redraw fuel n selected j w) = Ok j'.
Proof.
  revert j w. induction fuel as [|fuel IH]; intros j w (x & Hin & Hnew);
    cbn [redraw]; destruct (existsb (Nat.eqb j) selected) eqn:Hj;
    try (now exists j).
  - apply existsb_eqb_in in Hj. destruct Hin as [<-|[]]. contradiction.
  - apply existsb_eqb_in in Hj. unfold bind. cbn [randbelow].
    apply IH. exists x. split; [|assumption].
    destruct Hin as [<-|Hin]; [contradiction|].
    cbn [seq map] in Hin. exact Hin.
Qed.

(** The loop over the set of selected positions: what it returns, when it
    returns, are [k] entries from pairwise different positions, none of
    them selected before. *)
Lemma sample_set_distinct (population : list pyval) k selected0 w selected :
  fst (sample_set population (List.length population) k selected0 w) =
  Ok selected ->
  exists positions,
    List.length positions = k /\
    NoDup positions /\
    (forall p, In p positions -> ~ In p selected0) /\
    Forall (fun p => (p < List.length population)%nat) positions /\
    selected = map (fun p => nth p population PNone) positions.
Proof.
  revert selected0 w selected.
  induction k as [|k IH]; intros selected0 w selected; cbn [sample_set].
  - cbn. intros [= <-]. exists []. repeat split; [constructor|easy|constructor].
  - unfold bind at 1. cbn [randbelow]. unfold bind at 1. unfold bind at 1.
    destruct (redraw (patience (drew w)) (List.length population) selected0
                (random_source w (draws w) mod List.length population)
                (drew w)) as [[j| |] w2] eqn:Hredraw; try discriminate.
    pose proof (redraw_fresh _ _ _ _ _ j (f_equal fst Hredraw)) as [Hfresh _].
    destruct (nth_error population j) as [x|] eqn:Hx; [|discriminate].
    unfold bind.
    destruct (sample_set population (List.length population) k
                (j :: selected0) w2) as [[rest| |] w3] eqn:Hrest;
      try discriminate.
    cbn. intros [= <-].
    destruct (IH (j :: selected0) w2 rest) as
      (positions & Hlen & Hnodup & Hnew & Hbelow & ->);
      [rewrite Hrest; reflexivity|].
    exists (j :: positions). repeat split.
    + cbn. now rewrite Hlen.
    + constructor; [|assumption]. intros Hin.
      apply (Hnew j Hin). now left.
    + intros p [<-|Hp]; [assumption|].
      intros Hin. apply (Hnew p Hp). now right.
    + constructor; [|assumption].
      apply nth_error_Some. congruence.
    + cbn [map]. f_equal. symmetry. now apply nth_error_nth.
Qed.

(** On a list that is not empty this loop ends in no other way. *)
Lemma sample_set_result {A} (population : list A) k selected0 w r w' :
  (0 < List.length population)%nat ->
  sample_set population (List.length population) k selected0 w = (r, w') ->
  (exists selected, r = Ok selected) \/ r = Raise Hang.
Proof.
  intros Hn. revert selected0 w r w'.
  induction k as [|k IH]; intros selected0 w r w'; cbn [sample_set].
  - cbn. intros [= <- _]. left. now exists [].
  - unfold bind at 1. cbn [randbelow]. unfold bind at 1. unfold bind at 1.
    pose proof (redraw_outcome (patience (drew w)) (List.length population)
                  selected0
                  (random_source w (draws w) mod List.length population)
                  (drew w)) as Hout.
    pose proof (redraw_fresh (patience (drew w)) (List.length population)
                  selected0
                  (random_source w (draws w) mod List.length population)
                  (drew w)) as Hfresh.
    destruct (redraw _ _ _ _ _) as [r2 w2]. cbn [fst] in *.
    destruct Hout as [[j ->]| ->]; [|intros [= <- _]; now right].
    destruct (Hfresh j eq_refl) as [_ Hbelow].
    specialize (Hbelow Hn).
    pose proof (Hbelow ltac:(apply Nat.mod_upper_bound; lia)) as Hlt.
    destruct (nth_error population j) as [x|] eqn:Hx;
      [|apply nth_error_None in Hx; lia].
    unfold bind. specialize (IH (j :: selected0) w2).
    destruct (sample_set population (List.length population) k
                (j :: selected0) w2) as [r3 w3].
    destruct (IH r3 w3 eq_refl) as [[rest ->]| ->]; intros [= <- _];
      [left; now eexists|now right].
Qed.

Lemma sample_set_outcome {A} (population : list A) k selected0 w :
  (0 < List.length population)%nat ->
  (exists selected,
      fst (sample_set population (List.length population) k selected0 w) =
      Ok selected) \/
  fst (sample_set population (List.length population) k selected0 w) =
  Raise Hang.
Proof.
  intros Hn.
  destruct (sample_set population (List.length population) k selected0 w)
    as [r w'] eqn:Hrun.
  exact (sample_set_result population k selected0 w r w' Hn Hrun).
Qed.

Lemma fresh_or_all (seen selected : list nat) :
  incl seen selected \/ exists x, In x seen /\ ~ In x selected.
Proof.
  induction seen as [|y seen IH].
  - left. intros ? [].
  - destruct (in_dec Nat.eq_dec y selected) as [Hy|Hy].
    + destruct IH as [Hall|(x & Hx & Hnew)].
      * left. intros z [<-|Hz]; auto.
      * right. exists x. split; [now right|assumption].
    + right. exists y. split; [now left|assumption].
Qed.

(** Among draws that fall on more positions than are selected there is a
    position not yet selected. *)
Lemma varied_fresh (seen selected : list nat) :
  (List.length selected < List.length (nodup Nat.eq_dec seen))%nat ->
  exists x, In x seen /\ ~ In x selected.
Proof.
  intros Hlen. destruct (fresh_or_all seen selected) as [Hall|H]; [|exact H].
  exfalso.
  assert (Hincl : incl (nodup Nat.eq_dec seen) selected).
  { intros x Hx. apply Hall. now apply nodup_In in Hx. }
  pose proof (NoDup_incl_length (NoDup_nodup Nat.eq_dec seen) Hincl). lia.
Qed.

Lemma varied_later w w' n k :
  random_source w' = random_source w -> patience w' = patience w ->
  (draws w <= draws w')%nat -> varied w n k -> varied w' n k.
Proof.
  intros Hsource Hpatience Hdraws Hvaried d Hd.
  unfold window. rewrite Hsource, Hpatience. apply Hvaried. lia.
Qed.

(** With draws that are varied enough the loop over the set of selected
    positions returns. *)
Lemma sample_set_returns {A} (population : list A) k selected0 w :
  (0 < List.length population)%nat ->
  varied w (List.length population) (List.length selected0 + k) ->
  exists selected,
    fst (sample_set population (List.length population) k selected0 w) =
    Ok selected.
Proof.
  intros Hn. revert selected0 w.
  induction k as [|k IH]; intros selected0 w Hvaried; cbn [sample_set].
  - now exists [].
  - unfold bind at 1. cbn [randbelow]. unfold bind at 1. unfold bind at 1.
    set (n := List.length population) in *.
    set (j0 := (random_source w (draws w) mod n)%nat).
    destruct (redraw_finds (patience (drew w)) n selected0 j0 (drew w))
      as [j Hj].
    { apply (varied_fresh (window w n (draws w))).
      specialize (Hvaried (draws w) (Nat.le_refl _)). lia. }
    pose proof (redraw_fresh (patience (drew w)) n selected0 j0 (drew w) j Hj)
      as [_ Hbelow].
    specialize (Hbelow Hn).
    pose proof (Hbelow ltac:(apply Nat.mod_upper_bound; lia)) as Hlt.
    pose proof (keeps_redraw random_source (fun _ => eq_refl)
                  (patience (drew w)) n selected0 j0 (drew w)) as Hsource.
    pose proof (keeps_redraw patience (fun _ => eq_refl)
                  (patience (drew w)) n selected0 j0 (drew w)) as Hpatience.
    pose proof (redraw_draws (patience (drew w)) n selected0 j0 (drew w))
      as Hdraws.
    destruct (redraw (patience (drew w)) n selected0 j0 (drew w))
      as [r w2]. cbn [fst snd] in *. subst r.
    destruct (nth_error population j) as [x|] eqn:Hx;
      [|apply nth_error_None in Hx; unfold n in *; lia].
    unfold bind.
    destruct (IH (j :: selected0) w2) as [rest Hrest].
    { apply (varied_later w); [assumption..|cbn in Hdraws; lia|].
      cbn [List.length]. replace (S (List.length selected0) + k)%nat
        with (List.length selected0 + S k)%nat by lia. assumption. }
    destruct (sample_set population n k (j :: selected0) w2) as [r3 w3].
    cbn [fst] in *. subst r3. now eexists.
Qed.

(** [random.sample]: what it returns, when it returns, are [k] entries
    from pairwise different positions. *)
Lemma random_sample_distinct (population : list pyval) k w selected :
  fst (random_sample population k w) = Ok selected ->
  List.length selected = k /\
  drawn_without_replacement population selected.
Proof.
  unfold random_sample. cbv zeta.
  destruct (Nat.leb_spec k (List.length population)) as [Hk|Hk];
    [|discriminate].
  destruct (_ <=? _).
  - destruct (sample_pool_distinct population k w Hk)
      as (selected' & Heq & Hlen & Hdrawn).
    rewrite Heq. cbn [fst]. intros [= <-]. now split.
  - intros Hres.
    destruct (sample_set_distinct population k [] w selected Hres)
      as (positions & Hlen & Hnodup & _ & Hbelow & ->).
    split; [now rewrite length_map|].
    exists positions. now repeat split.
Qed.

(** It returns on every list of at most [setsize] entries. *)
Lemma random_sample_pool (population : list pyval) k w :
  (k <= List.length population)%nat ->
  Z.of_nat (List.length population) <= setsize k ->
  exists selected, fst (random_sample population k w) = Ok selected.
Proof.
  intros Hk Hsmall. unfold random_sample. cbv zeta.
  apply Nat.leb_le in Hk as Hk'. rewrite Hk'.
  apply Z.leb_le in Hsmall. rewrite Hsmall.
  destruct (sample_pool_distinct population k w Hk) as (selected & Heq & _).
  exists selected. now rewrite Heq.
Qed.

(** On longer lists it returns when the draws are varied enough, and
    otherwise is still redrawing when the patience has run out. *)
Lemma random_sample_returns (population : list pyval) k w :
  (k <= List.length population)%nat ->
  varied w (List.length population) k ->
  exists selected, fst (random_sample population k w) = Ok selected.
Proof.
  intros Hk Hvaried. unfold random_sample. cbv zeta.
  apply Nat.leb_le in Hk as Hk'. rewrite Hk'.
  destruct (Z.leb_spec (Z.of_nat (List.length population)) (setsize k))
    as [Hsmall|Hlarge].
  - destruct (sample_pool_distinct population k w Hk) as (selected & Heq & _).
    exists selected. now rewrite Heq.
  - apply sample_set_returns; [|exact Hvaried].
    unfold setsize in Hlarge. destruct (5 <? k)%nat; [|lia].
    assert (0 <= power_of_4_from k 1 (3 * Z.of_nat k)); [|lia].
    assert (H : forall fuel p m, 0 <= p -> 0 <= power_of_4_from fuel p m).
    { induction fuel as [|fuel IH]; intros p m Hp; cbn [power_of_4_from];
        [assumption|]. destruct (m <=? p); [assumption|apply IH; lia]. }
    apply H. lia.
Qed.

(** Draws that count upwards are varied enough to find two positions
    among 22. *)
Lemma counting_world_varied d : varied (counting_world d) 22 2.
Proof.
  intros i _. unfold window.
  cbn [patience counting_world random_source seq map].
  match goal with
  | |- (_ <= List.length (nodup _ (_ :: _ :: ?l)))%nat => set (rest := l)
  end.
  assert (Hdiff : (i mod 22 <> S i mod 22)%nat).
  { replace (S i) with (i + 1)%nat by lia.
    rewrite Nat.Div0.add_mod.
    pose proof (Nat.mod_upper_bound i 22 ltac:(lia)) as Hlt.
    revert Hlt. generalize (i mod 22)%nat. intros x Hx.
    do 22 (destruct x as [|x]; [cbn; lia|]). lia. }
  change 2%nat with (List.length [(i mod 22)%nat; (S i mod 22)%nat]).
  apply NoDup_incl_length.
  - constructor; [intros [H|[]]; now apply Hdiff|].
    constructor; [intros []|constructor].
  - intros x Hx. apply nodup_In.
    destruct Hx as [<-|[<-|[]]]; [left|right; left]; reflexivity.
Qed.

Lemma random_sample_outcome (population : list pyval) k w :
  (k <= List.length population)%nat ->
  (exists selected, fst (random_sample population k w) = Ok selected) \/
  fst (random_sample population k w) = Raise Hang.
Proof.
  intros Hk. unfold random_sample. cbv zeta.
  apply Nat.leb_le in Hk as Hk'. rewrite Hk'.
  destruct (Z.leb_spec (Z.of_nat (List.length population)) (setsize k))
    as [Hsmall|Hlarge].
  - destruct (sample_pool_distinct population k w Hk) as (selected & Heq & _).
    left. exists selected. now rewrite Heq.
  - apply sample_set_outcome.
    unfold setsize in Hlarge. destruct (5 <? k)%nat; [|lia].
    assert (0 <= power_of_4_from k 1 (3 * Z.of_nat k)); [|lia].
    assert (H : forall fuel p m, 0 <= p -> 0 <= power_of_4_from fuel p m).
    { induction fuel as [|fuel IH]; intros p m Hp; cbn [power_of_4_from];
        [assumption|]. destruct (m <=? p); [assumption|apply IH; lia]. }
    apply H. lia.
Qed.

End SampleFacts.
Import SampleFacts.

(** ** Facts about the selection of recipients *)

Module SelectFacts.

Lemma drawn_nodup population selected :
  drawn_without_replacement population selected ->
  NoDup population -> NoDup selected.
Proof.
  intros (positions & Hnd & Hin & ->) Hpop.
  induction positions as [|p ps IH]; [constructor|].
  inversion Hnd as [|? ? Hp Hps]; subst.
  inversion Hin as [|? ? Hlt Hrest]; subst.
  cbn [map]. constructor; [|now apply IH].
  intros Hmem. apply in_map_iff in Hmem. destruct Hmem as (q & Hq & Hqin).
  rewrite Forall_forall in Hrest.
  assert (q = p).
  { apply (proj1 (NoDup_nth population PNone) Hpop); auto. }
  subst q. contradiction.
Qed.

(** What [select_recipients] prints: the warning, exactly when it
    clamps. *)
Lemma select_recipients_trace n receive_data w :
  trace (snd (select_recipients n receive_data w)) =
  if Z.of_nat (List.length receive_data) <? n
  then (trace w ++
        [Print (MsgWarnRecipients n (Z.of_nat (List.length receive_data)))])%list
  else trace w.
Proof.
  unfold select_recipients, bind.
  destruct (Z.of_nat (List.length receive_data) <? n); cbn [print ret];
    match goal with
    | |- context [random_sample ?l ?k ?w1] =>
        pose proof (keeps_random_sample trace (fun _ => eq_refl) l k w1)
          as Htrace;
        destruct (random_sample l k w1) as [[selected| |] w2]
    end; exact Htrace.
Qed.

(** The request as [select_recipients] passes it to [random.sample]. *)
Lemma select_recipients_sample n receive_data w :
  0 < n ->
  exists w1,
    trace w1 = trace (snd (select_recipients n receive_data w)) /\
    random_source w1 = random_source w /\ patience w1 = patience w /\
    draws w1 = draws w /\
    let n' := Z.min n (Z.of_nat (List.length receive_data)) in
    select_recipients n receive_data w =
    match random_sample receive_data (Z.to_nat n') w1 with
    | (Ok selected, w2) => (Ok (n', selected), w2)
    | (Raise e, w2) => (Raise e, w2)
    | (Exit c, w2) => (Exit c, w2)
    end.
Proof.
  intros Hpos. cbv zeta.
  pose proof (select_recipients_trace n receive_data w) as Htrace.
  unfold select_recipients, bind in *.
  destruct (Z.ltb_spec (Z.of_nat (List.length receive_data)) n) as [Hlt|Hge];
    cbn [print ret] in *.
  - exists (emit (Print (MsgWarnRecipients n
                           (Z.of_nat (List.length receive_data)))) w).
    rewrite Z.min_r by lia. rewrite Htrace. repeat split.
  - exists w. rewrite Z.min_l by lia. rewrite Htrace. repeat split.
Qed.

(** What [select_recipients] returns for a positive request, when it
    returns. *)
Lemma select_recipients_result n receive_data w n' selected :
  0 < n ->
  fst (select_recipients n receive_data w) = Ok (n', selected) ->
  n' = Z.min n (Z.of_nat (List.length receive_data)) /\
  Z.of_nat (List.length selected) = n' /\
  drawn_without_replacement receive_data selected.
Proof.
  intros Hpos Hres.
  destruct (select_recipients_sample n receive_data w Hpos)
    as (w1 & _ & _ & _ & _ & Heq).
  cbv zeta in Heq. rewrite Heq in Hres. clear Heq.
  pose proof (random_sample_distinct receive_data
                (Z.to_nat (Z.min n (Z.of_nat (List.length receive_data))))
                w1) as Hdistinct.
  destruct (random_sample _ _ w1) as [[selected'| |] w2];
    try discriminate.
  cbn [fst] in *. injection Hres as <- <-.
  destruct (Hdistinct selected' eq_refl) as [Hlen Hdrawn].
  split; [reflexivity|]. split; [lia|assumption].
Qed.

(** It returns when the list is short enough for the pool, or the draws are
    varied enough. *)
Lemma select_recipients_returns n receive_data w :
  0 < n ->
  let n' := Z.min n (Z.of_nat (List.length receive_data)) in
  Z.of_nat (List.length receive_data) <= setsize (Z.to_nat n') \/
  varied w (List.length receive_data) (Z.to_nat n') ->
  exists selected, fst (select_recipients n receive_data w) = Ok (n', selected).
Proof.
  intros Hpos. cbv zeta. intros Hcond.
  destruct (select_recipients_sample n receive_data w Hpos)
    as (w1 & _ & Hsource & Hpatience & Hdraws & Heq).
  cbv zeta in Heq. rewrite Heq. clear Heq.
  set (n' := Z.min n (Z.of_nat (List.length receive_data))) in *.
  assert (Hk : (Z.to_nat n' <= List.length receive_data)%nat)
    by (unfold n'; lia).
  assert (Hok : exists selected,
             fst (random_sample receive_data (Z.to_nat n') w1) = Ok selected).
  { destruct Hcond as [Hsmall|Hvaried].
    - now apply random_sample_pool.
    - apply random_sample_returns; [assumption|].
      apply (varied_later w); [assumption..|lia|assumption]. }
  destruct Hok as [selected Hok].
  destruct (random_sample _ _ w1) as [r w2]. cbn [fst] in Hok. subst r.
  now exists selected.
Qed.

(** Otherwise [random.sample] is still redrawing when the patience has run
    out. *)
Lemma select_recipients_outcome n receive_data w :
  0 < n ->
  (exists selected,
      fst (select_recipients n receive_data w) =
      Ok (Z.min n (Z.of_nat (List.length receive_data)), selected)) \/
  fst (select_recipients n receive_data w) = Raise Hang.
Proof.
  intros Hpos.
  destruct (select_recipients_sample n receive_data w Hpos)
    as (w1 & _ & _ & _ & _ & Heq).
  cbv zeta in Heq. rewrite Heq. clear Heq.
  set (n' := Z.min n (Z.of_nat (List.length receive_data))) in *.
  assert (Hk : (Z.to_nat n' <= List.length receive_data)%nat)
    by (unfold n'; lia).
  destruct (random_sample_outcome receive_data (Z.to_nat n') w1 Hk)
    as [[selected Hok]|Hhang];
    destruct (random_sample _ _ w1) as [r w2]; cbn [fst] in *; subst r.
  - left. now exists selected.
  - now right.
Qed.

End SelectFacts.
Import SelectFacts.

(** ** Facts about dispatching *)

Module DispatchFacts.


Lemma random_choice_ok {A} (seq : list A) w :
  seq <> [] ->
  exists x, In x seq /\ random_choice seq w = (Ok x, drew w).
Proof.
  intros Hne. unfold random_choice.
  destruct seq as [|a seq']; [congruence|].
  unfold bind. cbn [randbelow].
  set (j := (random_source w (draws w) mod List.length (a :: seq'))%nat).
  assert (Hj : (j < List.length (a :: seq'))%nat)
    by (apply Nat.mod_upper_bound; discriminate).
  destruct (nth_error (a :: seq') j) as [x|] eqn:Hx.
  - exists x. split; [eapply nth_error_In; eassumption|reflexivity].
  - apply nth_error_None in Hx. lia.
Qed.






End DispatchFacts.
Import DispatchFacts.

(** ** Facts about runs in which nothing is sent *)

Module NothingSentFacts.

Lemma keeps_sends_and_files {A} (m : M A) w :
  keeps sends_and_files m ->
  swaks_run (snd (m w)) = swaks_run w /\ files (snd (m w)) = files w.
Proof.
  intros Hk. specialize (Hk w). unfold sends_and_files in Hk.
  injection Hk as H1 H2. split; assumption.
Qed.

(** A frame step whose continuation may use what the first part returned. *)
Lemma bind_keeps_post {A B} (m : M A) (k : A -> M B) (Q : A -> Prop) w :
  sends_and_files (snd (m w)) = sends_and_files w ->
  (forall a, fst (m w) = Ok a -> Q a) ->
  (forall a w', Q a -> sends_and_files w' = sends_and_files w ->
                sends_and_files (snd (k a w')) = sends_and_files w') ->
  sends_and_files (snd (bind m k w)) = sends_and_files w.
Proof.
  intros Hm HQ Hk. unfold bind.
  destruct (m w) as [[a|e|c] w1]; cbn [fst snd] in *; try assumption.
  rewrite Hk; auto.
Qed.

Lemma no_send_succeeds_same w w' :
  sends_and_files w' = sends_and_files w ->
  no_send_succeeds w -> no_send_succeeds w'.
Proof.
  unfold sends_and_files, no_send_succeeds. intros H Hw n.
  injection H as H1 _. rewrite H1. apply Hw.
Qed.

Lemma bind_ret_result {A B} (m : M A) (x : B) w y :
  fst (bind m (fun _ => ret x) w) = Ok y -> y = x.
Proof.
  unfold bind. destruct (m w) as [[a|e|c] w1]; cbn; congruence.
Qed.

(** When no swaks run succeeds, [send_email] reports no success. *)
Lemma send_email_no_success a b c d e g w sent :
  no_send_succeeds w ->
  fst (send_email a b c d e g w) = Ok sent -> sent = false.
Proof.
  intros Hw. unfold send_email, bind.
  destruct (random_choice_ok X_MAILERS w) as (xm & _ & ->); [discriminate|].
  destruct (random_choice_ok PRIORITIES (drew w)) as (pr & _ & ->);
    [discriminate|].
  cbn [print].
  destruct (as_str a), (as_str b), (as_str d), (as_str e), (as_str g);
    cbn [print ret run_swaks fst]; try congruence.
  destruct (swaks_run _ _) eqn:Hrun; cbn [print ret fst]; try congruence.
  exfalso. eapply Hw. exact Hrun.
Qed.

Lemma dispatch_selected_no_success creds message n i recipient tally w t :
  no_send_succeeds w ->
  fst (dispatch_selected creds message n i recipient tally w) = Ok t ->
  t = tally.
Proof.
  intros Hw. unfold dispatch_selected.
  destruct (recipient_email_of recipient) as [address|];
    [|cbn; congruence].
  unfold bind at 1 2 3 4 5. unfold lift.
  destruct (get_default creds "email" (PStr "")) as [email| |];
    cbn [fst]; try discriminate.
  destruct (get_default creds "password" (PStr "")) as [password| |];
    cbn [fst]; try discriminate.
  destruct (get_default creds "display_name" email) as [display| |];
    cbn [fst]; try discriminate.
  destruct (get_default message "subject" (PStr DEFAULT_SUBJECT))
    as [subject| |]; cbn [fst]; try discriminate.
  destruct (get_default message "body" (PStr DEFAULT_BODY)) as [body| |];
    cbn [fst]; try discriminate.
  destruct (negb (truthy email) || negb (truthy password));
    [cbn; congruence|].
  unfold bind at 1.
  pose proof (send_email_no_success email password display address subject
                body w) as Hsent.
  destruct (send_email email password display address subject body w)
    as [[sent|e|c] w1]; cbn [fst] in *; try discriminate.
  rewrite (Hsent sent Hw eq_refl).
  intros H. apply bind_ret_result in H. exact H.
Qed.

Lemma keeps_process_recipient_sf send_data messages_data n i recipient tally :
  keeps sends_and_files
    (process_recipient send_data messages_data n i recipient tally).
Proof. apply keeps_process_recipient; reflexivity. Qed.

Lemma process_recipient_no_success
    send_data messages_data n i recipient tally w t :
  no_send_succeeds w ->
  fst (process_recipient send_data messages_data n i recipient tally w) =
  Ok t ->
  t = tally.
Proof.
  intros Hw. unfold process_recipient, bind. cbn [print].
  destruct (random_choice send_data _) as [[creds|e|c] w1] eqn:H1;
    cbn [fst]; try discriminate.
  destruct (random_choice messages_data w1) as [[message|e|c] w2] eqn:H2;
    cbn [fst]; try discriminate.
  apply dispatch_selected_no_success.
  pose proof (keeps_random_choice sends_and_files (fun _ => eq_refl)
                send_data (emit (Print (MsgProcessing i n)) w)) as K1.
  pose proof (keeps_random_choice sends_and_files (fun _ => eq_refl)
                messages_data w1) as K2.
  rewrite H1 in K1. rewrite H2 in K2. cbn [snd] in *.
  eapply no_send_succeeds_same; [|exact Hw].
  rewrite K2, K1. reflexivity.
Qed.

(** When no swaks run succeeds, the loop hands back the tally it got. *)
Lemma send_loop_no_success send_data messages_data n selected i tally w t :
  no_send_succeeds w ->
  fst (send_loop send_data messages_data n selected i tally w) = Ok t ->
  t = tally.
Proof.
  revert i tally w. induction selected as [|r rest IH]; intros i tally w Hw.
  - cbn. congruence.
  - cbn [send_loop]. unfold bind.
    pose proof (process_recipient_no_success send_data messages_data n i r
                  tally w) as Hstep.
    pose proof (keeps_process_recipient_sf send_data messages_data n i r
                  tally w) as Hkeep.
    destruct (process_recipient send_data messages_data n i r tally w)
      as [[t1|e|c] w1]; cbn [fst snd] in *; try discriminate.
    rewrite (Hstep t1 Hw eq_refl).
    apply IH. eapply no_send_succeeds_same; eassumption.
Qed.

Lemma keeps_quiet {A} (m : M A) : keeps sends_and_files m -> quiet m.
Proof. intros Hk w _. apply Hk. Qed.

Lemma quiet_bind_post {A B} (m : M A) (k : A -> M B) (Q : A -> Prop) :
  quiet m ->
  (forall w a, no_send_succeeds w -> fst (m w) = Ok a -> Q a) ->
  (forall a, Q a -> quiet (k a)) ->
  quiet (bind m k).
Proof.
  intros Hm HQ Hk w Hw. unfold bind.
  specialize (Hm w Hw). specialize (HQ w).
  destruct (m w) as [[a|e|c] w1]; cbn [fst snd] in *; try assumption.
  rewrite Hk; auto. eapply no_send_succeeds_same; eassumption.
Qed.

Lemma quiet_bind {A B} (m : M A) (k : A -> M B) :
  quiet m -> (forall a, quiet (k a)) -> quiet (bind m k).
Proof.
  intros Hm Hk.
  apply (quiet_bind_post m k (fun _ => True)); auto.
Qed.

(** The primitives that touch neither the files nor the swaks outcomes,
    and what is built from them. *)
Ltac quiet_step :=
  first
    [ apply keeps_quiet;
      first [ apply keeps_ret | apply keeps_lift | apply keeps_raise
            | apply keeps_sys_exit | apply keeps_read
            | apply keeps_print; reflexivity
            | apply keeps_sleep; reflexivity
            | apply keeps_datetime_now; reflexivity
            | apply keeps_load_json_file; reflexivity
            | apply keeps_require; reflexivity
            | apply keeps_load_history
            | apply keeps_get_current_day_info; reflexivity
            | apply keeps_select_recipients; reflexivity
            | apply keeps_send_loop; reflexivity
            | apply keeps_show_status; reflexivity ]
    | apply quiet_bind; [|intros]
    | match goal with
      | |- quiet (if ?b then _ else _) => destruct b
      | |- quiet (match ?x with _ => _ end) => destruct x
      end ].

Ltac quiet_tac := repeat quiet_step.

Lemma quiet_remove_crontab : quiet remove_crontab.
Proof.
  intros w _. unfold remove_crontab.
  destruct (cron w) as [|[text|]]; cbn; try reflexivity.
  destruct (existsb _ _); cbn; try reflexivity.
  destruct (kept_lines _ _); reflexivity.
Qed.

Lemma quiet_setup_crontab : quiet setup_crontab.
Proof.
  intros w _. unfold setup_crontab.
  destruct (cron w) as [|table]; cbn; try reflexivity.
  destruct (contains _ _); [reflexivity|].
  destruct (install_code w =? 0); reflexivity.
Qed.

Lemma quiet_check_and_cleanup_crontab history :
  quiet (check_and_cleanup_crontab history).
Proof.
  unfold check_and_cleanup_crontab.
  apply quiet_bind; [quiet_tac|intros start].
  destruct (negb (truthy start)); [quiet_tac|].
  do 2 (apply quiet_bind; [quiet_tac|intros]).
  match goal with |- quiet (if ?b then _ else _) => destruct b end;
    [|quiet_tac].
  apply quiet_bind; [quiet_tac|intros].
  apply quiet_bind; [apply quiet_remove_crontab|intros]. quiet_tac.
Qed.

(** The rest of a scheduled or forced run after the quota is known: with
    no successful send it writes nothing. *)
Lemma quiet_run_campaign a history send_data messages_data receive_data :
  quiet (run_campaign a history send_data messages_data receive_data).
Proof.
  unfold run_campaign.
  apply quiet_bind; [quiet_tac|].
  intros [[[history' day_number] emails_to_send] today].
  destruct (emails_to_send <=? 0); [quiet_tac|].
  apply quiet_bind; [quiet_tac|]. intros [emails_to_send' selected].
  apply (quiet_bind_post _ _ (fun tally => tally = 0)).
  - quiet_tac.
  - intros w tally Hw Hloop.
    eapply send_loop_no_success; eassumption.
  - intros tally ->. rewrite andb_false_r. quiet_tac.
Qed.

(** A run in which no swaks run succeeds leaves every file as it was. *)
Lemma quiet_main a : quiet (main a).
Proof.
  unfold main.
  destruct (setup_cron a).
  { apply quiet_bind; [apply quiet_setup_crontab|]. intros. quiet_tac. }
  destruct (remove_cron a).
  { apply quiet_bind; [apply quiet_remove_crontab|]. intros. quiet_tac. }
  apply quiet_bind; [quiet_tac|]. intros history.
  destruct (status a); [quiet_tac|].
  apply quiet_bind; [apply quiet_check_and_cleanup_crontab|]. intros.
  do 16 (apply quiet_bind; [quiet_tac|intros]).
  apply quiet_run_campaign.
Qed.

End NothingSentFacts.
Import NothingSentFacts.

(** ** Facts about runs that differ in the record they start from *)

Module RecordFacts.

(** Take a [same_but_record] hypothesis apart and use its equations. *)
Ltac use_same H :=
  let Hfiles := fresh "Hfiles" in
  destruct H as (Hfiles & ? & ? & ? & ? & ? & ? & ? & ? & ? & ? & ? & ? & ?).

Ltac same_fields :=
  unfold same_but_record; cbn;
  repeat split; try congruence; auto.

Lemma same_emit e w1 w2 :
  same_but_record w1 w2 -> same_but_record (emit e w1) (emit e w2).
Proof. intros H. use_same H. same_fields. Qed.

Lemma same_tick w1 w2 :
  same_but_record w1 w2 -> same_but_record (tick w1) (tick w2).
Proof. intros H. use_same H. same_fields. Qed.

Lemma same_drew w1 w2 :
  same_but_record w1 w2 -> same_but_record (drew w1) (drew w2).
Proof. intros H. use_same H. same_fields. Qed.

Lemma same_ran_swaks w1 w2 :
  same_but_record w1 w2 -> same_but_record (ran_swaks w1) (ran_swaks w2).
Proof. intros H. use_same H. same_fields. Qed.

Lemma same_set_cron c w1 w2 :
  same_but_record w1 w2 -> same_but_record (set_cron c w1) (set_cron c w2).
Proof. intros H. use_same H. same_fields. Qed.

Lemma same_set_record f1 f2 w1 w2 :
  same_but_record w1 w2 ->
  same_but_record (set_file HistoryJson f1 w1) (set_file HistoryJson f2 w2).
Proof.
  intros H. use_same H. same_fields.
  intros p Hp. destruct p; [congruence|auto..]; apply Hfiles; discriminate.
Qed.

Lemma same_refl_set_record f w :
  same_but_record w (set_file HistoryJson f w).
Proof. same_fields. intros p Hp. destruct p; [congruence|reflexivity..]. Qed.

Lemma blind_ret {A} (a : A) : blind (ret a).
Proof. intros w1 w2 H. split; [reflexivity|exact H]. Qed.

Lemma blind_lift {A} (r : res A) : blind (lift r).
Proof. intros w1 w2 H. split; [reflexivity|exact H]. Qed.

Lemma blind_raise {A} (e : exn) : blind (@raise A e).
Proof. apply blind_lift. Qed.

Lemma blind_sys_exit {A} (c : Z) : blind (@sys_exit A c).
Proof. apply blind_lift. Qed.

Lemma blind_bind {A B} (m : M A) (k : A -> M B) :
  blind m -> (forall a, blind (k a)) -> blind (bind m k).
Proof.
  intros Hm Hk w1 w2 H. unfold bind.
  destruct (Hm w1 w2 H) as [Hres Hsame].
  destruct (m w1) as [[a1|e1|c1] w1']; destruct (m w2) as [[a2|e2|c2] w2'];
    cbn [fst snd] in *; try discriminate Hres; injection Hres as ->.
  - apply Hk. assumption.
  - split; [reflexivity|assumption].
  - split; [reflexivity|assumption].
Qed.

Lemma blind_print m : blind (print m).
Proof. intros w1 w2 H. split; [reflexivity|apply same_emit, H]. Qed.

Lemma blind_sleep n : blind (sleep n).
Proof. intros w1 w2 H. split; [reflexivity|apply same_emit, H]. Qed.

Lemma blind_datetime_now : blind datetime_now.
Proof.
  intros w1 w2 H. split; [|apply same_tick, H].
  use_same H. cbn. congruence.
Qed.

Lemma blind_randbelow n : blind (randbelow n).
Proof.
  intros w1 w2 H. split; [|apply same_drew, H].
  use_same H. cbn. congruence.
Qed.

Lemma blind_run_swaks c : blind (run_swaks c).
Proof.
  intros w1 w2 H. split; [|apply same_emit, same_ran_swaks, H].
  use_same H. cbn. congruence.
Qed.

Lemma blind_swaks_present : blind (fun w => (Ok (swaks_present w), w)).
Proof.
  intros w1 w2 H. split; [|exact H]. use_same H. cbn. congruence.
Qed.

Ltac blind_step :=
  first
    [ apply blind_ret | apply blind_lift | apply blind_raise
    | apply blind_sys_exit | apply blind_print | apply blind_sleep
    | apply blind_datetime_now | apply blind_randbelow
    | apply blind_run_swaks | apply blind_swaks_present
    | assumption
    | apply blind_bind; [|intros]
    | match goal with
      | |- blind (if ?b then _ else _) => destruct b
      | |- blind (match ?x with _ => _ end) => destruct x
      end ].

Ltac blind_tac := repeat blind_step.

Lemma blind_random_choice {A} (seq : list A) : blind (random_choice seq).
Proof. unfold random_choice. blind_tac. Qed.

Lemma blind_sample_pool {A} (pool : list A) n k : blind (sample_pool pool n k).
Proof.
  revert pool n. induction k as [|k IH]; intros pool n; cbn [sample_pool].
  - blind_tac.
  - apply blind_bind; [blind_tac|]. intros j.
    destruct (nth_error pool j); [|blind_tac].
    destruct (nth_error pool (n - 1)); [|blind_tac].
    apply blind_bind; [apply IH|]. intros. blind_tac.
Qed.

Lemma blind_patience : blind (fun w => (Ok (patience w), w)).
Proof.
  intros w1 w2 H. cbn. split; [|assumption]. use_same H. congruence.
Qed.

Lemma blind_redraw fuel n selected j : blind (redraw fuel n selected j).
Proof.
  revert j. induction fuel as [|fuel IH]; intros j; cbn [redraw];
    destruct (existsb _ _); try solve [blind_tac].
  apply blind_bind; [blind_tac|]. intros j'. apply IH.
Qed.

Lemma blind_sample_set {A} (population : list A) n k selected :
  blind (sample_set population n k selected).
Proof.
  revert selected. induction k as [|k IH]; intros selected;
    cbn [sample_set].
  - blind_tac.
  - apply blind_bind; [blind_tac|]. intros j0.
    apply blind_bind; [apply blind_patience|]. intros fuel.
    apply blind_bind; [apply blind_redraw|]. intros j.
    destruct (nth_error population j); [|blind_tac].
    apply blind_bind; [apply IH|]. intros. blind_tac.
Qed.

Lemma blind_random_sample {A} (population : list A) k :
  blind (random_sample population k).
Proof.
  unfold random_sample. cbv zeta.
  destruct (k <=? List.length population)%nat; [|blind_tac].
  destruct (_ <=? _); [apply blind_sample_pool|apply blind_sample_set].
Qed.

Lemma blind_randint a b : blind (randint a b).
Proof. unfold randint. blind_tac. Qed.

Lemma blind_send_email a b c d e g : blind (send_email a b c d e g).
Proof.
  unfold send_email.
  repeat (apply blind_bind;
          [first [apply blind_random_choice | apply blind_print]|intros]).
  blind_tac.
Qed.

Lemma blind_dispatch_selected creds message n i recipient tally :
  blind (dispatch_selected creds message n i recipient tally).
Proof.
  unfold dispatch_selected.
  destruct (recipient_email_of recipient); [|blind_tac].
  do 5 (apply blind_bind; [blind_tac|intros]).
  match goal with |- blind (if ?b then _ else _) => destruct b end;
    [blind_tac|].
  apply blind_bind; [apply blind_send_email|intros].
  apply blind_bind; [|intros; blind_tac].
  match goal with |- blind (if ?b then _ else _) => destruct b end;
    [|blind_tac].
  apply blind_bind; [apply blind_randint|intros]. blind_tac.
Qed.

Lemma blind_send_loop send_data messages_data n selected i tally :
  blind (send_loop send_data messages_data n selected i tally).
Proof.
  revert i tally. induction selected as [|r rest IH]; intros i tally;
    cbn [send_loop].
  - blind_tac.
  - apply blind_bind; [|intros; apply IH].
    unfold process_recipient.
    apply blind_bind; [blind_tac|intros].
    do 2 (apply blind_bind; [apply blind_random_choice|intros]).
    apply blind_dispatch_selected.
Qed.

Lemma blind_select_recipients n receive_data :
  blind (select_recipients n receive_data).
Proof.
  unfold select_recipients.
  apply blind_bind; [blind_tac|intros].
  apply blind_bind; [apply blind_random_sample|intros]. blind_tac.
Qed.

Lemma blind_load_json_file p : p <> HistoryJson -> blind (load_json_file p).
Proof.
  intros Hp w1 w2 H. unfold load_json_file.
  assert (Hfile : files w1 p = files w2 p) by (use_same H; auto).
  rewrite Hfile.
  destruct (files w2 p); cbn; (split; [reflexivity|]);
    try assumption; apply same_emit, H.
Qed.

Lemma blind_require ok message : blind (require ok message).
Proof. unfold require. blind_tac. Qed.

Lemma blind_get_current_day_info history :
  blind (get_current_day_info history).
Proof. unfold get_current_day_info. blind_tac. Qed.

Lemma blind_save_history history : blind (save_history history).
Proof.
  intros w1 w2 H. unfold save_history.
  assert (Hw : record_writable w1 = record_writable w2)
    by (use_same H; assumption).
  rewrite Hw. destruct (record_writable w2); cbn.
  - split; [reflexivity|]. do 2 apply same_set_record. exact H.
  - split; [reflexivity|exact H].
Qed.

Lemma blind_update_history history date count :
  blind (update_history history date count).
Proof.
  unfold update_history.
  do 6 (apply blind_bind; [blind_tac|intros]).
  apply blind_bind; [apply blind_save_history|intros]. blind_tac.
Qed.

Lemma blind_remove_crontab : blind remove_crontab.
Proof.
  intros w1 w2 H. unfold remove_crontab.
  assert (Hcron : cron w1 = cron w2) by (use_same H; assumption).
  assert (Hpath : script_path w1 = script_path w2)
    by (use_same H; assumption).
  rewrite Hcron, Hpath.
  destruct (cron w2) as [|[text|]].
  - apply (blind_bind (print MsgCronRemoveError) (fun _ => ret false));
      [apply blind_print|intros; apply blind_ret|exact H].
  - destruct (existsb _ _); cbn [negb].
    + destruct (kept_lines _ _); cbn; (split; [reflexivity|]);
        apply same_emit, same_set_cron, H.
    + cbn. split; [reflexivity|]. apply same_emit, H.
  - cbn. split; [reflexivity|]. apply same_emit, H.
Qed.

Lemma blind_setup_crontab : blind setup_crontab.
Proof.
  intros w1 w2 H. unfold setup_crontab, cron_command.
  assert (Hcron : cron w1 = cron w2) by (use_same H; assumption).
  assert (Hpath : script_path w1 = script_path w2)
    by (use_same H; assumption).
  assert (Hcode : install_code w1 = install_code w2)
    by (use_same H; assumption).
  rewrite Hcron, Hpath.
  destruct (cron w2) as [|table].
  - cbn. split; [reflexivity|]. apply same_emit, H.
  - destruct (contains _ _); cbn; [split; [reflexivity|]; apply same_emit, H|].
    rewrite Hcode.
    destruct (install_code w2 =? 0); cbn; (split; [reflexivity|]);
      apply same_emit, same_set_cron, H.
Qed.

Lemma blind_check_and_cleanup_crontab history :
  blind (check_and_cleanup_crontab history).
Proof.
  unfold check_and_cleanup_crontab.
  apply blind_bind; [blind_tac|intros start].
  destruct (negb (truthy start)); [blind_tac|].
  do 2 (apply blind_bind; [blind_tac|intros]).
  match goal with |- blind (if ?b then _ else _) => destruct b end;
    [|blind_tac].
  apply blind_bind; [blind_tac|intros].
  apply blind_bind; [apply blind_remove_crontab|intros]. blind_tac.
Qed.

Lemma blind_print_history_lines items : blind (print_history_lines items).
Proof.
  induction items as [|[date count] rest IH]; cbn [print_history_lines].
  - blind_tac.
  - apply blind_bind; [blind_tac|intros]. apply IH.
Qed.

Lemma blind_show_status history : blind (show_status history).
Proof.
  unfold show_status.
  do 2 (apply blind_bind; [blind_tac|intros]).
  match goal with |- blind (if ?b then _ else _) => destruct b end;
    [|blind_tac].
  do 7 (apply blind_bind; [blind_tac|intros]).
  apply blind_print_history_lines.
Qed.

Lemma blind_run_campaign a history send_data messages_data receive_data :
  blind (run_campaign a history send_data messages_data receive_data).
Proof.
  unfold run_campaign.
  apply blind_bind.
  { destruct (force_requested a).
    - blind_tac.
    - apply blind_bind; [apply blind_get_current_day_info|intros]. blind_tac. }
  intros [[[history' day_number] emails_to_send] today].
  destruct (emails_to_send <=? 0); [blind_tac|].
  apply blind_bind; [apply blind_select_recipients|].
  intros [emails_to_send' selected].
  apply blind_bind; [apply blind_send_loop|]. intros successful.
  apply blind_bind.
  { destruct (negb (force_requested a) && (0 <? successful));
      [apply blind_update_history|blind_tac]. }
  intros history''. blind_tac.
Qed.

Lemma blind_after {A B} (m : M A) (k : A -> M B) w1 w2 a :
  m w1 = (Ok a, w1) ->
  m w2 = (Ok a, w2) ->
  blind (k a) ->
  same_but_record w1 w2 ->
  fst (bind m k w1) = fst (bind m k w2) /\
  same_but_record (snd (bind m k w1)) (snd (bind m k w2)).
Proof.
  intros H1 H2 Hk Hsame. unfold bind. rewrite H1, H2. apply Hk. assumption.
Qed.

Lemma load_history_loaded w : load_history w = (Ok (loaded_history w), w).
Proof.
  unfold load_history, loaded_history.
  destruct (files w HistoryJson); reflexivity.
Qed.

(** Two runs from worlds that differ at most in the record, and in which
    [load_history] returns the same history, go the same way. *)
Lemma main_same_history a w1 w2 :
  same_but_record w1 w2 ->
  loaded_history w1 = loaded_history w2 ->
  fst (main a w1) = fst (main a w2) /\
  same_but_record (snd (main a w1)) (snd (main a w2)).
Proof.
  intros Hsame Hload. unfold main.
  destruct (setup_cron a).
  { revert w1 w2 Hsame Hload. intros w1 w2 Hsame _. revert w1 w2 Hsame.
    apply blind_bind; [apply blind_setup_crontab|intros]. blind_tac. }
  destruct (remove_cron a).
  { revert w1 w2 Hsame Hload. intros w1 w2 Hsame _. revert w1 w2 Hsame.
    apply blind_bind; [apply blind_remove_crontab|intros]. blind_tac. }
  apply (blind_after load_history _ w1 w2 (loaded_history w2));
    [rewrite <- Hload; apply load_history_loaded
    |apply load_history_loaded| |assumption].
  destruct (status a); [apply blind_show_status|].
  apply blind_bind; [apply blind_check_and_cleanup_crontab|intros].
  apply blind_bind; [blind_tac|intros].
  do 3 (apply blind_bind; [apply blind_load_json_file; discriminate|intros];
        apply blind_bind; [apply blind_require|intros]).
  do 3 (apply blind_bind; [apply blind_require|intros]).
  do 6 (apply blind_bind; [blind_tac|intros]).
  apply blind_run_campaign.
Qed.

End RecordFacts.
Import RecordFacts.

(** ** The properties of the specification *)

(** Membership in a list that has been computed. *)
Ltac find_in := solve [repeat first [left; reflexivity | right]].

(** C1: for every state whose start date is [D] and every invocation date
    [today = D + k days], [get_current_day_info] returns
    [day_number = k + 1] and
    [emails_to_send = max(0, day_number - already_sent_today)], where
    [already_sent_today] is [daily_sends[today]] when that key is present and
    0 otherwise; for a state without start date it sets the start date to
    today and returns [day_number = 1]. *)
Theorem C1_day_number_and_quota (st : campaign_state) (w : world) :
  (forall D k,
      start_date st = Some D ->
      valid_date D = true ->
      valid_date (today_of w) = true ->
      today_of w = add_days D k ->
      let today := strftime (today_of w) in
      let day_number := Z.of_nat k + 1 in
      get_current_day_info (encode st) w =
      (Ok (encode st,
           (day_number, Z.max 0 (day_number - already_sent st today), today)),
       tick w)) /\
  (start_date st = None ->
   let today := strftime (today_of w) in
   get_current_day_info (encode st) w =
   (Ok (encode (started st (today_of w)),
        (1, Z.max 0 (1 - already_sent st today), today)),
    tick w)).
Proof.
  split.
  - intros D k Hs HD Ht Hk. cbv zeta.
    assert (Hord : toordinal (today_of w) = toordinal D + Z.of_nat k).
    { rewrite Hk. apply toordinal_add_days, valid_date_wf. assumption. }
    rewrite (get_current_day_info_started st D w Hs HD Ht). cbv zeta.
    rewrite Hord.
    replace (toordinal D + Z.of_nat k - toordinal D + 1)
      with (Z.of_nat k + 1) by lia.
    reflexivity.
  - intros Hs. apply get_current_day_info_fresh. assumption.
Qed.

Lemma C1_day_number_and_quota_witness :
  fst (get_current_day_info
         (encode (mkstate (Some (mkdate 2024 2 27)) [("2024-03-01", 1)]))
         (sample_world (mkdate 2024 3 1) Missing 0 SwaksOk)) =
  Ok (encode (mkstate (Some (mkdate 2024 2 27)) [("2024-03-01", 1)]),
      (4, 3, "2024-03-01")) /\
  fst (get_current_day_info
         (encode (mkstate None []))
         (sample_world (mkdate 2024 1 1) Missing 0 SwaksOk)) =
  Ok (encode (mkstate (Some (mkdate 2024 1 1)) []), (1, 1, "2024-01-01")).
Proof.
  split.
  - rewrite (proj1 (C1_day_number_and_quota
                      (mkstate (Some (mkdate 2024 2 27)) [("2024-03-01", 1)])
                      (sample_world (mkdate 2024 3 1) Missing 0 SwaksOk))
               (mkdate 2024 2 27) 3%nat); reflexivity.
  - rewrite (proj2 (C1_day_number_and_quota
                      (mkstate None [])
                      (sample_world (mkdate 2024 1 1) Missing 0 SwaksOk)));
      reflexivity.
Defined.

(** C2, on the code: the start date that [get_current_day_info] sets is
    written to the record only by [update_history], which [main] calls only
    when at least one email was sent. So a run in which no swaks run
    succeeds leaves the record exactly as it found it, whatever the command
    line. In particular a scheduled run that starts from no record and
    whose one send fails computes day 1, reports "History updated", and
    leaves no record behind: the run of the next day is day 1 again, and on
    the seventh day the crontab entry is still there. *)
Theorem C2_start_date_lost_when_nothing_sent (a : args) (w : world) :
  (no_send_succeeds w ->
   files (snd (main a w)) HistoryJson = files w HistoryJson) /\
  fst (main SCHEDULED
         (sample_world (mkdate 2024 1 1) Missing 0 (SwaksFailed "rejected"))) =
  Ok tt /\
  In (Print (MsgPlanning 1 1))
     (trace (snd (main SCHEDULED
                    (sample_world (mkdate 2024 1 1) Missing 0
                       (SwaksFailed "rejected"))))) /\
  In (Print (MsgHistoryUpdated "2024-01-01"))
     (trace (snd (main SCHEDULED
                    (sample_world (mkdate 2024 1 1) Missing 0
                       (SwaksFailed "rejected"))))) /\
  files (snd (main SCHEDULED
                (sample_world (mkdate 2024 1 1) Missing 0
                   (SwaksFailed "rejected")))) HistoryJson = Missing /\
  In (Print (MsgPlanning 1 1))
     (trace (snd (main SCHEDULED
                    (sample_world (mkdate 2024 1 2) Missing 0 SwaksOk)))) /\
  registered (snd (main SCHEDULED
                     (sample_world (mkdate 2024 1 7) Missing 0
                        (SwaksFailed "rejected")))) = true.
Proof.
  split.
  - intros Hw. pose proof (quiet_main a w Hw) as Hquiet.
    unfold sends_and_files in Hquiet. injection Hquiet as _ Hfiles.
    rewrite Hfiles. reflexivity.
  - vm_compute. repeat split; find_in.
Qed.

Lemma C2_start_date_lost_when_nothing_sent_witness :
  files (snd (main SCHEDULED
                (sample_world (mkdate 2024 1 1) Missing 0
                   (SwaksFailed "rejected")))) HistoryJson = Missing.
Proof.
  apply (proj1 (C2_start_date_lost_when_nothing_sent SCHEDULED
                  (sample_world (mkdate 2024 1 1) Missing 0
                     (SwaksFailed "rejected")))).
  intros n. cbn. discriminate.
Defined.

(** C3, as the code has it: the trigger check is not skipped on a forced
    run. Every run that is not [--setup-cron], [--remove-cron] or
    [--status], forced or scheduled, runs [check_and_cleanup_crontab] on the
    loaded history before anything else, and nothing after it touches the
    crontab. So a forced run leaves the registration unchanged when the
    campaign has no start date or is within its first five days, and past
    day 5 it removes the registration exactly as a scheduled run does. *)
Theorem C3_check_runs_on_every_cycle (a : args) (w : world) :
  setup_cron a = false ->
  remove_cron a = false ->
  status a = false ->
  cron (snd (main a w)) =
  cron (snd (check_and_cleanup_crontab (loaded_history w) w)) /\
  forall st,
    files w HistoryJson = Json (encode st) ->
    start_valid st = true ->
    clock_valid w = true ->
    match start_date st with
    | None => cron (snd (main a w)) = cron w
    | Some D =>
        let days_elapsed := toordinal (today_of w) - toordinal D + 1 in
        (days_elapsed <= 5 -> cron (snd (main a w)) = cron w) /\
        (5 < days_elapsed ->
         cron (snd (main a w)) =
         cron (snd (remove_crontab
                      (emit (Print (MsgFiveDaysCompleted days_elapsed))
                            (tick w)))))
    end.
Proof.
  intros Hsetup Hremove Hstatus.
  assert (Hmain : cron (snd (main a w)) =
                  cron (snd (check_and_cleanup_crontab (loaded_history w) w))).
  { apply (main_after_check cron); try assumption; reflexivity. }
  split; [exact Hmain|].
  intros st Hfile Hvalid Hclock. rewrite Hmain.
  unfold loaded_history. rewrite Hfile. unfold start_valid in Hvalid.
  destruct (start_date st) as [D|] eqn:Hs.
  - cbv zeta.
    rewrite (check_and_cleanup_crontab_started st D w Hs Hvalid Hclock).
    cbv zeta. split; intros Hdays.
    + apply Z.ltb_ge in Hdays. rewrite Hdays. reflexivity.
    + apply Z.ltb_lt in Hdays. rewrite Hdays. reflexivity.
  - rewrite (check_and_cleanup_crontab_fresh st w Hs). reflexivity.
Qed.

Lemma C3_check_runs_on_every_cycle_witness :
  cron (snd (main (FORCED 10)
               (sample_world (mkdate 2024 1 3)
                  (Json (encode (mkstate (Some (mkdate 2024 1 1)) [])))
                  0 SwaksOk))) =
  cron (sample_world (mkdate 2024 1 3)
          (Json (encode (mkstate (Some (mkdate 2024 1 1)) []))) 0 SwaksOk).
Proof.
  apply (proj2 (C3_check_runs_on_every_cycle (FORCED 10)
                  (sample_world (mkdate 2024 1 3)
                     (Json (encode (mkstate (Some (mkdate 2024 1 1)) [])))
                     0 SwaksOk)
                  eq_refl eq_refl eq_refl)
               (mkstate (Some (mkdate 2024 1 1)) [])
               eq_refl eq_refl eq_refl).
  cbv zeta. vm_compute. discriminate.
Defined.

(** C3 as stated fails: a forced run on day 7 of a campaign removes the
    registration that was there. *)
Lemma C3_forced_run_removes_registration :
  force_requested (FORCED 10) = true /\
  fst (main (FORCED 10)
         (sample_world (mkdate 2024 1 7)
            (Json (encode (mkstate (Some (mkdate 2024 1 1)) []))) 0 SwaksOk)) =
  Ok tt /\
  registered
    (sample_world (mkdate 2024 1 7)
       (Json (encode (mkstate (Some (mkdate 2024 1 1)) []))) 0 SwaksOk) =
  true /\
  registered
    (snd (main (FORCED 10)
            (sample_world (mkdate 2024 1 7)
               (Json (encode (mkstate (Some (mkdate 2024 1 1)) []))) 0
               SwaksOk))) = false /\
  cron (snd (main (FORCED 10)
               (sample_world (mkdate 2024 1 7)
                  (Json (encode (mkstate (Some (mkdate 2024 1 1)) []))) 0
                  SwaksOk))) <>
  cron (sample_world (mkdate 2024 1 7)
          (Json (encode (mkstate (Some (mkdate 2024 1 1)) []))) 0 SwaksOk).
Proof. vm_compute. repeat split; discriminate. Qed.



(** C5: within a run, recipients are selected without replacement. For a
    positive request, whatever [select_recipients] returns are
    [min(request, len)] entries of the recipient list taken at pairwise
    different positions, so no entry is selected twice and never more than
    [len(recipients)] are selected; when the request exceeds the list it is
    clamped to [len(recipients)] and the warning is printed, otherwise
    nothing is printed. The selection returns on every list short enough
    for the pool loop of [random.sample], and on longer lists when the draws
    are varied enough for its redraw loop; there is no other way it can
    end than still redrawing. *)
Theorem C5_selection_without_replacement
    (emails_to_send : Z) (receive_data : list pyval) (w : world) :
  0 < emails_to_send ->
  let available := Z.of_nat (List.length receive_data) in
  let clamped := Z.min emails_to_send available in
  let result := select_recipients emails_to_send receive_data w in
  (forall n selected,
      fst result = Ok (n, selected) ->
      n = clamped /\
      Z.of_nat (List.length selected) = clamped /\
      (List.length selected <= List.length receive_data)%nat /\
      drawn_without_replacement receive_data selected /\
      (NoDup receive_data -> NoDup selected)) /\
  ((exists selected, fst result = Ok (clamped, selected)) \/
   fst result = Raise Hang) /\
  (available <= setsize (Z.to_nat clamped) \/
   varied w (List.length receive_data) (Z.to_nat clamped) ->
   exists selected, fst result = Ok (clamped, selected)) /\
  (available < emails_to_send ->
   clamped = available /\
   trace (snd result) =
   (trace w ++ [Print (MsgWarnRecipients emails_to_send available)])%list) /\
  (emails_to_send <= available -> trace (snd result) = trace w).
Proof.
  intros Hpos. cbv zeta.
  split; [|split; [|split; [|split]]].
  - intros n selected Hres.
    destruct (select_recipients_result emails_to_send receive_data w n
                selected Hpos Hres) as (-> & Hlen & Hdrawn).
    split; [reflexivity|]. split; [assumption|]. split; [lia|].
    split; [assumption|]. now apply drawn_nodup.
  - now apply select_recipients_outcome.
  - now apply select_recipients_returns.
  - intros Hlt. split; [lia|].
    rewrite select_recipients_trace. apply Z.ltb_lt in Hlt. now rewrite Hlt.
  - intros Hle. rewrite select_recipients_trace.
    apply Z.ltb_ge in Hle. now rewrite Hle.
Qed.

Lemma C5_selection_without_replacement_witness :
  (fst (select_recipients 5 (list_of RECIPIENTS)
          (sample_world (mkdate 2024 1 5) Missing 0 SwaksOk)) =
   Ok (2, [PStr "a@example.org"; PStr "b@example.org"]) /\
   trace (snd (select_recipients 5 (list_of RECIPIENTS)
                 (sample_world (mkdate 2024 1 5) Missing 0 SwaksOk))) =
   [Print (MsgWarnRecipients 5 2)]) /\
  (fst (select_recipients 2 MANY_RECIPIENTS
          (repeating_world (mkdate 2024 1 5))) =
   Ok (2, [PInt 0; PInt 21]) /\
   draws (snd (select_recipients 2 MANY_RECIPIENTS
                 (repeating_world (mkdate 2024 1 5)))) = 3%nat /\
   NoDup [PInt 0; PInt 21]) /\
  (exists selected,
      fst (select_recipients 2 MANY_RECIPIENTS
             (counting_world (mkdate 2024 1 5))) = Ok (2, selected)).
Proof.
  split; [|split].
  - destruct (C5_selection_without_replacement 5 (list_of RECIPIENTS)
                (sample_world (mkdate 2024 1 5) Missing 0 SwaksOk))
      as (_ & _ & _ & Hclamp & _).
    + reflexivity.
    + destruct Hclamp as [_ Htrace]; [reflexivity|].
      split; [reflexivity|exact Htrace].
  - destruct (C5_selection_without_replacement 2 MANY_RECIPIENTS
                (repeating_world (mkdate 2024 1 5)))
      as (Hselected & _).
    + reflexivity.
    + destruct (Hselected 2 [PInt 0; PInt 21]) as (_ & _ & _ & _ & Hnodup);
        [reflexivity|].
      split; [reflexivity|]. split; [reflexivity|].
      apply Hnodup.
      repeat (constructor;
              [cbn; intuition discriminate|]).
      constructor.
  - destruct (C5_selection_without_replacement 2 MANY_RECIPIENTS
                (counting_world (mkdate 2024 1 5)))
      as (_ & _ & Hreturns & _).
    + reflexivity.
    + apply Hreturns. right. apply counting_world_varied.
Defined.




(** C7, as the code has it: [load_history] never fails and changes
    nothing. When the record is absent, cannot be read, or does not decode
    as JSON, it returns the zero-value state (no start date, no sends), and
    the run goes exactly as the run that finds no record: same outcome, same
    output, same effects. A record that decodes is returned as decoded,
    whatever its shape. *)
Theorem C7_load_history_recovers (a : args) (w : world) :
  load_history w = (Ok (loaded_history w), w) /\
  FRESH_HISTORY = encode (mkstate None []) /\
  (files w HistoryJson = Missing \/ files w HistoryJson = Unreadable \/
   files w HistoryJson = Blank \/ files w HistoryJson = Garbage ->
   load_history w = (Ok FRESH_HISTORY, w) /\
   fst (main a w) = fst (main a (set_file HistoryJson Missing w)) /\
   same_but_record (snd (main a w))
     (snd (main a (set_file HistoryJson Missing w)))) /\
  (forall v, files w HistoryJson = Json v -> load_history w = (Ok v, w)).
Proof.
  split; [apply load_history_loaded|]. split; [reflexivity|]. split.
  - intros Hfile.
    assert (Hfresh : loaded_history w = FRESH_HISTORY).
    { unfold loaded_history.
      destruct Hfile as [H|[H|[H|H]]]; rewrite H; reflexivity. }
    split; [rewrite load_history_loaded, Hfresh; reflexivity|].
    apply main_same_history.
    + apply same_refl_set_record.
    + rewrite Hfresh. reflexivity.
  - intros v Hfile. rewrite load_history_loaded. unfold loaded_history.
    rewrite Hfile. reflexivity.
Qed.

Lemma C7_load_history_recovers_witness :
  load_history (sample_world (mkdate 2024 1 1) Garbage 0 SwaksOk) =
  (Ok FRESH_HISTORY, sample_world (mkdate 2024 1 1) Garbage 0 SwaksOk) /\
  fst (main SCHEDULED (sample_world (mkdate 2024 1 1) Garbage 0 SwaksOk)) =
  fst (main SCHEDULED
         (set_file HistoryJson Missing
            (sample_world (mkdate 2024 1 1) Garbage 0 SwaksOk))).
Proof.
  destruct (C7_load_history_recovers SCHEDULED
              (sample_world (mkdate 2024 1 1) Garbage 0 SwaksOk))
    as (_ & _ & Hrecover & _).
  destruct Hrecover as (Hload & Hrun & _); [do 3 right; reflexivity|].
  split; assumption.
Defined.

(** C7 as stated fails: a record that decodes but is no campaign state is
    returned as it is, and the scheduled run that uses it ends with an
    uncaught exception: [KeyError] for the text [{}], [ValueError] for a
    record whose start date has month 13. *)
Lemma C7_decodable_corruption_is_fatal :
  corrupt (Json (PDict [])) = true /\
  fst (load_history (sample_world (mkdate 2024 1 1) (Json (PDict [])) 0
                       SwaksOk)) <> Ok FRESH_HISTORY /\
  fst (main SCHEDULED
         (sample_world (mkdate 2024 1 1) (Json (PDict [])) 0 SwaksOk)) =
  Raise (KeyError "start_date") /\
  corrupt (Json (PDict [("start_date", PStr "2024-13-01");
                        ("daily_sends", PDict [])])) = true /\
  fst (main SCHEDULED
         (sample_world (mkdate 2024 1 1)
            (Json (PDict [("start_date", PStr "2024-13-01");
                          ("daily_sends", PDict [])])) 0 SwaksOk)) =
  Raise ValueError.
Proof. vm_compute. repeat split. discriminate. Qed.

(** C8: [get_current_day_info] is idempotent: called twice with the same
    state on the same day, nothing being saved in between, it returns the
    same [(day_number, emails_to_send)] both times; on a fresh state the
    second call sees the start date the first one set and still returns
    day 1. The second call receives the dictionary as the first left it. *)
Theorem C8_compute_idempotent (st : campaign_state) (w w' : world) :
  valid_date (today_of w) = true ->
  start_valid st = true ->
  today_of w' = today_of w ->
  exists history day_number emails_to_send today,
    get_current_day_info (encode st) w =
    (Ok (history, (day_number, emails_to_send, today)), tick w) /\
    get_current_day_info history w' =
    (Ok (history, (day_number, emails_to_send, today)), tick w').
Proof.
  intros Ht Hv Hsame. unfold start_valid in Hv.
  destruct (start_date st) as [D|] eqn:Hs.
  - exists (encode st). do 3 eexists. split.
    + apply (get_current_day_info_started st D w Hs Hv Ht).
    + rewrite <- Hsame in Ht.
      rewrite (get_current_day_info_started st D w' Hs Hv Ht). cbv zeta.
      rewrite Hsame. reflexivity.
  - exists (encode (started st (today_of w))). do 3 eexists. split.
    + apply (get_current_day_info_fresh st w Hs).
    + rewrite (get_current_day_info_started (started st (today_of w))
                 (today_of w) w' eq_refl Ht)
        by (rewrite Hsame; assumption).
      cbv zeta. rewrite Hsame.
      replace (toordinal (today_of w) - toordinal (today_of w) + 1) with 1
        by lia.
      reflexivity.
Qed.

Lemma C8_compute_idempotent_witness :
  exists history day_number emails_to_send today,
    get_current_day_info (encode (mkstate None []))
      (sample_world (mkdate 2024 1 1) Missing 0 SwaksOk) =
    (Ok (history, (day_number, emails_to_send, today)),
     tick (sample_world (mkdate 2024 1 1) Missing 0 SwaksOk)) /\
    get_current_day_info history
      (tick (sample_world (mkdate 2024 1 1) Missing 0 SwaksOk)) =
    (Ok (history, (day_number, emails_to_send, today)),
     tick (tick (sample_world (mkdate 2024 1 1) Missing 0 SwaksOk))).
Proof.
  apply (C8_compute_idempotent (mkstate None [])
           (sample_world (mkdate 2024 1 1) Missing 0 SwaksOk)
           (tick (sample_world (mkdate 2024 1 1) Missing 0 SwaksOk)));
    reflexivity.
Defined.

(** C9, as the code has it: [save_history] overwrites the record in
    place. Its steps all act on [history.json] itself (there is no
    temporary file and no rename); when the file can be written and
    [save_history] returns, the file holds the full state, whatever it held
    before, and [load_history] reads that state back; the other files are
    untouched. In between, the file is there with nothing in it. *)
Theorem C9_save_history_overwrites_in_place (history : pyval) (w : world) :
  record_writable w = true ->
  fst (save_history history w) = Ok tt /\
  snd (save_history history w) = run_fs_ops (save_history_ops history) w /\
  Forall (fun op => fs_op_path op = HistoryJson) (save_history_ops history) /\
  files (snd (save_history history w)) HistoryJson = Json history /\
  fst (load_history (snd (save_history history w))) = Ok history /\
  (forall p, p <> HistoryJson ->
             files (snd (save_history history w)) p = files w p) /\
  observable (save_history_ops history) w =
  [w; set_file HistoryJson Blank w; snd (save_history history w)].
Proof.
  intros Hwritable. unfold save_history. rewrite Hwritable.
  repeat split.
  - repeat constructor.
  - intros p Hp. destruct p; [congruence|reflexivity..].
Qed.

Lemma C9_save_history_overwrites_in_place_witness :
  files (snd (save_history
                (encode (mkstate (Some (mkdate 2024 1 1)) [("2024-01-01", 1)]))
                (sample_world (mkdate 2024 1 1) Garbage 0 SwaksOk)))
    HistoryJson =
  Json (encode (mkstate (Some (mkdate 2024 1 1)) [("2024-01-01", 1)])).
Proof.
  apply (C9_save_history_overwrites_in_place
           (encode (mkstate (Some (mkdate 2024 1 1)) [("2024-01-01", 1)]))
           (sample_world (mkdate 2024 1 1) Garbage 0 SwaksOk)).
  reflexivity.
Defined.

(** C9 as stated fails: while a record is being replaced, another process
    can find the file blank, which is neither the old record nor the new
    one; read then, it is taken for a fresh campaign. *)
Lemma C9_save_history_not_atomic :
  ~ atomic_on HistoryJson
      (save_history_ops
         (encode (mkstate (Some (mkdate 2024 1 1)) [("2024-01-01", 1)])))
      (sample_world (mkdate 2024 1 1)
         (Json (encode (mkstate (Some (mkdate 2024 1 1)) []))) 0 SwaksOk).
Proof.
  intros Hatomic.
  destruct (Hatomic
              (set_file HistoryJson Blank
                 (sample_world (mkdate 2024 1 1)
                    (Json (encode (mkstate (Some (mkdate 2024 1 1)) [])))
                    0 SwaksOk)))
    as [H|H].
  - right. left. reflexivity.
  - discriminate H.
  - discriminate H.
Qed.

(** C10: [--force-send 0] does not take the forced path. The forced count
    is only ever tested for truth, so with [N = 0] the run is, step for
    step, the scheduled run: it computes the quota from the history, and on
    a fresh state it starts the campaign, sends the first day's email and
    writes the record, instead of forcing zero sends. *)
Theorem C10_force_send_zero_is_scheduled
    (setup remove show : bool) (w : world) :
  force_requested (mkargs setup remove (Some 0) show) = false /\
  main (mkargs setup remove (Some 0) show) w =
  main (mkargs setup remove None show) w /\
  In (Print (MsgPlanning 1 1))
     (trace (snd (main (FORCED 0)
                    (sample_world (mkdate 2024 1 1) Missing 0 SwaksOk)))) /\
  ~ In (Print (MsgForceSending 0))
       (trace (snd (main (FORCED 0)
                      (sample_world (mkdate 2024 1 1) Missing 0 SwaksOk)))) /\
  files (snd (main (FORCED 0)
                (sample_world (mkdate 2024 1 1) Missing 0 SwaksOk)))
    HistoryJson =
  Json (encode (mkstate (Some (mkdate 2024 1 1)) [("2024-01-01", 1)])).
Proof.
  split; [reflexivity|]. split; [reflexivity|].
  vm_compute. split; [|split].
  - find_in.
  - intros H.
    repeat match goal with
           | H : _ \/ _ |- _ => destruct H as [H|H]; [discriminate H|]
           end.
    exact H.
  - reflexivity.
Qed.

(** ** Further properties of the script *)

(** *** The crontab entry *)

Module CrontabFacts.

Lemma prefix_app n b : String.prefix n (n ++ b) = true.
Proof.
  induction n as [|c n IH]; cbn; [destruct b; reflexivity|].
  destruct (ascii_dec c c); [assumption|congruence].
Qed.

Lemma prefix_app_l n a b :
  String.prefix n a = true -> String.prefix n (a ++ b) = true.
Proof.
  revert a. induction n as [|c n IH]; intros a H.
  - destruct (a ++ b)%string; reflexivity.
  - destruct a as [|x a]; [discriminate|]. cbn in *.
    destruct (ascii_dec c x); [now apply IH|discriminate].
Qed.

Lemma contains_app_r n a hay :
  contains n hay = true -> contains n (a ++ hay) = true.
Proof.
  intros H. induction a as [|c a IH]; [assumption|].
  cbn [append contains]. rewrite IH. apply orb_true_r.
Qed.

Lemma contains_app_l n a b :
  contains n a = true -> contains n (a ++ b) = true.
Proof.
  induction a as [|c a IH]; intros H.
  - cbn in H. rewrite orb_false_r in H.
    destruct n; [destruct b; reflexivity|discriminate].
  - cbn [contains] in H. apply orb_prop in H. cbn [append contains].
    destruct H as [H|H].
    + change (String c (a ++ b)) with (String c a ++ b)%string.
      rewrite prefix_app_l by assumption. reflexivity.
    + rewrite IH by assumption. apply orb_true_r.
Qed.

Lemma contains_self_app n b : contains n (n ++ b) = true.
Proof.
  destruct n as [|c n]; [destruct b; reflexivity|].
  cbn [append contains].
  change (String c (n ++ b)) with (String c n ++ b)%string.
  rewrite prefix_app. reflexivity.
Qed.

(** What [rstrip] removes is the end of the text. *)
Lemma rstrip_prefix s : exists t, s = (rstrip s ++ t)%string.
Proof.
  induction s as [|c s [t IH]]; [exists EmptyString; reflexivity|].
  cbn [rstrip]. destruct (has_non_space (String c s)).
  - exists t. cbn [append]. now rewrite <- IH.
  - exists (String c s). reflexivity.
Qed.

Lemma contains_rstrip n s : contains n (rstrip s) = true -> contains n s = true.
Proof.
  intros H. destruct (rstrip_prefix s) as [t Ht]. rewrite Ht.
  apply contains_app_l. assumption.
Qed.

Lemma no_newline_app a b :
  no_newline a = true -> no_newline b = true -> no_newline (a ++ b) = true.
Proof.
  induction a as [|c a IH]; intros Ha Hb; [assumption|].
  cbn in *. apply andb_prop in Ha. destruct Ha as [Hc Ha].
  rewrite Hc. now apply IH.
Qed.

(** Splitting a text at one of its newlines. *)
Lemma split_lines_app a b :
  split_lines (a ++ String NL b) = (split_lines a ++ split_lines b)%list.
Proof.
  induction a as [|c a IH]; [reflexivity|].
  cbn [append split_lines]. rewrite IH.
  destruct (c =? NL)%char; [reflexivity|].
  pose proof (split_lines_not_nil a) as Hne.
  destruct (split_lines a) as [|l ls]; [congruence|reflexivity].
Qed.

Lemma split_lines_one l : no_newline l = true -> split_lines l = [l].
Proof.
  induction l as [|c l IH]; intros H; [reflexivity|].
  cbn in *. apply andb_prop in H. destruct H as [Hc Hl].
  apply negb_true_iff in Hc. rewrite Hc, (IH Hl). reflexivity.
Qed.

(** The first line is the start of the text. *)
Lemma prefix_first_line n s l ls :
  split_lines s = l :: ls ->
  String.prefix n l = true -> String.prefix n s = true.
Proof.
  revert n l ls. induction s as [|c s IH]; intros n l ls Hs Hl.
  - cbn in Hs. injection Hs as <- _. exact Hl.
  - destruct n as [|x n]; [reflexivity|].
    cbn [split_lines] in Hs. destruct (c =? NL)%char.
    + injection Hs as <- _. discriminate.
    + destruct (split_lines s) as [|l1 ls1] eqn:Hs1.
      * exfalso. exact (split_lines_not_nil s Hs1).
      * injection Hs as <- _. cbn in Hl |- *.
        destruct (ascii_dec x c); [|discriminate].
        eapply IH; [reflexivity|eassumption].
Qed.

(** A line that holds the needle makes the text hold it. *)
Lemma contains_line n s l :
  In l (split_lines s) -> contains n l = true -> contains n s = true.
Proof.
  revert l. induction s as [|c s IH]; intros l Hin Hl.
  - cbn in Hin. destruct Hin as [<-|[]]. assumption.
  - cbn [contains].
    destruct (split_lines (String c s)) as [|l0 ls] eqn:Hs;
      [destruct Hin|].
    destruct Hin as [<-|Hin].
    + destruct l0 as [|y l0].
      * destruct n; [reflexivity|discriminate].
      * cbn [contains] in Hl. apply orb_prop in Hl. destruct Hl as [Hl|Hl].
        -- rewrite (prefix_first_line n _ _ _ Hs Hl). reflexivity.
        -- cbn [split_lines] in Hs. destruct (c =? NL)%char; [discriminate|].
           destruct (split_lines s) as [|l1 ls1] eqn:Hs1.
           ++ exfalso. exact (split_lines_not_nil s Hs1).
           ++ injection Hs as _ <- _.
              rewrite (IH l1 (or_introl eq_refl) Hl). apply orb_true_r.
    + cbn [split_lines] in Hs. destruct (c =? NL)%char.
      * injection Hs as _ <-. rewrite (IH l Hin Hl). apply orb_true_r.
      * destruct (split_lines s) as [|l1 ls1] eqn:Hs1.
        -- exfalso. exact (split_lines_not_nil s Hs1).
        -- injection Hs as _ <-.
           rewrite (IH l (or_intror Hin) Hl). apply orb_true_r.
Qed.

Lemma contains_refl n : contains n n = true.
Proof.
  destruct n as [|c n]; [reflexivity|]. cbn [contains].
  assert (H : forall m, String.prefix m m = true).
  { induction m as [|x m IH]; [reflexivity|]. cbn.
    destruct (ascii_dec x x); [assumption|congruence]. }
  rewrite H. reflexivity.
Qed.

Lemma contains_cron_command w : contains (script_path w) (cron_command w) = true.
Proof. unfold cron_command. apply contains_app_r, contains_refl. Qed.

Lemma no_newline_cron_command w :
  no_newline (script_path w) = true -> no_newline (cron_command w) = true.
Proof. intros H. unfold cron_command. now apply no_newline_app. Qed.

Lemma rstrip_no_return s : no_return s = true -> no_return (rstrip s) = true.
Proof.
  intros H. destruct (rstrip_prefix s) as [t Ht].
  rewrite Ht, no_return_app in H. apply andb_prop in H. apply H.
Qed.

Lemma no_return_cron_command w :
  no_return (script_path w) = true -> no_return (cron_command w) = true.
Proof. intros H. unfold cron_command. now rewrite no_return_app, H. Qed.

Lemma no_return_current_text c : no_return (current_text c) = true.
Proof.
  destruct c as [|[stdout|]]; cbn [current_text]; try reflexivity.
  apply universal_newlines_no_return.
Qed.

(** The table [setup_crontab] writes when the entry is not there yet, and
    what it returns: [True] when [crontab -] returns 0. *)
Lemma setup_crontab_installs w table :
  cron w = CronTable table ->
  contains (script_path w) (current_text (cron w)) = false ->
  exists new_cron,
    setup_crontab w =
    (if install_code w =? 0
     then (Ok true,
           emit (Print (MsgCronSetUp (cron_command w)))
             (set_cron (CronTable (Some new_cron)) w))
     else (Ok false,
           emit (Print MsgCronSetupFailed)
             (set_cron (CronTable (Some new_cron)) w))) /\
    contains (script_path w) new_cron = true /\
    (no_return (script_path w) = true ->
     universal_newlines new_cron = new_cron) /\
    (no_newline (script_path w) = true ->
     split_lines new_cron =
     ((if (current_text (cron w) =? "")%string then []
       else split_lines (rstrip (current_text (cron w))))
      ++ [cron_command w; EmptyString])%list).
Proof.
  intros Hcron Hnot. unfold setup_crontab.
  pose proof (no_return_current_text (cron w)) as Hplain.
  rewrite Hcron in *. cbn [current_text] in Hnot, Hplain.
  set (current := match table with
                  | Some stdout => universal_newlines stdout
                  | None => EmptyString
                  end) in *.
  change (current_text (CronTable table)) with current.
  cbv zeta. rewrite Hnot.
  destruct (current =? "")%string eqn:Hempty; cbn [negb].
  - eexists. split.
    { unfold bind, crontab_install.
      destruct (install_code w =? 0); reflexivity. }
    split; [apply contains_app_l, contains_cron_command|]. split.
    + intros Hret. apply universal_newlines_plain.
      rewrite no_return_app, no_return_cron_command by assumption.
      reflexivity.
    + intros Hnl. rewrite split_lines_app.
      rewrite split_lines_one by (apply no_newline_cron_command, Hnl).
      reflexivity.
  - eexists. split.
    { unfold bind, crontab_install.
      destruct (install_code w =? 0); reflexivity. }
    split; [|split].
    + apply contains_app_r.
      change (String NL (cron_command w) ++ String NL EmptyString)%string
        with (String NL (cron_command w ++ String NL EmptyString)).
      change (String NL (cron_command w ++ String NL EmptyString))
        with (String NL EmptyString
              ++ (cron_command w ++ String NL EmptyString))%string.
      apply contains_app_r, contains_app_l, contains_cron_command.
    + intros Hret. apply universal_newlines_plain.
      change (String NL (cron_command w) ++ String NL EmptyString)%string
        with (String NL (cron_command w ++ String NL EmptyString)).
      rewrite no_return_app, rstrip_no_return by assumption.
      cbn [no_return andb Ascii.eqb Bool.eqb NL CR negb].
      rewrite no_return_app, no_return_cron_command by assumption.
      reflexivity.
    + intros Hnl.
      change (String NL (cron_command w) ++ String NL EmptyString)%string
        with (String NL (cron_command w ++ String NL EmptyString)).
      rewrite split_lines_app, split_lines_app.
      rewrite (split_lines_one (cron_command w))
        by (apply no_newline_cron_command, Hnl).
      reflexivity.
Qed.

(** When the entry is there, or the crontab cannot be run, [setup_crontab]
    leaves the crontab alone. *)
Lemma setup_crontab_present w :
  contains (script_path w) (current_text (cron w)) = true ->
  cron w <> CronUnavailable ->
  setup_crontab w = (Ok true, emit (Print MsgCronExists) w).
Proof.
  intros Hin Hav. unfold setup_crontab.
  destruct (cron w) as [|table]; [congruence|].
  cbn [current_text] in Hin.
  destruct table as [text|]; cbv zeta; rewrite Hin; reflexivity.
Qed.

Lemma setup_crontab_unavailable w :
  cron w = CronUnavailable ->
  setup_crontab w = (Ok false, emit (Print MsgCronSetupError) w).
Proof. intros H. unfold setup_crontab. rewrite H. reflexivity. Qed.

Lemma filter_keep_all {A} (f : A -> bool) l :
  (forall x, In x l -> f x = true) -> filter f l = l.
Proof.
  induction l as [|x l IH]; intros H; [reflexivity|].
  cbn. rewrite (H x (or_introl eq_refl)). f_equal.
  apply IH. intros y Hy. apply H. now right.
Qed.

Lemma filter_twice {A} (f g : A -> bool) l :
  filter f (filter g l) = filter (fun x => f x && g x) l.
Proof.
  induction l as [|x l IH]; [reflexivity|].
  cbn. destruct (g x); cbn; rewrite ?andb_false_r, ?andb_true_r.
  - destruct (f x); now rewrite IH.
  - assumption.
Qed.

Lemma existsb_false_all {A} (f : A -> bool) l :
  existsb f l = false -> forall x, In x l -> f x = false.
Proof.
  induction l as [|y l IH]; intros H x Hx; [destruct Hx|].
  cbn in H. apply orb_false_elim in H. destruct H as [Hy Hl].
  destruct Hx as [<-|Hx]; [assumption|now apply IH].
Qed.

Lemma kept_lines_nonblank script text :
  filter has_non_space (kept_lines script text) = kept_lines script text.
Proof.
  apply filter_keep_all. intros l Hl. unfold kept_lines in Hl.
  apply filter_In in Hl. destruct Hl as [_ Hl].
  apply andb_prop in Hl. apply Hl.
Qed.

(** The non-blank lines [remove_crontab] leaves are the non-blank lines it
    found, without those that hold the script path, in their order. *)
Lemma remove_crontab_lines w :
  nonblank_lines (cron (snd (remove_crontab w))) =
  filter (fun l => negb (contains (script_path w) l))
         (nonblank_lines (cron w)).
Proof.
  unfold nonblank_lines. rewrite filter_twice.
  unfold remove_crontab.
  destruct (cron w) as [|[text|]] eqn:Hcron;
    cbn -[split_lines universal_newlines];
    rewrite ?Hcron; try reflexivity.
  fold (kept_lines (script_path w) (universal_newlines text)).
  pose proof (universal_newlines_kept (script_path w) text) as Hread.
  destruct (existsb (contains (script_path w))
              (split_lines (universal_newlines text))) eqn:Hreg;
    cbn -[split_lines join_lines universal_newlines].
  - pose proof (kept_lines_nonblank (script_path w) (universal_newlines text))
      as Hnb.
    pose proof (kept_lines_no_newline (script_path w)
                  (universal_newlines text)) as Hnl.
    destruct (kept_lines (script_path w) (universal_newlines text))
      as [|l ls] eqn:Hkept;
      cbn -[split_lines join_lines has_non_space universal_newlines].
    + reflexivity.
    + rewrite Hread.
      rewrite split_lines_join by (assumption || discriminate).
      rewrite filter_app, Hnb. cbn. now rewrite app_nil_r.
  - rewrite Hcron. cbn -[split_lines universal_newlines].
    pose proof (existsb_false_all _ _ Hreg) as Hall.
    apply filter_ext_in. intros l Hl. rewrite (Hall l Hl). reflexivity.
Qed.

(** Without an entry, [remove_crontab] leaves the crontab as it is. *)
Lemma remove_crontab_unregistered w :
  registered w = false -> cron (snd (remove_crontab w)) = cron w.
Proof.
  unfold registered, remove_crontab. intros Hreg.
  destruct (cron w) as [|[text|]] eqn:Hcron;
    cbn -[split_lines universal_newlines] in *;
    rewrite ?Hcron; try reflexivity.
  rewrite Hreg. cbn. assumption.
Qed.

End CrontabFacts.
Import CrontabFacts.


(** No line of what was there before [setup_crontab] installs its entry
    holds the script path. *)
Lemma old_lines_clean script current l :
  contains script current = false ->
  In l (if (current =? "")%string then []
        else split_lines (rstrip current)) ->
  contains script l = false.
Proof.
  intros Hnot Hin. destruct (current =? "")%string; [destruct Hin|].
  destruct (contains script l) eqn:Hl; [|reflexivity].
  rewrite <- Hnot. symmetry.
  apply contains_rstrip. eapply contains_line; eassumption.
Qed.

(** The lines of the crontab once [setup_crontab] has added its entry, as
    the script reads them the next time. *)
Lemma setup_crontab_lines w table :
  cron w = CronTable table ->
  contains (script_path w) (current_text (cron w)) = false ->
  no_newline (script_path w) = true ->
  no_return (script_path w) = true ->
  cron_lines (cron (snd (setup_crontab w))) =
  ((if (current_text (cron w) =? "")%string then []
    else split_lines (rstrip (current_text (cron w))))
   ++ [cron_command w; EmptyString])%list.
Proof.
  intros Hcron Hnot Hnl Hret.
  destruct (setup_crontab_installs w table Hcron Hnot)
    as (new_cron & Heq & _ & Hread & Hlines).
  rewrite Heq.
  destruct (install_code w =? 0); cbn [snd cron emit set_cron cron_lines];
    rewrite (Hread Hret); exact (Hlines Hnl).
Qed.

Lemma setup_crontab_script_path w :
  script_path (snd (setup_crontab w)) = script_path w.
Proof.
  unfold setup_crontab. destruct (cron w) as [|table]; [reflexivity|].
  cbv zeta. destruct (contains _ _); [reflexivity|].
  unfold bind, crontab_install.
  destruct (install_code w =? 0); reflexivity.
Qed.

(** X1: [setup_crontab] is idempotent where it succeeds: when a call has
    returned [True], for a script path without carriage return, the next
    call returns [True] as well, leaves the crontab and everything else as
    the first call left it, and only prints that the entry exists. Nothing
    is said of a call that returned [False] (the crontab program missing,
    or [crontab -] ending with another code than 0). *)
Theorem X1_setup_crontab_idempotent (w : world) :
  fst (setup_crontab w) = Ok true ->
  no_return (script_path w) = true ->
  let after := snd (setup_crontab w) in
  setup_crontab after = (Ok true, emit (Print MsgCronExists) after) /\
  cron (snd (setup_crontab after)) = cron after.
Proof.
  intros Hok Hret. cbv zeta.
  assert (Hagain : setup_crontab (snd (setup_crontab w)) =
                   (Ok true,
                    emit (Print MsgCronExists) (snd (setup_crontab w)))).
  { destruct (cron w) as [|table] eqn:Hcron.
    - rewrite (setup_crontab_unavailable w Hcron) in Hok. discriminate.
    - destruct (contains (script_path w) (current_text (cron w))) eqn:Hin.
      + rewrite (setup_crontab_present w Hin) by congruence. cbn [snd].
        apply setup_crontab_present; [exact Hin|]. cbn. congruence.
      + destruct (setup_crontab_installs w table Hcron Hin)
          as (new_cron & Heq & Hnew & Hread & _).
        rewrite Heq in Hok |- *.
        destruct (install_code w =? 0); [|discriminate]. cbn [snd].
        apply setup_crontab_present; [|discriminate].
        cbn [cron emit set_cron current_text script_path].
        rewrite (Hread Hret). exact Hnew. }
  split; [exact Hagain|]. rewrite Hagain. reflexivity.
Qed.

Lemma X1_setup_crontab_idempotent_witness :
  setup_crontab (snd (setup_crontab (other_entry_world (mkdate 2024 1 1)))) =
  (Ok true,
   emit (Print MsgCronExists)
     (snd (setup_crontab (other_entry_world (mkdate 2024 1 1))))).
Proof.
  apply (X1_setup_crontab_idempotent (other_entry_world (mkdate 2024 1 1)));
    reflexivity.
Defined.




(** X4: on a crontab without a line holding the script path,
    [remove_crontab] leaves the crontab exactly as it is; so running it a
    second time never changes what the first run left. *)
Theorem X4_remove_crontab_idempotent (w : world) :
  (registered w = false -> cron (snd (remove_crontab w)) = cron w) /\
  cron (snd (remove_crontab (snd (remove_crontab w)))) =
  cron (snd (remove_crontab w)).
Proof.
  split; [apply remove_crontab_unregistered|].
  apply remove_crontab_unregistered, remove_crontab_unregisters.
Qed.

Lemma X4_remove_crontab_idempotent_witness :
  cron (snd (remove_crontab (other_entry_world (mkdate 2024 1 1)))) =
  cron (other_entry_world (mkdate 2024 1 1)).
Proof.
  apply (proj1 (X4_remove_crontab_idempotent
                  (other_entry_world (mkdate 2024 1 1)))).
  reflexivity.
Defined.

(** X5: [setup_crontab] followed by [remove_crontab] undoes the
    registration: when the crontab did not hold the script path (a path
    without newline or carriage return) and [setup_crontab] has returned
    [True], the non-blank lines afterwards are those the crontab had, as the
    script read them (blank is what [str.strip] empties, Unicode white space
    included), and a user without crontab is left without crontab. *)
Theorem X5_setup_then_remove (w : world) (table : option string) :
  cron w = CronTable table ->
  contains (script_path w) (current_text (cron w)) = false ->
  no_newline (script_path w) = true ->
  no_return (script_path w) = true ->
  fst (setup_crontab w) = Ok true ->
  nonblank_lines (cron (snd (remove_crontab (snd (setup_crontab w))))) =
  filter has_non_space
    (if (current_text (cron w) =? "")%string then []
     else split_lines (rstrip (current_text (cron w)))) /\
  (table = None ->
   cron (snd (remove_crontab (snd (setup_crontab w)))) = CronTable None).
Proof.
  intros Hcron Hnot Hnl Hret Hok.
  pose proof (setup_crontab_lines w table Hcron Hnot Hnl Hret) as Hlines.
  pose proof (setup_crontab_script_path w) as Hpath.
  split.
  - rewrite remove_crontab_lines. unfold nonblank_lines. rewrite Hlines.
    rewrite Hpath, filter_app, filter_app.
    rewrite (filter_keep_all (fun l => negb (contains (script_path w) l))).
    + cbn [filter app].
      destruct (has_non_space (cron_command w)); cbn [filter negb];
        rewrite ?contains_cron_command; cbn [negb]; now rewrite app_nil_r.
    + intros l Hl. apply filter_In in Hl. destruct Hl as [Hl _].
      rewrite (old_lines_clean _ _ _ Hnot Hl). reflexivity.
  - intros ->. rewrite Hcron in Hlines.
    cbn [current_text String.eqb app] in Hlines.
    unfold remove_crontab. rewrite Hpath.
    destruct (cron (snd (setup_crontab w))) as [|[stdout|]] eqn:Hafter;
      cbn [cron_lines] in Hlines; try discriminate.
    cbv zeta. unfold kept_lines. rewrite Hlines.
    cbn [existsb filter app]. rewrite contains_cron_command.
    cbn [negb andb orb]. change (has_non_space EmptyString) with false.
    rewrite andb_false_r. unfold bind, crontab_clear. cbn [print snd ret].
    reflexivity.
Qed.

Lemma X5_setup_then_remove_witness :
  nonblank_lines
    (cron (snd (remove_crontab
                  (snd (setup_crontab (foreign_text_world (mkdate 2024 1 1)))))))
  = ["MAILTO=ops"; "30 2 * * * /usr/bin/backup"]%string /\
  cron (snd (remove_crontab
               (snd (setup_crontab (no_crontab_world (mkdate 2024 1 1)))))) =
  CronTable None.
Proof.
  split.
  - apply (X5_setup_then_remove (foreign_text_world (mkdate 2024 1 1))
             (match cron (foreign_text_world (mkdate 2024 1 1)) with
              | CronTable table => table
              | CronUnavailable => None
              end));
      reflexivity.
  - apply (X5_setup_then_remove (no_crontab_world (mkdate 2024 1 1)) None);
      reflexivity.
Defined.

(** *** The record of sends *)

Module HistoryFacts.

Lemma encode_sends_set l k n :
  dict_set (encode_sends l) k (PInt n) = encode_sends (sends_set l k n).
Proof.
  induction l as [|[k' n'] l IH]; [reflexivity|].
  cbn [encode_sends map dict_set sends_set fst snd].
  destruct (k' =? k)%string; [reflexivity|].
  cbn [map fst snd]. f_equal. exact IH.
Qed.

Lemma sends_get_set_same l k n : sends_get (sends_set l k n) k = Some n.
Proof.
  induction l as [|[k' n'] l IH]; cbn.
  - now rewrite String.eqb_refl.
  - destruct (k' =? k)%string eqn:E; cbn.
    + now rewrite String.eqb_refl.
    + rewrite E. exact IH.
Qed.

Lemma sends_get_set_other l k k' n :
  k' <> k -> sends_get (sends_set l k n) k' = sends_get l k'.
Proof.
  intros Hne. induction l as [|[k0 n0] l IH]; cbn.
  - apply String.eqb_neq in Hne. rewrite String.eqb_sym, Hne. reflexivity.
  - destruct (k0 =? k)%string eqn:E; cbn.
    + apply String.eqb_eq in E. subst k0.
      apply String.eqb_neq in Hne. rewrite String.eqb_sym in Hne.
      rewrite Hne. reflexivity.
    + destruct (k0 =? k')%string; [reflexivity|exact IH].
Qed.

(** What [update_history] does on a well-shaped state whose record can be
    written. *)
Lemma update_history_encoded st date count w :
  record_writable w = true ->
  update_history (encode st) date count w =
  (Ok (encode (record_sent st date count)),
   run_fs_ops (save_history_ops (encode (record_sent st date count))) w).
Proof.
  intros Hw. unfold update_history, bind.
  rewrite getitem_encode_sends. cbn [lift].
  rewrite get_default_encode_sends. cbn [lift as_int setitem].
  rewrite encode_sends_set.
  unfold save_history. rewrite Hw. reflexivity.
Qed.

Lemma update_history_unwritable st date count w :
  record_writable w = false ->
  update_history (encode st) date count w = (Raise OSError, w).
Proof.
  intros Hw. unfold update_history, bind.
  rewrite getitem_encode_sends. cbn [lift].
  rewrite get_default_encode_sends. cbn [lift as_int setitem].
  unfold save_history. rewrite Hw. reflexivity.
Qed.

End HistoryFacts.
Import HistoryFacts.

(** X6: on a well-shaped state, [update_history] adds [count] to the entry
    of [date] (creating it when absent), leaves the other days and the start
    date alone, and writes the whole state to the record, from where
    [load_history] gets it back; nothing else of the world changes. When the
    record cannot be written the call ends with the error of [open] and the
    record stays as it was. *)
Theorem X6_update_history_records
    (st : campaign_state) (date : string) (count : Z) (w : world) :
  (record_writable w = true ->
   fst (update_history (encode st) date count w) =
   Ok (encode (record_sent st date count)) /\
   files (snd (update_history (encode st) date count w)) HistoryJson =
   Json (encode (record_sent st date count)) /\
   fst (load_history (snd (update_history (encode st) date count w))) =
   Ok (encode (record_sent st date count)) /\
   same_but_record w (snd (update_history (encode st) date count w))) /\
  already_sent (record_sent st date count) date =
  already_sent st date + count /\
  (forall other, other <> date ->
                 already_sent (record_sent st date count) other =
                 already_sent st other) /\
  start_date (record_sent st date count) = start_date st /\
  (record_writable w = false ->
   update_history (encode st) date count w = (Raise OSError, w)).
Proof.
  split; [|split; [|split; [|split]]].
  - intros Hw. rewrite (update_history_encoded st date count w Hw).
    cbn [fst snd]. repeat split.
    intros p Hp. destruct p; [congruence|reflexivity..].
  - unfold already_sent, record_sent. cbn [daily_sends].
    now rewrite sends_get_set_same.
  - intros other Hne. unfold already_sent, record_sent. cbn [daily_sends].
    now rewrite sends_get_set_other.
  - reflexivity.
  - intros Hw. unfold update_history, bind.
    rewrite getitem_encode_sends. cbn [lift].
    rewrite get_default_encode_sends. cbn [lift as_int setitem].
    unfold save_history. rewrite Hw. reflexivity.
Qed.

Lemma X6_update_history_records_witness :
  files (snd (update_history
                (encode (mkstate (Some (mkdate 2024 1 1)) [("2024-01-01", 1)]))
                "2024-01-02" 2
                (sample_world (mkdate 2024 1 2) Missing 0 SwaksOk)))
    HistoryJson =
  Json (encode (mkstate (Some (mkdate 2024 1 1))
                  [("2024-01-01", 1); ("2024-01-02", 2)])).
Proof.
  apply (proj1 (X6_update_history_records
                  (mkstate (Some (mkdate 2024 1 1)) [("2024-01-01", 1)])
                  "2024-01-02" 2
                  (sample_world (mkdate 2024 1 2) Missing 0 SwaksOk))).
  reflexivity.
Defined.

(** X7: the quota makes up a shortfall. When [sent] successes have been
    recorded for today with [update_history], a later run on the same day
    that loads the record computes the same day number and has
    [max(0, day_number - already_sent - sent)] emails to send: what was left
    of today's quota, and nothing once the quota has been recorded in
    full. *)
Theorem X7_quota_after_recording
    (st : campaign_state) (D : date) (sent : Z) (w later : world) :
  start_date st = Some D ->
  valid_date D = true ->
  valid_date (today_of later) = true ->
  record_writable w = true ->
  files later HistoryJson =
  files (snd (update_history (encode st) (strftime (today_of later)) sent w))
    HistoryJson ->
  let today := strftime (today_of later) in
  let day_number := toordinal (today_of later) - toordinal D + 1 in
  let quota := Z.max 0 (day_number - already_sent st today) in
  fst (get_current_day_info (loaded_history later) later) =
  Ok (encode (record_sent st today sent),
      (day_number, Z.max 0 (day_number - already_sent st today - sent),
       today)) /\
  (0 <= sent <= quota ->
   Z.max 0 (day_number - already_sent st today - sent) = quota - sent) /\
  (sent = quota ->
   Z.max 0 (day_number - already_sent st today - sent) = 0).
Proof.
  intros Hs HD Ht Hw Hfile. cbv zeta.
  rewrite (update_history_encoded st _ sent w Hw) in Hfile.
  cbn [snd run_fs_ops save_history_ops fold_left apply_fs_op files set_file]
    in Hfile.
  assert (Hsame : already_sent
                    (record_sent st (strftime (today_of later)) sent)
                    (strftime (today_of later)) =
                  already_sent st (strftime (today_of later)) + sent).
  { unfold already_sent, record_sent. cbn [daily_sends].
    now rewrite sends_get_set_same. }
  split; [|split; lia].
  unfold loaded_history. rewrite Hfile.
  rewrite (get_current_day_info_started
             (record_sent st (strftime (today_of later)) sent) D later Hs HD Ht).
  cbv zeta. cbn [fst]. rewrite Hsame.
  replace (toordinal (today_of later) - toordinal D + 1 -
           (already_sent st (strftime (today_of later)) + sent))
    with (toordinal (today_of later) - toordinal D + 1 -
          already_sent st (strftime (today_of later)) - sent) by lia.
  reflexivity.
Qed.

Lemma X7_quota_after_recording_witness :
  fst (get_current_day_info
         (loaded_history
            (sample_world (mkdate 2024 1 3)
               (Json (encode (mkstate (Some (mkdate 2024 1 1))
                                [("2024-01-03", 2)])))
               0 SwaksOk))
         (sample_world (mkdate 2024 1 3)
            (Json (encode (mkstate (Some (mkdate 2024 1 1))
                             [("2024-01-03", 2)])))
            0 SwaksOk)) =
  Ok (encode (mkstate (Some (mkdate 2024 1 1)) [("2024-01-03", 2)]),
      (3, 1, "2024-01-03")).
Proof.
  apply (X7_quota_after_recording
           (mkstate (Some (mkdate 2024 1 1)) []) (mkdate 2024 1 1) 2
           (sample_world (mkdate 2024 1 3) Missing 0 SwaksOk)
           (sample_world (mkdate 2024 1 3)
              (Json (encode (mkstate (Some (mkdate 2024 1 1))
                               [("2024-01-03", 2)])))
              0 SwaksOk));
    reflexivity.
Defined.

(** X8: a clock set back before the start date sends nothing. When today
    is [k + 1] days before the start date and the count recorded for today
    is not negative, [get_current_day_info] returns the day number [-k] and
    no email to send. *)
Theorem X8_clock_before_start
    (st : campaign_state) (D : date) (k : nat) (w : world) :
  start_date st = Some D ->
  valid_date D = true ->
  valid_date (today_of w) = true ->
  D = add_days (today_of w) (S k) ->
  0 <= already_sent st (strftime (today_of w)) ->
  get_current_day_info (encode st) w =
  (Ok (encode st, (- Z.of_nat k, 0, strftime (today_of w))), tick w).
Proof.
  intros Hs HD Ht Hk Hsent.
  rewrite (get_current_day_info_started st D w Hs HD Ht). cbv zeta.
  assert (Hord : toordinal D = toordinal (today_of w) + Z.of_nat (S k)).
  { rewrite Hk at 1. apply toordinal_add_days, valid_date_wf. assumption. }
  rewrite Hord.
  replace (toordinal (today_of w) -
           (toordinal (today_of w) + Z.of_nat (S k)) + 1)
    with (- Z.of_nat k) by lia.
  rewrite Z.max_l by lia. reflexivity.
Qed.

Lemma X8_clock_before_start_witness :
  fst (get_current_day_info
         (encode (mkstate (Some (mkdate 2024 1 3)) []))
         (sample_world (mkdate 2023 12 31) Missing 0 SwaksOk)) =
  Ok (encode (mkstate (Some (mkdate 2024 1 3)) []), (-2, 0, "2023-12-31")).
Proof.
  rewrite (X8_clock_before_start (mkstate (Some (mkdate 2024 1 3)) [])
             (mkdate 2024 1 3) 2
             (sample_world (mkdate 2023 12 31) Missing 0 SwaksOk));
    reflexivity.
Defined.

(** *** What a run leaves alone *)

Section FrameCron.

Context {X : Type} (f : world -> X).
Hypothesis f_emit : forall e w, f (emit e w) = f w.
Hypothesis f_set_cron : forall c w, f (set_cron c w) = f w.

Lemma keeps_setup_crontab : keeps f setup_crontab.
Proof.
  intros w. unfold setup_crontab.
  destruct (cron w) as [|table]; [apply f_emit|]. cbv zeta.
  destruct (contains _ _); [apply f_emit|].
  unfold bind, crontab_install.
  destruct (install_code w =? 0); cbn [print ret snd];
    now rewrite f_emit, f_set_cron.
Qed.

Lemma keeps_remove_crontab : keeps f remove_crontab.
Proof.
  intros w. unfold remove_crontab.
  destruct (cron w) as [|[text|]]; [apply f_emit| |apply f_emit]. cbv zeta.
  destruct (negb _); [apply f_emit|].
  destruct (kept_lines _ _);
    unfold bind, crontab_install, crontab_clear; cbn [print ret snd];
    now rewrite f_emit, f_set_cron.
Qed.

(** The runs for [--setup-cron] and [--remove-cron]. *)
Lemma keeps_main_crontab a :
  setup_cron a = true \/ remove_cron a = true -> keeps f (main a).
Proof.
  intros Hflag. unfold main.
  destruct (setup_cron a).
  - apply keeps_bind; [apply keeps_setup_crontab|]. intros [|].
    + apply keeps_bind; [|intros]; now apply keeps_print.
    + apply keeps_ret.
  - destruct Hflag as [Hflag|Hflag]; [discriminate|]. rewrite Hflag.
    apply keeps_bind; [apply keeps_remove_crontab|]. intros _.
    apply keeps_ret.
Qed.

Hypothesis f_tick : forall w, f (tick w) = f w.

Lemma keeps_check_and_cleanup_crontab history :
  keeps f (check_and_cleanup_crontab history).
Proof.
  unfold check_and_cleanup_crontab.
  apply keeps_bind; [apply keeps_lift|]. intros start.
  destruct (negb (truthy start)); [apply keeps_ret|].
  apply keeps_bind; [apply keeps_lift|]. intros start_date.
  apply keeps_bind; [now apply keeps_datetime_now|]. intros current_date.
  cbv zeta. destruct (5 <? _); [|apply keeps_ret].
  apply keeps_bind; [now apply keeps_print|]. intros _.
  apply keeps_bind; [apply keeps_remove_crontab|]. intros _.
  apply keeps_ret.
Qed.

Hypothesis f_drew : forall w, f (drew w) = f w.
Hypothesis f_ran_swaks : forall w, f (ran_swaks w) = f w.

(** With [--force-send N], [N] not zero, [run_campaign] never gets to
    [update_history]. *)
Lemma keeps_forced_run_campaign a history send_data messages_data receive_data :
  force_requested a = true ->
  keeps f (run_campaign a history send_data messages_data receive_data).
Proof.
  intros Hforce. unfold run_campaign. rewrite Hforce. cbn [negb andb].
  apply keeps_bind.
  { apply keeps_bind; [now apply keeps_datetime_now|]. intros now.
    apply keeps_bind; [now apply keeps_print|]. intros _. apply keeps_ret. }
  intros [[[history' day_number] emails_to_send] today].
  destruct (emails_to_send <=? 0); [now apply keeps_print|].
  apply keeps_bind; [now apply keeps_select_recipients|].
  intros [emails_to_send' selected].
  apply keeps_bind; [now apply keeps_send_loop|]. intros successful.
  apply keeps_bind; [apply keeps_ret|]. intros history''.
  do 4 (apply keeps_bind; [now apply keeps_print|intros _]).
  apply keeps_ret.
Qed.

Lemma keeps_forced_main a : force_requested a = true -> keeps f (main a).
Proof.
  intros Hforce.
  destruct (setup_cron a) eqn:Hsetup; [apply keeps_main_crontab; now left|].
  destruct (remove_cron a) eqn:Hremove; [apply keeps_main_crontab; now right|].
  unfold main. rewrite Hsetup, Hremove.
  apply keeps_bind; [apply keeps_load_history|]. intros history.
  destruct (status a); [now apply keeps_show_status|].
  apply keeps_bind; [apply keeps_check_and_cleanup_crontab|]. intros _.
  apply keeps_bind; [now apply keeps_print|]. intros _.
  do 3 (apply keeps_bind; [now apply keeps_load_json_file|intros];
        apply keeps_bind; [now apply keeps_require|intros]).
  do 3 (apply keeps_bind; [now apply keeps_require|intros]).
  apply keeps_bind; [apply keeps_read|]. intros [|].
  - apply keeps_bind; [apply keeps_ret|]. intros _.
    do 4 (apply keeps_bind; [now apply keeps_print|intros _]).
    now apply keeps_forced_run_campaign.
  - apply keeps_bind.
    { apply keeps_bind; [now apply keeps_print|]. intros _.
      apply keeps_bind; [now apply keeps_print|]. intros _.
      apply keeps_sys_exit. }
    intros _.
    do 4 (apply keeps_bind; [now apply keeps_print|intros _]).
    now apply keeps_forced_run_campaign.
Qed.

End FrameCron.

(** The run for [--status]. *)
Lemma keeps_main_status {X} (f : world -> X) a :
  (forall e w, f (emit e w) = f w) -> (forall w, f (tick w) = f w) ->
  setup_cron a = false -> remove_cron a = false -> status a = true ->
  keeps f (main a).
Proof.
  intros f_emit f_tick Hsetup Hremove Hstatus. unfold main.
  rewrite Hsetup, Hremove, Hstatus.
  apply keeps_bind; [apply keeps_load_history|]. intros history.
  now apply keeps_show_status.
Qed.

(** What [remove_crontab] leaves in the crontab depends on the crontab and
    the script path only. *)
Lemma remove_crontab_cron w1 w2 :
  cron w1 = cron w2 -> script_path w1 = script_path w2 ->
  cron (snd (remove_crontab w1)) = cron (snd (remove_crontab w2)).
Proof.
  intros Hcron Hpath. unfold remove_crontab. rewrite Hcron, Hpath.
  destruct (cron w2) as [|[text|]] eqn:Hcron2; unfold bind;
    cbn [print ret snd emit cron]; [congruence| |congruence].
  cbv zeta. destruct (negb _); cbn [print ret snd emit cron]; [congruence|].
  destruct (kept_lines _ _); reflexivity.
Qed.

Lemma check_and_cleanup_crontab_cron history w :
  cron (snd (check_and_cleanup_crontab history w)) = cron w \/
  cron (snd (check_and_cleanup_crontab history w)) =
  cron (snd (remove_crontab w)).
Proof.
  unfold check_and_cleanup_crontab, bind, lift.
  destruct (getitem history "start_date") as [start| |]; [|now left..].
  destruct (negb (truthy start)); [now left|].
  destruct (py_strptime start) as [start_date| |]; [|now left..].
  cbn [datetime_now]. cbv zeta. destruct (5 <? _); [|now left].
  cbn [print]. right.
  set (w1 := emit _ (tick w)).
  pose proof (remove_crontab_cron w1 w eq_refl eq_refl) as Hsame.
  destruct (remove_crontab w1) as [[ok| |] w2]; exact Hsame.
Qed.

(** X9: the runs for [--setup-cron], [--remove-cron] and [--status] are
    maintenance only: none of them changes a file, runs swaks, or draws a
    random number; the first two do not read the clock, and [--status] does
    not change the crontab either. *)
Theorem X9_maintenance_runs (a : args) (w : world) :
  (setup_cron a = true \/ remove_cron a = true ->
   files (snd (main a w)) = files w /\
   swaks_runs (snd (main a w)) = swaks_runs w /\
   draws (snd (main a w)) = draws w /\
   clock_reads (snd (main a w)) = clock_reads w) /\
  (setup_cron a = false -> remove_cron a = false -> status a = true ->
   files (snd (main a w)) = files w /\
   swaks_runs (snd (main a w)) = swaks_runs w /\
   draws (snd (main a w)) = draws w /\
   cron (snd (main a w)) = cron w).
Proof.
  split.
  - intros Hflag.
    repeat split; now apply keeps_main_crontab.
  - intros Hsetup Hremove Hstatus.
    repeat split; now apply keeps_main_status.
Qed.

Lemma X9_maintenance_runs_witness :
  files (snd (main (mkargs false false None true)
                (sample_world (mkdate 2024 1 3)
                   (Json (encode (mkstate (Some (mkdate 2024 1 1))
                                    [("2024-01-01", 1)])))
                   0 SwaksOk))) =
  files (sample_world (mkdate 2024 1 3)
           (Json (encode (mkstate (Some (mkdate 2024 1 1))
                            [("2024-01-01", 1)])))
           0 SwaksOk).
Proof.
  apply (proj2 (X9_maintenance_runs (mkargs false false None true) _));
    reflexivity.
Defined.

(** X10: a run with [--force-send N], [N] not zero, never writes a file:
    whatever it sends, and however it ends, the record of sends and the
    three datasets are afterwards what they were. *)
Theorem X10_forced_run_writes_nothing (a : args) (w : world) :
  force_requested a = true ->
  files (snd (main a w)) = files w /\
  record_writable (snd (main a w)) = record_writable w.
Proof.
  intros Hforce. split; now apply keeps_forced_main.
Qed.

Lemma X10_forced_run_writes_nothing_witness :
  files (snd (main (FORCED 2)
                (sample_world (mkdate 2024 1 3) Missing 0 SwaksOk))) =
  files (sample_world (mkdate 2024 1 3) Missing 0 SwaksOk).
Proof.
  apply (X10_forced_run_writes_nothing (FORCED 2)). reflexivity.
Defined.

(** X11: only [--setup-cron] ever adds to the crontab. Any other run
    leaves the crontab as it was or as [remove_crontab] leaves it; in
    particular a crontab without a line holding the script path is left
    untouched. *)
Theorem X11_only_setup_registers (a : args) (w : world) :
  setup_cron a = false ->
  (cron (snd (main a w)) = cron w \/
   cron (snd (main a w)) = cron (snd (remove_crontab w))) /\
  (registered w = false -> cron (snd (main a w)) = cron w).
Proof.
  intros Hsetup.
  assert (Hcases : cron (snd (main a w)) = cron w \/
                   cron (snd (main a w)) = cron (snd (remove_crontab w))).
  { destruct (remove_cron a) eqn:Hremove.
    - right. unfold main. rewrite Hsetup, Hremove. unfold bind.
      destruct (remove_crontab w) as [[ok| |] w1]; reflexivity.
    - destruct (status a) eqn:Hstatus.
      + left. now apply keeps_main_status.
      + rewrite (main_after_check cron) by (assumption || reflexivity).
        apply check_and_cleanup_crontab_cron. }
  split; [exact Hcases|].
  intros Hnot. destruct Hcases as [->| ->]; [reflexivity|].
  now apply remove_crontab_unregistered.
Qed.

Lemma X11_only_setup_registers_witness :
  cron (snd (main SCHEDULED (other_entry_world (mkdate 2024 1 3)))) =
  cron (other_entry_world (mkdate 2024 1 3)).
Proof.
  apply (X11_only_setup_registers SCHEDULED); reflexivity.
Defined.

(** *** Attempts, pauses and the tally *)

Module LogFacts.

Lemma run_campaign_plan_deliver a history send_data messages_data receive_data :
  run_campaign a history send_data messages_data receive_data =
  bind (plan a history) (deliver a send_data messages_data receive_data).
Proof. reflexivity. Qed.

Lemma attempt_same w w' :
  trace w' = trace w -> swaks_runs w' = swaks_runs w -> attempt_log 0 0 w w'.
Proof.
  intros Ht Hr. exists []. rewrite app_nil_r. cbn. repeat split; auto; lia.
Qed.

Lemma attempt_trans r1 s1 r2 s2 w w1 w2 :
  attempt_log r1 s1 w w1 -> attempt_log r2 s2 w1 w2 ->
  attempt_log (r1 + r2) (s1 + s2) w w2.
Proof.
  intros (e1 & T1 & P1 & R1 & B1 & S1) (e2 & T2 & P2 & R2 & B2 & S2).
  exists (e1 ++ e2)%list.
  rewrite T2, T1, <- app_assoc, forallb_app, P1, P2, !filter_app, !length_app.
  repeat split; lia.
Qed.

Lemma attempt_weaken r s r' s' w w' :
  (r <= r')%nat -> (s <= s')%nat -> attempt_log r s w w' ->
  attempt_log r' s' w w'.
Proof.
  intros Hr Hs (evs & T & P & R & B & S).
  exists evs. repeat split; try assumption; lia.
Qed.

Lemma attempt_print m w : attempt_log 0 0 w (emit (Print m) w).
Proof. exists [Print m]. repeat split; cbn; lia. Qed.

Lemma attempt_runs r s w w' :
  attempt_log r s w w' -> (swaks_runs w <= swaks_runs w' <= swaks_runs w + r)%nat.
Proof. intros (evs & T & P & R & B & S). lia. Qed.

Lemma logs_weaken {A} r s r' s' (m : M A) :
  (r <= r')%nat -> (s <= s')%nat -> logs r s m -> logs r' s' m.
Proof. intros Hr Hs Hm w. eapply attempt_weaken; eauto. Qed.

Lemma logs_ret {A} (a : A) : logs 0 0 (ret a).
Proof. intros w. now apply attempt_same. Qed.

Lemma logs_lift {A} (r : res A) : logs 0 0 (lift r).
Proof. intros w. now apply attempt_same. Qed.

Lemma logs_raise {A} (e : exn) : logs 0 0 (@raise A e).
Proof. apply logs_lift. Qed.

Lemma logs_sys_exit {A} (c : Z) : logs 0 0 (@sys_exit A c).
Proof. apply logs_lift. Qed.

Lemma logs_read {A} (g : world -> A) : logs 0 0 (fun w => (Ok (g w), w)).
Proof. intros w. now apply attempt_same. Qed.

Lemma logs_print m : logs 0 0 (print m).
Proof. intros w. apply attempt_print. Qed.

Lemma logs_datetime_now : logs 0 0 datetime_now.
Proof. intros w. now apply attempt_same. Qed.

Lemma logs_randbelow n : logs 0 0 (randbelow n).
Proof. intros w. now apply attempt_same. Qed.

Lemma logs_sleep seconds : 30 <= seconds <= 180 -> logs 0 1 (sleep seconds).
Proof.
  intros Hs w. exists [Sleep seconds]. cbn.
  repeat split; lia.
Qed.

Lemma logs_run_swaks c : logs 1 0 (run_swaks c).
Proof. intros w. exists [RunSwaks c]. cbn. repeat split; lia. Qed.

(** The rule for sequencing, with what the first part returns. *)
Lemma logs_bind_post {A B} (Q : A -> Prop) r1 s1 r2 s2 (m : M A) (k : A -> M B) :
  logs r1 s1 m ->
  (forall w a, fst (m w) = Ok a -> Q a) ->
  (forall a, Q a -> logs r2 s2 (k a)) ->
  logs (r1 + r2) (s1 + s2) (bind m k).
Proof.
  intros Hm HQ Hk w. unfold bind. specialize (Hm w). specialize (HQ w).
  destruct (m w) as [[a| |] w1]; cbn [fst snd] in *;
    [|eapply attempt_weaken; [| |exact Hm]; lia..].
  eapply attempt_trans; [exact Hm|]. apply Hk, HQ. reflexivity.
Qed.

Lemma logs_bind {A B} r1 s1 r2 s2 (m : M A) (k : A -> M B) :
  logs r1 s1 m -> (forall a, logs r2 s2 (k a)) ->
  logs (r1 + r2) (s1 + s2) (bind m k).
Proof.
  intros Hm Hk.
  apply (logs_bind_post (fun _ => True)); auto.
Qed.

Lemma logs_after {A B} r s (m : M A) (k : A -> M B) :
  logs 0 0 m -> (forall a, logs r s (k a)) -> logs r s (bind m k).
Proof. intros Hm Hk. exact (logs_bind 0 0 r s m k Hm Hk). Qed.

Lemma logs_before {A B} r s (m : M A) (k : A -> M B) :
  logs r s m -> (forall a, logs 0 0 (k a)) -> logs r s (bind m k).
Proof.
  intros Hm Hk.
  apply (logs_weaken (r + 0) (s + 0)); [lia..|]. now apply logs_bind.
Qed.

(** One step of a proof that a piece of the script only prints. *)
Ltac silent_step :=
  first
    [ apply logs_ret | apply logs_lift | apply logs_raise
    | apply logs_sys_exit | apply logs_print | apply logs_datetime_now
    | apply logs_randbelow | apply logs_read
    | assumption
    | apply logs_after; [|intros]
    | match goal with
      | |- logs _ _ (if ?b then _ else _) => destruct b
      | |- logs _ _ (match ?x with _ => _ end) => destruct x
      end ].

Ltac silent := repeat silent_step.

Lemma logs_random_choice {A} (seq : list A) : logs 0 0 (random_choice seq).
Proof. unfold random_choice. silent. Qed.

Lemma logs_sample_pool {A} (pool : list A) n k : logs 0 0 (sample_pool pool n k).
Proof.
  revert pool n. induction k as [|k IH]; intros pool n; cbn [sample_pool].
  - silent.
  - apply logs_after; [silent|]. intros j.
    destruct (nth_error pool j); [|silent].
    destruct (nth_error pool (n - 1)); [|silent].
    apply logs_after; [apply IH|]. intros rest. silent.
Qed.

Lemma logs_redraw fuel n selected j : logs 0 0 (redraw fuel n selected j).
Proof.
  revert j. induction fuel as [|fuel IH]; intros j; cbn [redraw];
    destruct (existsb _ _); try solve [silent].
  apply logs_after; [silent|]. intros j'. apply IH.
Qed.

Lemma logs_sample_set {A} (population : list A) n k selected :
  logs 0 0 (sample_set population n k selected).
Proof.
  revert selected. induction k as [|k IH]; intros selected;
    cbn [sample_set].
  - silent.
  - apply logs_after; [silent|]. intros j0.
    apply logs_after; [silent|]. intros fuel.
    apply logs_after; [apply logs_redraw|]. intros j.
    destruct (nth_error population j); [|silent].
    apply logs_after; [apply IH|]. intros rest. silent.
Qed.

Lemma logs_random_sample {A} (population : list A) k :
  logs 0 0 (random_sample population k).
Proof.
  unfold random_sample. cbv zeta.
  destruct (k <=? _)%nat; [|silent].
  destruct (_ <=? _); [apply logs_sample_pool|apply logs_sample_set].
Qed.

Lemma logs_randint a b : logs 0 0 (randint a b).
Proof. unfold randint. silent. Qed.

Lemma randint_between w delay :
  fst (randint 30 180 w) = Ok delay -> 30 <= delay <= 180.
Proof.
  unfold randint, bind, randbelow, ret. cbn [fst].
  assert (Hj : (random_source w (draws w) mod Z.to_nat (180 - 30 + 1)
                < 151)%nat)
    by (apply Nat.mod_upper_bound; discriminate).
  revert Hj.
  generalize (random_source w (draws w) mod Z.to_nat (180 - 30 + 1))%nat.
  intros j Hj Hres.
  assert (Hdelay : delay = 30 + Z.of_nat j) by congruence. lia.
Qed.

Lemma logs_select_recipients n receive_data :
  logs 0 0 (select_recipients n receive_data).
Proof.
  unfold select_recipients. cbv zeta.
  apply logs_after; [silent|]. intros n'.
  apply logs_after; [apply logs_random_sample|]. intros selected. silent.
Qed.

Lemma logs_send_email a b c d e g : logs 1 0 (send_email a b c d e g).
Proof.
  unfold send_email.
  do 2 (apply logs_after; [apply logs_random_choice|intros]).
  do 3 (apply logs_after; [apply logs_print|intros]).
  repeat match goal with
         | |- logs _ _ (match as_str ?x with _ => _ end) =>
             destruct (as_str x)
         end;
    try solve [apply (logs_weaken 0 0); [lia..|]; silent].
  apply logs_before; [apply logs_run_swaks|]. intros result. silent.
Qed.

(** One recipient: at most one run of swaks, and one pause unless the
    recipient is the last. *)
Lemma logs_dispatch_selected creds message n i recipient tally :
  logs 1 (if i <? n then 1 else 0)
    (dispatch_selected creds message n i recipient tally).
Proof.
  unfold dispatch_selected.
  destruct (recipient_email_of recipient) as [address|];
    [|apply (logs_weaken 0 0); [lia..|]; silent].
  do 5 (apply logs_after; [apply logs_lift|intros]).
  destruct (_ || _); [apply (logs_weaken 0 0); [lia..|]; silent|].
  apply (logs_bind 1 0 0); [apply logs_send_email|]. intros sent.
  cbv zeta. apply logs_before; [|intros; apply logs_ret].
  destruct (i <? n); [|apply logs_ret].
  apply (logs_bind_post (fun delay => 30 <= delay <= 180) 0 0 0 1);
    [apply logs_randint|apply randint_between|].
  intros delay Hdelay.
  apply logs_after; [apply logs_print|]. intros _.
  apply logs_before; [now apply logs_sleep|]. intros _. apply logs_print.
Qed.

Lemma logs_process_recipient send_data messages_data n i recipient tally :
  logs 1 (if i <? n then 1 else 0)
    (process_recipient send_data messages_data n i recipient tally).
Proof.
  unfold process_recipient.
  apply logs_after; [apply logs_print|]. intros _.
  do 2 (apply logs_after; [apply logs_random_choice|intros]).
  apply logs_dispatch_selected.
Qed.

(** The loop over the selected recipients, entered as [main] enters it:
    the last recipient has the index [n]. *)
Lemma logs_send_loop send_data messages_data n selected i tally :
  i + Z.of_nat (List.length selected) = n + 1 ->
  logs (List.length selected) (List.length selected - 1)
    (send_loop send_data messages_data n selected i tally).
Proof.
  revert i tally. induction selected as [|recipient rest IH];
    intros i tally Hi; cbn [send_loop].
  - apply logs_ret.
  - cbn [List.length] in *.
    apply (logs_weaken (1 + List.length rest)
             ((if i <? n then 1 else 0) + (List.length rest - 1))).
    + lia.
    + destruct (Z.ltb_spec i n); destruct rest; cbn [List.length] in *; lia.
    + apply logs_bind; [apply logs_process_recipient|]. intros tally'.
      apply IH. lia.
Qed.

Lemma logs_load_json_file p : logs 0 0 (load_json_file p).
Proof.
  intros w. unfold load_json_file.
  destruct (files w p); try apply attempt_print. now apply attempt_same.
Qed.

Lemma logs_require ok message : logs 0 0 (require ok message).
Proof. unfold require. silent. Qed.

Lemma logs_load_history : logs 0 0 load_history.
Proof.
  intros w. unfold load_history.
  destruct (files w HistoryJson); now apply attempt_same.
Qed.

Lemma logs_get_current_day_info history :
  logs 0 0 (get_current_day_info history).
Proof. unfold get_current_day_info. silent. Qed.

Lemma logs_save_history history : logs 0 0 (save_history history).
Proof.
  intros w. unfold save_history.
  destruct (record_writable w); now apply attempt_same.
Qed.

Lemma logs_update_history history date count :
  logs 0 0 (update_history history date count).
Proof.
  unfold update_history.
  do 6 (apply logs_after; [apply logs_lift|intros]).
  apply logs_after; [apply logs_save_history|intros]. apply logs_ret.
Qed.

Lemma attempt_cron_print c m w :
  attempt_log 0 0 w (emit (Print m) (set_cron c w)).
Proof. exists [Print m]. repeat split; cbn; lia. Qed.

Lemma logs_setup_crontab : logs 0 0 setup_crontab.
Proof.
  intros w. unfold setup_crontab.
  destruct (cron w) as [|table]; [apply attempt_print|]. cbv zeta.
  destruct (contains _ _); [apply attempt_print|].
  unfold bind, crontab_install.
  destruct (install_code w =? 0); apply attempt_cron_print.
Qed.

Lemma logs_remove_crontab : logs 0 0 remove_crontab.
Proof.
  intros w. unfold remove_crontab.
  destruct (cron w) as [|[text|]]; [apply attempt_print| |apply attempt_print].
  cbv zeta. destruct (negb _); [apply attempt_print|].
  destruct (kept_lines _ _); apply attempt_cron_print.
Qed.

Lemma logs_check_and_cleanup_crontab history :
  logs 0 0 (check_and_cleanup_crontab history).
Proof.
  unfold check_and_cleanup_crontab.
  apply logs_after; [apply logs_lift|]. intros start.
  destruct (negb (truthy start)); [apply logs_ret|].
  apply logs_after; [apply logs_lift|]. intros start_date.
  apply logs_after; [apply logs_datetime_now|]. intros current_date.
  cbv zeta. destruct (5 <? _); [|apply logs_ret].
  apply logs_after; [apply logs_print|]. intros _.
  apply logs_after; [apply logs_remove_crontab|]. intros _. apply logs_ret.
Qed.

Lemma logs_print_history_lines items : logs 0 0 (print_history_lines items).
Proof.
  induction items as [|[date count] rest IH]; cbn [print_history_lines].
  - apply logs_ret.
  - apply logs_after; [apply logs_print|]. intros _. exact IH.
Qed.

Lemma logs_show_status history : logs 0 0 (show_status history).
Proof.
  unfold show_status.
  do 2 (apply logs_after; [silent|intros]).
  match goal with |- logs _ _ (if ?b then _ else _) => destruct b end;
    [|silent].
  do 7 (apply logs_after; [silent|intros]).
  apply logs_print_history_lines.
Qed.

Lemma logs_plan a history : logs 0 0 (plan a history).
Proof.
  unfold plan. destruct (force_requested a); [silent|].
  apply logs_after; [apply logs_get_current_day_info|].
  intros [history' [[day_number emails_to_send] today]]. silent.
Qed.

(** From the planned number [n] on, swaks is run at most [n] times and at
    most once per recipient of the dataset, with a pause between two
    recipients only. *)
Lemma logs_deliver a send_data messages_data receive_data
    history day_number n today :
  let budget := Z.to_nat (Z.min n (Z.of_nat (List.length receive_data))) in
  logs budget (budget - 1)
    (deliver a send_data messages_data receive_data
       (history, day_number, n, today)).
Proof.
  cbv zeta. unfold deliver.
  destruct (Z.leb_spec n 0) as [Hle|Hpos].
  { apply (logs_weaken 0 0); [lia..|]. apply logs_print. }
  apply (logs_weaken
           (0 + Z.to_nat (Z.min n (Z.of_nat (List.length receive_data))))
           (0 + (Z.to_nat (Z.min n (Z.of_nat (List.length receive_data)))
                 - 1))); [lia..|].
  apply (logs_bind_post
           (fun x => fst x = Z.min n (Z.of_nat (List.length receive_data)) /\
                     Z.of_nat (List.length (snd x)) = fst x));
    [apply logs_select_recipients| |].
  { intros w [n' selected] Hres. cbn [fst snd].
    destruct (select_recipients_result n receive_data w n' selected Hpos Hres)
      as (Hn' & Hlen & _).
    now split. }
  intros [n' selected] [Hn' Hlen]. cbn [fst snd] in *.
  apply logs_before.
  { apply (logs_weaken (List.length selected) (List.length selected - 1));
      [lia..|].
    apply logs_send_loop. lia. }
  intros tally.
  apply logs_after.
  { destruct (_ && _); [apply logs_update_history|apply logs_ret]. }
  intros history'. unfold report. silent.
Qed.

Lemma logs_run_campaign a history send_data messages_data receive_data :
  logs (List.length receive_data) (List.length receive_data - 1)
    (run_campaign a history send_data messages_data receive_data).
Proof.
  rewrite run_campaign_plan_deliver.
  apply logs_after; [apply logs_plan|].
  intros [[[history' day_number] n] today].
  eapply logs_weaken; [| |apply logs_deliver]; lia.
Qed.

(** The same rules from the worlds in which [receive.json] is [f], for a
    first part that neither runs swaks nor pauses nor touches that file. *)
Lemma logs_given_after {A B} f r s (m : M A) (k : A -> M B) :
  logs 0 0 m -> keeps (fun w => files w ReceiveJson) m ->
  (forall a, logs_given f r s (k a)) -> logs_given f r s (bind m k).
Proof.
  intros Hm Hkeep Hk w Hw. unfold bind.
  specialize (Hm w). specialize (Hkeep w). cbn beta in Hkeep.
  destruct (m w) as [[a| |] w1]; cbn [snd] in *;
    [|eapply attempt_weaken; [| |exact Hm]; lia..].
  apply (attempt_trans 0 0 r s w w1); [exact Hm|]. apply Hk. congruence.
Qed.

Lemma logs_given_any {A} f r s (m : M A) : logs r s m -> logs_given f r s m.
Proof. intros Hm w _. apply Hm. Qed.

(** [load_json_file] on [receive.json] returns what that file holds. *)
Lemma logs_given_load {B} f r s (k : pyval -> M B) :
  logs_given f r s (k (data_of f)) ->
  logs_given f r s (bind (load_json_file ReceiveJson) k).
Proof.
  intros Hk w Hw. unfold bind, load_json_file. rewrite Hw.
  destruct f; cbn [print ret bind fst snd data_of] in *;
    try solve [eapply (attempt_trans 0 0 r s); [|apply Hk; exact Hw];
               apply attempt_print].
  apply Hk. exact Hw.
Qed.

Lemma main_logs a f :
  logs_given f (List.length (list_of (data_of f)))
    (List.length (list_of (data_of f)) - 1) (main a).
Proof.
  assert (Hsilent : forall {A} (m : M A),
             logs 0 0 m ->
             logs_given f (List.length (list_of (data_of f)))
               (List.length (list_of (data_of f)) - 1) m).
  { intros A m Hm. apply logs_given_any.
    apply (logs_weaken 0 0); [lia..|exact Hm]. }
  unfold main.
  destruct (setup_cron a).
  { apply Hsilent. apply logs_after; [apply logs_setup_crontab|].
    intros [|]; silent. }
  destruct (remove_cron a).
  { apply Hsilent. apply logs_after; [apply logs_remove_crontab|].
    intros _. apply logs_ret. }
  apply logs_given_after;
    [apply logs_load_history|now apply keeps_load_history|].
  intros history.
  destruct (status a); [apply Hsilent, logs_show_status|].
  apply logs_given_after;
    [apply logs_check_and_cleanup_crontab
    |now apply keeps_check_and_cleanup_crontab|].
  intros _.
  apply logs_given_after; [apply logs_print|now apply keeps_print|].
  intros _.
  do 2 (apply logs_given_after;
          [apply logs_load_json_file|now apply keeps_load_json_file|];
        intros ?;
        apply logs_given_after;
          [apply logs_require|now apply keeps_require|];
        intros _).
  apply logs_given_load.
  do 4 (apply logs_given_after;
          [apply logs_require|now apply keeps_require|];
        intros _).
  apply logs_given_after; [apply logs_read|apply keeps_read|].
  intros present.
  apply logs_given_after.
  { destruct present; silent. }
  { destruct present; [apply keeps_ret|].
    apply keeps_bind; [now apply keeps_print|]. intros _.
    apply keeps_bind; [now apply keeps_print|]. intros _.
    apply keeps_sys_exit. }
  intros _.
  do 4 (apply logs_given_after; [apply logs_print|now apply keeps_print|];
        intros _).
  apply logs_given_any, logs_run_campaign.
Qed.

End LogFacts.
Import LogFacts.

(** X12: pacing and volume of a run. Whatever the command line and the
    files, [main] only adds to what has been printed and done; every pause
    it makes lasts between 30 and 180 seconds; it runs swaks at most once
    per entry of [receive.json]; and it pauses at most once less than that:
    never after the last recipient. *)
Theorem X12_pacing_and_volume (a : args) (w : world) :
  exists evs,
    trace (snd (main a w)) = (trace w ++ evs)%list /\
    (forall seconds, In (Sleep seconds) evs -> 30 <= seconds <= 180) /\
    swaks_runs (snd (main a w)) =
    (swaks_runs w + List.length (filter is_run evs))%nat /\
    Z.of_nat (List.length (filter is_run evs)) <= len (dataset w ReceiveJson) /\
    Z.of_nat (List.length (filter is_sleep evs)) <=
    Z.max 0 (len (dataset w ReceiveJson) - 1).
Proof.
  destruct (main_logs a (files w ReceiveJson) w eq_refl)
    as (evs & Htrace & Hpaced & Hruns & Hbound & Hpauses).
  exists evs. unfold len, dataset. split; [assumption|]. split.
  { intros seconds Hin. rewrite forallb_forall in Hpaced.
    specialize (Hpaced _ Hin). cbn in Hpaced. lia. }
  repeat split; try assumption; lia.
Qed.

(** *** The tally counts the successful runs *)

Module CountFacts.

Lemma successes_add outcomes from a b :
  successes outcomes from (a + b) =
  successes outcomes from a + successes outcomes (from + a) b.
Proof.
  revert from. induction a as [|a IH]; intros from; cbn [successes Nat.add].
  - now rewrite Nat.add_0_r.
  - rewrite IH, Nat.add_succ_r. cbn [Nat.add]. lia.
Qed.

Lemma keeps_swaks_state {A} (m : M A) w :
  keeps swaks_state m ->
  swaks_run (snd (m w)) = swaks_run w /\
  swaks_runs (snd (m w)) = swaks_runs w.
Proof.
  intros Hm. specialize (Hm w). unfold swaks_state in Hm.
  split; congruence.
Qed.

Lemma counts_silent {A} (gain : A -> Z) (m : M A) :
  keeps swaks_state m -> (forall a, gain a = 0) -> counts gain m.
Proof.
  intros Hm Hgain w. destruct (keeps_swaks_state m w Hm) as [Hrun Hruns].
  split; [exact Hrun|]. split; [lia|].
  intros a _. rewrite Hruns, Nat.sub_diag. apply Hgain.
Qed.

Lemma counts_ret {A} (gain : A -> Z) (a : A) : gain a = 0 -> counts gain (ret a).
Proof.
  intros Hgain w. cbn [ret fst snd]. split; [reflexivity|]. split; [lia|].
  intros a' Ha. assert (a' = a) by congruence. subst a'.
  now rewrite Nat.sub_diag.
Qed.

Lemma counts_bind {A B} (g1 : A -> Z) (g2 : A -> B -> Z) (gain : B -> Z)
    (m : M A) (k : A -> M B) :
  counts g1 m -> (forall a, counts (g2 a) (k a)) ->
  (forall a b, gain b = g1 a + g2 a b) ->
  counts gain (bind m k).
Proof.
  intros Hm Hk Hgain w. unfold bind.
  destruct (Hm w) as (Hrun1 & Hle1 & Hcount1).
  destruct (m w) as [[a| |] w1]; cbn [fst snd] in *;
    [|split; [assumption|split; [assumption|discriminate]]..].
  destruct (Hk a w1) as (Hrun2 & Hle2 & Hcount2).
  split; [congruence|]. split; [lia|].
  intros b Hb.
  rewrite (Hgain a b), (Hcount1 a eq_refl), (Hcount2 b Hb), Hrun1.
  replace (swaks_runs (snd (k a w1)) - swaks_runs w)%nat
    with ((swaks_runs w1 - swaks_runs w)
          + (swaks_runs (snd (k a w1)) - swaks_runs w1))%nat by lia.
  rewrite successes_add.
  replace (swaks_runs w + (swaks_runs w1 - swaks_runs w))%nat
    with (swaks_runs w1) by lia.
  reflexivity.
Qed.

Lemma counts_after {A B} (gain : B -> Z) (m : M A) (k : A -> M B) :
  keeps swaks_state m -> (forall a, counts gain (k a)) ->
  counts gain (bind m k).
Proof.
  intros Hm Hk.
  apply (counts_bind (fun _ => 0) (fun _ => gain)); [|exact Hk|reflexivity].
  now apply counts_silent.
Qed.

Lemma counts_run_swaks c : counts outcome_gain (run_swaks c).
Proof.
  intros w. cbn [run_swaks fst snd swaks_run swaks_runs emit ran_swaks].
  split; [reflexivity|]. split; [lia|].
  intros result Hres.
  assert (result = swaks_run w (swaks_runs w)) by congruence. subst result.
  replace (S (swaks_runs w) - swaks_runs w)%nat with 1%nat by lia.
  cbn [successes]. unfold outcome_gain. lia.
Qed.

(** [send_email] returns [True] exactly when it has run swaks and that run
    succeeded. *)
Lemma counts_send_email a b c d e g : counts sent_gain (send_email a b c d e g).
Proof.
  unfold send_email.
  do 2 (apply counts_after; [now apply keeps_random_choice|intros]).
  do 3 (apply counts_after; [now apply keeps_print|intros]).
  repeat match goal with
         | |- counts _ (match as_str ?x with _ => _ end) =>
             destruct (as_str x)
         end;
    try solve [apply counts_after; [now apply keeps_print|intros];
               now apply counts_ret].
  apply (counts_bind outcome_gain
           (fun result sent => sent_gain sent - outcome_gain result));
    [apply counts_run_swaks| |intros; lia].
  intros [| | |];
    repeat (apply counts_after; [now apply keeps_print|intros]);
    now apply counts_ret.
Qed.

Lemma counts_dispatch_selected creds message n i recipient tally :
  counts (fun t => t - tally)
    (dispatch_selected creds message n i recipient tally).
Proof.
  unfold dispatch_selected.
  destruct (recipient_email_of recipient) as [address|].
  2:{ apply counts_after; [now apply keeps_print|intros].
      apply counts_ret. lia. }
  do 5 (apply counts_after; [apply keeps_lift|intros]).
  destruct (_ || _).
  { apply counts_after; [now apply keeps_print|intros].
    apply counts_ret. lia. }
  apply (counts_bind sent_gain
           (fun sent t => t - (if sent : bool then tally + 1 else tally)));
    [apply counts_send_email| |intros [|] t; unfold sent_gain; lia].
  intros sent. cbv zeta.
  apply counts_after; [|intros; apply counts_ret; lia].
  destruct (i <? n); [|apply keeps_ret].
  apply keeps_bind; [now apply keeps_randint|intros].
  apply keeps_bind; [now apply keeps_print|intros].
  apply keeps_bind; [now apply keeps_sleep|intros].
  now apply keeps_print.
Qed.

Lemma counts_process_recipient send_data messages_data n i recipient tally :
  counts (fun t => t - tally)
    (process_recipient send_data messages_data n i recipient tally).
Proof.
  unfold process_recipient.
  apply counts_after; [now apply keeps_print|intros].
  do 2 (apply counts_after; [now apply keeps_random_choice|intros]).
  apply counts_dispatch_selected.
Qed.

(** The loop returns its tally plus the number of its swaks runs that
    succeeded. *)
Lemma counts_send_loop send_data messages_data n selected i tally :
  counts (fun t => t - tally)
    (send_loop send_data messages_data n selected i tally).
Proof.
  revert i tally. induction selected as [|recipient rest IH];
    intros i tally; cbn [send_loop].
  - apply counts_ret. lia.
  - apply (counts_bind (fun t1 => t1 - tally) (fun t1 t => t - t1));
      [apply counts_process_recipient| |intros; lia].
    intros t1. apply IH.
Qed.

End CountFacts.
Import CountFacts.

(** *** A scheduled run, from the plan to the record *)

Module RunFacts.

Lemma successes_bounds outcomes from n :
  0 <= successes outcomes from n <= Z.of_nat n.
Proof.
  revert from. induction n as [|n IH]; intros from; cbn [successes]; [lia|].
  specialize (IH (S from)). destruct (outcomes from); lia.
Qed.

Lemma sum_values_encode_sends l acc :
  exists total, sum_values (encode_sends l) acc = Ok total.
Proof.
  revert acc. induction l as [|[k n] l IH]; intros acc.
  - now exists acc.
  - cbn [encode_sends map sum_values fst snd as_int]. apply IH.
Qed.

Lemma keeps_report {X} (f : world -> X) a receive_data day_number n today
    tally history :
  (forall e w, f (emit e w) = f w) ->
  keeps f (report a receive_data day_number n today tally history).
Proof.
  intros f_emit. unfold report.
  do 4 (apply keeps_bind; [now apply keeps_print|intros _]).
  destruct (negb _); [|apply keeps_ret].
  apply keeps_bind; [now apply keeps_print|intros _].
  do 3 (apply keeps_bind; [apply keeps_lift|intros]).
  now apply keeps_print.
Qed.

(** On a well-shaped state the summary of a scheduled run ends normally. *)
Lemma report_scheduled a receive_data day_number n today tally st w :
  fst (report a receive_data day_number n today tally (encode st) w) = Ok tt.
Proof.
  unfold report, bind. cbn [print].
  destruct (negb (force_requested a)); [|reflexivity].
  cbn [print]. rewrite getitem_encode_sends. cbn [lift dict_of].
  destruct (sum_values_encode_sends (daily_sends st) 0) as [total ->].
  reflexivity.
Qed.

Lemma plan_scheduled a st w :
  force_requested a = false ->
  start_valid st = true ->
  valid_date (today_of w) = true ->
  let today := strftime (today_of w) in
  let day_number := day_of st (today_of w) in
  let n := Z.max 0 (day_number - already_sent st today) in
  plan a (encode st) w =
  (Ok (encode (begun st (today_of w)), DayNumber day_number, n, today),
   emit (Print (MsgPlanning day_number n)) (tick w)).
Proof.
  intros Hforce Hstart Htoday. cbv zeta.
  unfold plan, bind, begun, day_of, start_valid in *. rewrite Hforce.
  destruct (start_date st) as [D|] eqn:Hs.
  - rewrite (get_current_day_info_started st D w Hs Hstart Htoday).
    reflexivity.
  - rewrite (get_current_day_info_fresh st w Hs). reflexivity.
Qed.

Lemma plan_forced a n history w :
  force_send a = Some n -> n <> 0 ->
  plan a history w =
  (Ok (history, DayForced, n, strftime (today_of w)),
   emit (Print (MsgForceSending n)) (tick w)).
Proof.
  intros Hn Hne. unfold plan, force_requested. rewrite Hn.
  apply Z.eqb_neq in Hne. rewrite Hne. reflexivity.
Qed.

(** The rest of a scheduled run on a well-shaped state, by how it ends.
    No file but the record changes. When it ends normally the record is
    rewritten exactly when one of its swaks runs succeeded, with their
    number added to the count of [today]; when it does not, the record is
    what it was. *)
Lemma deliver_outcome a st send_data messages_data receive_data
    day_number n today w r w' :
  force_requested a = false ->
  deliver a send_data messages_data receive_data
    (encode st, day_number, n, today) w = (r, w') ->
  let sent := successes (swaks_run w) (swaks_runs w)
                (swaks_runs w' - swaks_runs w) in
  (forall p, p <> HistoryJson -> files w' p = files w p) /\
  (r = Ok tt ->
   files w' HistoryJson =
   (if 0 <? sent then Json (encode (record_sent st today sent))
    else files w HistoryJson)) /\
  ((forall u, r <> Ok u) -> files w' = files w).
Proof.
  intros Hforce. cbv zeta. unfold deliver.
  destruct (Z.leb_spec n 0) as [Hle|Hpos].
  { cbn [print]. intros [= <- <-].
    cbn [swaks_runs swaks_run emit files].
    rewrite Nat.sub_diag. cbn [successes Z.ltb Z.compare].
    repeat split. }
  pose proof (keeps_select_recipients swaks_state (fun _ _ => eq_refl)
                (fun _ => eq_refl) n receive_data w) as Hstate1.
  pose proof (keeps_select_recipients files (fun _ _ => eq_refl)
                (fun _ => eq_refl) n receive_data w) as Hfiles1.
  unfold bind at 1.
  destruct (select_recipients n receive_data w) as [[[n1 selected]|e|c] w1];
    cbn [fst snd] in *;
    [|intros [= <- <-]; repeat split; (congruence || discriminate)..].
  unfold swaks_state in Hstate1.
  assert (Hrun1 : swaks_run w1 = swaks_run w) by congruence.
  assert (Hruns1 : swaks_runs w1 = swaks_runs w) by congruence.
  clear Hstate1.
  destruct (counts_send_loop send_data messages_data n1 selected 1 0 w1)
    as (Hrun2 & Hle2 & Hcount).
  pose proof (keeps_send_loop files (fun _ _ => eq_refl) (fun _ => eq_refl)
                (fun _ => eq_refl) send_data messages_data n1 selected 1 0 w1)
    as Hfiles2.
  unfold bind at 1.
  destruct (send_loop send_data messages_data n1 selected 1 0 w1)
    as [[tally|e|c] w2]; cbn [fst snd] in *;
    [|intros [= <- <-]; repeat split; (congruence || discriminate)..].
  specialize (Hcount tally eq_refl).
  rewrite Hforce. cbn [negb andb]. rewrite Hrun1, Hruns1 in Hcount.
  assert (Hsent : tally =
                  successes (swaks_run w) (swaks_runs w)
                    (swaks_runs w2 - swaks_runs w)) by lia.
  clear Hcount. unfold bind at 1.
  destruct (Z.ltb_spec 0 tally) as [Hsome|Hnone].
  - destruct (record_writable w2) eqn:Hwritable.
    + rewrite update_history_encoded by assumption.
      set (w3 := run_fs_ops _ w2).
      pose proof (report_scheduled a receive_data day_number n1 today tally
                    (record_sent st today tally) w3) as Hreport.
      pose proof (keeps_report files a receive_data day_number n1 today tally
                    (encode (record_sent st today tally))
                    (fun _ _ => eq_refl) w3) as Hfiles4.
      pose proof (keeps_report swaks_runs a receive_data day_number n1 today
                    tally (encode (record_sent st today tally))
                    (fun _ _ => eq_refl) w3) as Hruns4.
      destruct (report a receive_data day_number n1 today tally
                  (encode (record_sent st today tally)) w3) as [r4 w4].
      cbn [fst snd] in *. subst r4. intros [= <- <-].
      change (swaks_runs w3) with (swaks_runs w2) in Hruns4.
      rewrite Hruns4, <- Hsent, Hfiles4.
      apply Z.ltb_lt in Hsome. rewrite Hsome.
      split; [|split; [reflexivity|intros Hnot; now destruct (Hnot tt)]].
      intros p Hp. unfold w3. destruct p; try congruence;
        cbn [run_fs_ops save_history_ops fold_left apply_fs_op files set_file];
        congruence.
    + rewrite update_history_unwritable by assumption.
      intros [= <- <-]. repeat split; (congruence || discriminate).
  - cbn [ret].
    pose proof (report_scheduled a receive_data day_number n1 today tally
                  st w2) as Hreport.
    pose proof (keeps_report files a receive_data day_number n1 today tally
                  (encode st) (fun _ _ => eq_refl) w2) as Hfiles4.
    pose proof (keeps_report swaks_runs a receive_data day_number n1 today
                  tally (encode st) (fun _ _ => eq_refl) w2) as Hruns4.
    destruct (report a receive_data day_number n1 today tally (encode st) w2)
      as [r4 w4].
    cbn [fst snd] in *. subst r4. intros [= <- <-].
    rewrite Hruns4, <- Hsent, Hfiles4.
    apply Z.ltb_ge in Hnone. rewrite Hnone.
    split; [intros p _; congruence|].
    split; [intros _; congruence|intros Hnot; now destruct (Hnot tt)].
Qed.

(** The same for [run_campaign] as a whole. *)
Lemma run_campaign_outcome a st send_data messages_data receive_data w r w' :
  force_requested a = false ->
  start_valid st = true ->
  valid_date (today_of w) = true ->
  run_campaign a (encode st) send_data messages_data receive_data w =
  (r, w') ->
  let today := strftime (today_of w) in
  let sent := successes (swaks_run w) (swaks_runs w)
                (swaks_runs w' - swaks_runs w) in
  (forall p, p <> HistoryJson -> files w' p = files w p) /\
  (r = Ok tt ->
   files w' HistoryJson =
   (if 0 <? sent
    then Json (encode (record_sent (begun st (today_of w)) today sent))
    else files w HistoryJson)) /\
  ((forall u, r <> Ok u) -> files w' = files w).
Proof.
  intros Hforce Hstart Htoday Hrun. cbv zeta.
  rewrite run_campaign_plan_deliver in Hrun. unfold bind in Hrun.
  rewrite (plan_scheduled a st w Hforce Hstart Htoday) in Hrun.
  cbv zeta in Hrun.
  exact (deliver_outcome a (begun st (today_of w)) send_data messages_data
           receive_data _ _ _
           (emit (Print (MsgPlanning _ _)) (tick w)) r w' Hforce Hrun).
Qed.

(** What a run attempts, from what it has planned. *)
Lemma run_campaign_budget a history send_data messages_data receive_data w
    history' day_number n today :
  fst (plan a history w) = Ok (history', day_number, n, today) ->
  attempt_log
    (Z.to_nat (Z.min n (Z.of_nat (List.length receive_data))))
    (Z.to_nat (Z.min n (Z.of_nat (List.length receive_data))) - 1)
    w (snd (run_campaign a history send_data messages_data receive_data w)).
Proof.
  intros Hplan. rewrite run_campaign_plan_deliver. unfold bind.
  pose proof (logs_plan a history w) as Hlog.
  destruct (plan a history w) as [r w1]. cbn [fst snd] in *. subst r.
  eapply (attempt_trans 0 0); [exact Hlog|]. apply logs_deliver.
Qed.

End RunFacts.
Import RunFacts.

(** X13: a scheduled run that ends normally has recorded exactly its
    successful sends. On a well-shaped record, when [run_campaign] without
    [--force-send] returns, and [sent] is the number of its swaks runs that
    succeeded: if [sent] is positive, the record afterwards holds the state
    with the campaign begun and [sent] added to today's count; if it is
    zero the record has not been written at all. No other file changes. *)
Theorem X13_record_counts_successes
    (a : args) (st : campaign_state)
    (send_data messages_data receive_data : list pyval) (w : world) :
  force_requested a = false ->
  start_valid st = true ->
  valid_date (today_of w) = true ->
  fst (run_campaign a (encode st) send_data messages_data receive_data w) =
  Ok tt ->
  let w' := snd (run_campaign a (encode st) send_data messages_data
                   receive_data w) in
  let today := strftime (today_of w) in
  let sent := successes (swaks_run w) (swaks_runs w)
                (swaks_runs w' - swaks_runs w) in
  files w' HistoryJson =
  (if 0 <? sent
   then Json (encode (record_sent (begun st (today_of w)) today sent))
   else files w HistoryJson) /\
  (forall p, p <> HistoryJson -> files w' p = files w p) /\
  0 <= sent <= Z.of_nat (swaks_runs w' - swaks_runs w).
Proof.
  intros Hforce Hstart Htoday Hok. cbv zeta.
  destruct (run_campaign a (encode st) send_data messages_data receive_data w)
    as [r w'] eqn:Hrun.
  cbn [fst snd] in *.
  destruct (run_campaign_outcome a st send_data messages_data receive_data
              w r w' Hforce Hstart Htoday Hrun) as (Hother & Hrecord & _).
  split; [now apply Hrecord|]. split; [exact Hother|].
  apply successes_bounds.
Qed.

Lemma X13_record_counts_successes_witness :
  files (snd (run_campaign SCHEDULED
                (encode (mkstate (Some (mkdate 2024 1 1)) []))
                (list_of CREDENTIALS) (list_of MESSAGES) (list_of RECIPIENTS)
                (sample_world (mkdate 2024 1 2) Missing 0 SwaksOk)))
    HistoryJson =
  Json (encode (mkstate (Some (mkdate 2024 1 1)) [("2024-01-02", 2)])).
Proof.
  apply (X13_record_counts_successes SCHEDULED
           (mkstate (Some (mkdate 2024 1 1)) [])
           (list_of CREDENTIALS) (list_of MESSAGES) (list_of RECIPIENTS)
           (sample_world (mkdate 2024 1 2) Missing 0 SwaksOk));
    reflexivity.
Defined.

(** X14: a scheduled run stays within the quota. Without [--force-send],
    on a well-shaped record, [run_campaign] runs swaks at most
    [max(0, day_number - already_sent)] times and at most once per
    recipient of the dataset, whatever the credentials and messages are and
    however the run ends; so the successes it can add never take today's
    count above the day number (or above what it already was). *)
Theorem X14_quota_bounds_sends
    (a : args) (st : campaign_state)
    (send_data messages_data receive_data : list pyval) (w : world) :
  force_requested a = false ->
  start_valid st = true ->
  valid_date (today_of w) = true ->
  let w' := snd (run_campaign a (encode st) send_data messages_data
                   receive_data w) in
  let today := strftime (today_of w) in
  let day_number := day_of st (today_of w) in
  let runs := (swaks_runs w' - swaks_runs w)%nat in
  (swaks_runs w <= swaks_runs w')%nat /\
  Z.of_nat runs <= Z.max 0 (day_number - already_sent st today) /\
  (runs <= List.length receive_data)%nat /\
  already_sent st today + successes (swaks_run w) (swaks_runs w) runs <=
  Z.max (already_sent st today) day_number.
Proof.
  intros Hforce Hstart Htoday. cbv zeta.
  pose proof (plan_scheduled a st w Hforce Hstart Htoday) as Hplan.
  cbv zeta in Hplan.
  pose proof (run_campaign_budget a (encode st) send_data messages_data
                receive_data w _ _ _ _ (f_equal fst Hplan)) as Hlog.
  apply attempt_runs in Hlog.
  pose proof (successes_bounds (swaks_run w) (swaks_runs w)
                (swaks_runs
                   (snd (run_campaign a (encode st) send_data messages_data
                           receive_data w)) - swaks_runs w)) as Hok.
  repeat split; lia.
Qed.

Lemma X14_quota_bounds_sends_witness :
  Z.of_nat
    (swaks_runs
       (snd (run_campaign SCHEDULED
               (encode (mkstate (Some (mkdate 2024 1 1)) [("2024-01-02", 1)]))
               (list_of CREDENTIALS) (list_of MESSAGES) (list_of RECIPIENTS)
               (sample_world (mkdate 2024 1 2) Missing 0 SwaksOk)))
     - swaks_runs (sample_world (mkdate 2024 1 2) Missing 0 SwaksOk)) <=
  Z.max 0
    (day_of (mkstate (Some (mkdate 2024 1 1)) [("2024-01-02", 1)])
       (mkdate 2024 1 2)
     - already_sent (mkstate (Some (mkdate 2024 1 1)) [("2024-01-02", 1)])
         "2024-01-02").
Proof.
  apply (X14_quota_bounds_sends SCHEDULED
           (mkstate (Some (mkdate 2024 1 1)) [("2024-01-02", 1)])
           (list_of CREDENTIALS) (list_of MESSAGES) (list_of RECIPIENTS)
           (sample_world (mkdate 2024 1 2) Missing 0 SwaksOk));
    reflexivity.
Defined.

(** X15: a run with [--force-send N], [N] not zero, ignores the record:
    whatever the history value is, [run_campaign] runs swaks at most [N]
    times and at most once per recipient of the dataset, and not at all
    when [N] is negative. *)
Theorem X15_forced_run_volume
    (a : args) (n : Z) (history : pyval)
    (send_data messages_data receive_data : list pyval) (w : world) :
  force_send a = Some n -> n <> 0 ->
  let w' := snd (run_campaign a history send_data messages_data
                   receive_data w) in
  (swaks_runs w <= swaks_runs w')%nat /\
  Z.of_nat (swaks_runs w' - swaks_runs w) <= Z.max 0 n /\
  (swaks_runs w' - swaks_runs w <= List.length receive_data)%nat /\
  (n < 0 -> swaks_runs w' = swaks_runs w).
Proof.
  intros Hn Hne. cbv zeta.
  pose proof (run_campaign_budget a history send_data messages_data
                receive_data w _ _ _ _
                (f_equal fst (plan_forced a n history w Hn Hne))) as Hlog.
  apply attempt_runs in Hlog.
  repeat split; lia.
Qed.

Lemma X15_forced_run_volume_witness :
  Z.of_nat
    (swaks_runs
       (snd (run_campaign (FORCED 1) PNone
               (list_of CREDENTIALS) (list_of MESSAGES) (list_of RECIPIENTS)
               (sample_world (mkdate 2024 1 2) Missing 0 SwaksOk)))
     - swaks_runs (sample_world (mkdate 2024 1 2) Missing 0 SwaksOk)) <=
  Z.max 0 1.
Proof.
  apply (X15_forced_run_volume (FORCED 1) 1 PNone
           (list_of CREDENTIALS) (list_of MESSAGES) (list_of RECIPIENTS)
           (sample_world (mkdate 2024 1 2) Missing 0 SwaksOk));
    [reflexivity|discriminate].
Defined.

(** *** The configuration checks *)

Module ConfigFacts.

Lemma main_config a w :
  setup_cron a = false -> remove_cron a = false -> status a = false ->
  main a w =
  (history <- load_history ;;
   check_and_cleanup_crontab history ;;
   config <- load_config ;;
   run_campaign a history (list_of (fst (fst config)))
     (list_of (snd (fst config))) (list_of (snd config))) w.
Proof.
  intros Hsetup Hremove Hstatus. unfold main, load_config.
  rewrite Hsetup, Hremove, Hstatus. unfold bind.
  rewrite load_history_loaded.
  repeat match goal with
         | |- context [match ?m ?x with _ => _ end] =>
             lazymatch type of x with world => idtac end;
             destruct (m x) as [[?| |] ?]; try reflexivity
         end.
Qed.

Lemma keeps_load_config {X} (f : world -> X) :
  (forall e w, f (emit e w) = f w) -> keeps f load_config.
Proof.
  intros f_emit. unfold load_config.
  apply keeps_bind; [now apply keeps_print|intros _].
  do 3 (apply keeps_bind; [now apply keeps_load_json_file|intros];
        apply keeps_bind; [now apply keeps_require|intros]).
  do 3 (apply keeps_bind; [now apply keeps_require|intros]).
  apply keeps_bind; [apply keeps_read|]. intros present.
  apply keeps_bind.
  { destruct present; [apply keeps_ret|].
    do 2 (apply keeps_bind; [now apply keeps_print|intros _]).
    apply keeps_sys_exit. }
  intros _.
  do 4 (apply keeps_bind; [now apply keeps_print|intros _]).
  apply keeps_ret.
Qed.

Lemma yields_bind {A B} c (m : M A) (k : A -> M B)
    (Q1 : A -> Prop) (Q : B -> Prop) :
  yields c m Q1 -> keeps config_state m ->
  (forall a, Q1 a -> yields c (k a) Q) -> yields c (bind m k) Q.
Proof.
  intros Hm Hkeep Hk w b Hc. unfold bind.
  specialize (Hm w). specialize (Hkeep w).
  destruct (m w) as [[a| |] w1]; cbn [fst snd] in *; try discriminate.
  apply (Hk a); [now apply Hm|congruence].
Qed.

Lemma yields_ret {A} c (a : A) (Q : A -> Prop) : Q a -> yields c (ret a) Q.
Proof. intros Ha w a' _ Hres. cbn in Hres. congruence. Qed.

Lemma yields_any {A} c (m : M A) : yields c m (fun _ => True).
Proof. intros w a _ _. exact I. Qed.

Lemma yields_load c p :
  yields c (load_json_file p) (fun v => v = data_of (fst c p)).
Proof.
  intros w v <-. unfold load_json_file, config_state. cbn [fst].
  destruct (files w p); cbn; congruence.
Qed.

Lemma yields_require c ok message :
  yields c (require ok message) (fun _ => ok = true).
Proof. intros w u _. destruct ok; [reflexivity|discriminate]. Qed.

(** When [load_config] ends normally it returns what the three files
    hold, these are non-empty arrays, and the swaks executable is there. *)
Lemma load_config_result c :
  yields c load_config
    (fun config =>
       config = (data_of (fst c SendJson), data_of (fst c MessagesJson),
                 data_of (fst c ReceiveJson)) /\
       usable (data_of (fst c SendJson)) = true /\
       usable (data_of (fst c MessagesJson)) = true /\
       usable (data_of (fst c ReceiveJson)) = true /\
       snd c = true).
Proof.
  unfold load_config.
  apply (yields_bind c _ _ (fun _ => True));
    [apply yields_any|now apply keeps_print|intros _ _].
  apply (yields_bind c _ _ (fun v => v = data_of (fst c SendJson)));
    [apply yields_load|now apply keeps_load_json_file|intros send_data ->].
  apply (yields_bind c _ _ (fun _ => True));
    [apply yields_any|now apply keeps_require|intros _ _].
  apply (yields_bind c _ _ (fun v => v = data_of (fst c MessagesJson)));
    [apply yields_load|now apply keeps_load_json_file|intros messages_data ->].
  apply (yields_bind c _ _ (fun _ => True));
    [apply yields_any|now apply keeps_require|intros _ _].
  apply (yields_bind c _ _ (fun v => v = data_of (fst c ReceiveJson)));
    [apply yields_load|now apply keeps_load_json_file|intros receive_data ->].
  apply (yields_bind c _ _ (fun _ => True));
    [apply yields_any|now apply keeps_require|intros _ _].
  apply (yields_bind c _ _ (fun _ => usable (data_of (fst c SendJson)) = true));
    [apply yields_require|now apply keeps_require|intros _ Hsend].
  apply (yields_bind c _ _
           (fun _ => usable (data_of (fst c MessagesJson)) = true));
    [apply yields_require|now apply keeps_require|intros _ Hmessages].
  apply (yields_bind c _ _
           (fun _ => usable (data_of (fst c ReceiveJson)) = true));
    [apply yields_require|now apply keeps_require|intros _ Hreceive].
  apply (yields_bind c _ _ (fun present => present = snd c));
    [|apply keeps_read|intros present ->].
  { intros w present <- Hres. unfold config_state. cbn in *. congruence. }
  apply (yields_bind c _ _ (fun _ => snd c = true)).
  { intros w u _. destruct (snd c); [reflexivity|discriminate]. }
  { destruct (snd c); [apply keeps_ret|].
    do 2 (apply keeps_bind; [now apply keeps_print|intros _]).
    apply keeps_sys_exit. }
  intros _ Hpresent.
  do 4 (apply (yields_bind c _ _ (fun _ => True));
        [apply yields_any|now apply keeps_print|intros _ _]).
  now apply yields_ret.
Qed.

Lemma settles_bind {A B} (m : M A) (k : A -> M B) :
  settles m -> (forall a, settles (k a)) -> settles (bind m k).
Proof.
  intros Hm Hk w. unfold bind. specialize (Hm w).
  destruct (m w) as [[a| |] w1]; cbn [fst] in *.
  - apply Hk.
  - destruct Hm as [[a Ha]|Ha]; discriminate.
  - destruct Hm as [[a Ha]|Ha]; [discriminate|].
    right. injection Ha as ->. reflexivity.
Qed.

Lemma settles_ok {A} (m : M A) :
  (forall w, exists a, fst (m w) = Ok a) -> settles m.
Proof. intros Hm w. left. apply Hm. Qed.

Lemma settles_print m : settles (print m).
Proof. apply settles_ok. intros w. now exists tt. Qed.

Lemma settles_load_json_file p : settles (load_json_file p).
Proof.
  apply settles_ok. intros w. unfold load_json_file.
  destruct (files w p); eexists; reflexivity.
Qed.

Lemma settles_require ok message : settles (require ok message).
Proof.
  intros w. destruct ok; [left; now exists tt|right; reflexivity].
Qed.

(** [load_config] never raises. *)
Lemma settles_load_config : settles load_config.
Proof.
  unfold load_config.
  apply settles_bind; [apply settles_print|intros _].
  do 3 (apply settles_bind; [apply settles_load_json_file|intros];
        apply settles_bind; [apply settles_require|intros]).
  do 3 (apply settles_bind; [apply settles_require|intros]).
  apply settles_bind.
  { apply settles_ok. intros w. eexists. reflexivity. }
  intros present. apply settles_bind.
  { destruct present; [apply settles_ok; intros w; now exists tt|].
    intros w. right. reflexivity. }
  intros _.
  do 4 (apply settles_bind; [apply settles_print|intros _]).
  apply settles_ok. intros w. eexists. reflexivity.
Qed.

End ConfigFacts.
Import ConfigFacts.

(** X16: an unusable configuration stops the run before anything is sent.
    When one of [send.json], [messages.json] and [receive.json] does not
    hold a non-empty array (missing, unreadable, not JSON, not an array,
    empty) or the swaks executable is missing, a run without
    [--setup-cron], [--remove-cron] and [--status] does not end normally: it
    ends with [sys.exit(1)] whenever the trigger check has passed. It runs
    swaks not once, draws no random number and writes no file. *)
Theorem X16_unusable_config_stops (a : args) (w : world) :
  setup_cron a = false -> remove_cron a = false -> status a = false ->
  usable (dataset w SendJson) && usable (dataset w MessagesJson)
  && usable (dataset w ReceiveJson) && swaks_present w = false ->
  (forall u, fst (main a w) <> Ok u) /\
  (fst (check_and_cleanup_crontab (loaded_history w) w) = Ok tt ->
   fst (main a w) = Exit 1) /\
  swaks_runs (snd (main a w)) = swaks_runs w /\
  draws (snd (main a w)) = draws w /\
  files (snd (main a w)) = files w.
Proof.
  intros Hsetup Hremove Hstatus Hbad.
  rewrite (main_config a w Hsetup Hremove Hstatus). unfold bind.
  rewrite load_history_loaded.
  pose proof (keeps_check_and_cleanup_crontab config_state
                (fun _ _ => eq_refl) (fun _ _ => eq_refl) (fun _ => eq_refl)
                (loaded_history w) w) as Hconfig.
  pose proof (keeps_check_and_cleanup_crontab swaks_runs
                (fun _ _ => eq_refl) (fun _ _ => eq_refl) (fun _ => eq_refl)
                (loaded_history w) w) as Hruns.
  pose proof (keeps_check_and_cleanup_crontab draws
                (fun _ _ => eq_refl) (fun _ _ => eq_refl) (fun _ => eq_refl)
                (loaded_history w) w) as Hdraws.
  pose proof (keeps_check_and_cleanup_crontab files
                (fun _ _ => eq_refl) (fun _ _ => eq_refl) (fun _ => eq_refl)
                (loaded_history w) w) as Hfiles.
  destruct (check_and_cleanup_crontab (loaded_history w) w) as [[[]| |] w1];
    cbn [fst snd] in *;
    [|repeat split; (discriminate || assumption)..].
  pose proof (load_config_result (config_state w) w1) as Hresult.
  pose proof (settles_load_config w1) as Hsettles.
  pose proof (keeps_load_config swaks_runs (fun _ _ => eq_refl) w1) as Hruns2.
  pose proof (keeps_load_config draws (fun _ _ => eq_refl) w1) as Hdraws2.
  pose proof (keeps_load_config files (fun _ _ => eq_refl) w1) as Hfiles2.
  destruct (load_config w1) as [[config| |] w2]; cbn [fst snd] in *.
  - exfalso. destruct (Hresult config Hconfig eq_refl)
      as (_ & Hs & Hm & Hr & Hp).
    unfold dataset, config_state in *. cbn [fst snd] in *.
    rewrite Hs, Hm, Hr, Hp in Hbad. discriminate.
  - destruct Hsettles as [[x Hx]|Hx]; discriminate.
  - destruct Hsettles as [[x Hx]|Hx]; [discriminate|].
    repeat split; try congruence.
Qed.

Lemma X16_unusable_config_stops_witness :
  fst (main SCHEDULED
         (set_file ReceiveJson (Json (PList []))
            (sample_world (mkdate 2024 1 2) Missing 0 SwaksOk))) = Exit 1.
Proof.
  apply (X16_unusable_config_stops SCHEDULED
           (set_file ReceiveJson (Json (PList []))
              (sample_world (mkdate 2024 1 2) Missing 0 SwaksOk)));
    reflexivity.
Defined.

(** *** The status report *)

Module StatusFacts.

Lemma insert_item_perm x l : Permutation (insert_item x l) (x :: l).
Proof.
  induction l as [|y l IH]; cbn [insert_item]; [reflexivity|].
  destruct (String.leb (fst y) (fst x)); [|reflexivity].
  rewrite IH. apply perm_swap.
Qed.

Lemma sorted_items_perm l : Permutation (sorted_items l) l.
Proof.
  unfold sorted_items.
  assert (H : forall acc,
             Permutation (fold_left (fun acc x => insert_item x acc) l acc)
               (l ++ acc)).
  { induction l as [|x l IH]; intros acc; cbn [fold_left app]; [reflexivity|].
    rewrite IH, insert_item_perm. symmetry. apply Permutation_middle. }
  rewrite H. now rewrite app_nil_r.
Qed.

Lemma insert_item_hd x y l :
  key_le y x -> HdRel key_le y l -> HdRel key_le y (insert_item x l).
Proof.
  intros Hyx Hhd. destruct l as [|z l]; cbn [insert_item].
  - now constructor.
  - destruct (String.leb (fst z) (fst x)); constructor;
      [now inversion Hhd|assumption].
Qed.

Lemma insert_item_sorted x l :
  Sorted key_le l -> Sorted key_le (insert_item x l).
Proof.
  induction 1 as [|y l Hsorted IH Hhd]; cbn [insert_item].
  - repeat constructor.
  - destruct (String.leb (fst y) (fst x)) eqn:Hle.
    + constructor; [exact IH|]. now apply insert_item_hd.
    + constructor; [now constructor|]. constructor.
      destruct (String.leb_total (fst x) (fst y)) as [H|H];
        [exact H|congruence].
Qed.

Lemma sorted_items_sorted l : Sorted key_le (sorted_items l).
Proof.
  unfold sorted_items.
  assert (H : forall acc,
             Sorted key_le acc ->
             Sorted key_le (fold_left (fun acc x => insert_item x acc) l acc)).
  { induction l as [|x l IH]; intros acc Hacc; cbn [fold_left];
      [exact Hacc|].
    apply IH. now apply insert_item_sorted. }
  apply H. constructor.
Qed.

Lemma print_history_lines_trace items w :
  print_history_lines items w =
  (Ok tt, snd (print_history_lines items w)) /\
  trace (snd (print_history_lines items w)) =
  (trace w ++ map history_line items)%list.
Proof.
  revert w. induction items as [|[date count] rest IH]; intros w;
    cbn [print_history_lines map].
  - cbn. now rewrite app_nil_r.
  - unfold bind. cbn [print].
    destruct (IH (emit (Print (MsgDailyHistoryLine date count)) w))
      as [Heq Htrace].
    split; [rewrite Heq at 1; reflexivity|].
    rewrite Htrace. cbn [trace emit]. now rewrite <- app_assoc.
Qed.

End StatusFacts.
Import StatusFacts.

(** X17: what [--status] reports. On a well-shaped record the status
    branch ends normally and prints, after its header, either that no
    campaign has started, or the start date, the day number (the one
    [get_current_day_info] would compute now) and one line per recorded day,
    the days in ascending order. *)
Theorem X17_status_report (st : campaign_state) (w : world) :
  start_valid st = true ->
  clock_valid w = true ->
  fst (show_status (encode st) w) = Ok tt /\
  trace (snd (show_status (encode st) w)) =
  (trace w ++
   Print MsgStatusHeader ::
   match start_date st with
   | None => [Print MsgNoCampaign]
   | Some D =>
       [Print (MsgCampaignStarted (PStr (strftime D)));
        Print (MsgCurrentDay (day_of st (today_of w)));
        Print MsgDailyHistoryHeader]
       ++ map history_line (sorted_items (encode_sends (daily_sends st)))
   end)%list /\
  Sorted key_le (sorted_items (encode_sends (daily_sends st))) /\
  Permutation (sorted_items (encode_sends (daily_sends st)))
    (encode_sends (daily_sends st)).
Proof.
  intros Hstart Hclock.
  split; [|split; [|split; [apply sorted_items_sorted|apply sorted_items_perm]]];
    unfold show_status, bind, day_of, start_valid in *; cbn [print];
    rewrite getitem_encode_start; cbn [lift];
    destruct (start_date st) as [D|]; cbn [encode_start];
    try rewrite truthy_strftime; cbv iota;
    try reflexivity;
    try (cbn [truthy print fst snd trace emit]; now rewrite <- app_assoc);
    unfold py_strptime; rewrite strptime_strftime by assumption;
    cbn [datetime_now print]; rewrite getitem_encode_sends;
    cbn [lift dict_of];
    match goal with
    | |- context [print_history_lines ?items ?w0] =>
        destruct (print_history_lines_trace items w0) as [Heq Htrace];
        rewrite Heq
    end.
  - reflexivity.
  - cbn [snd]. rewrite Htrace. cbn [trace emit tick clock clock_reads].
    rewrite timedelta_days_midnight
      by (apply (clock_valid_bounds w Hclock)).
    rewrite <- !app_assoc. reflexivity.
Qed.

Lemma X17_status_report_witness :
  fst (show_status
         (encode (mkstate (Some (mkdate 2024 1 1))
                    [("2024-01-02", 2); ("2024-01-01", 1)]))
         (sample_world (mkdate 2024 1 3) Missing 0 SwaksOk)) = Ok tt.
Proof.
  apply (X17_status_report
           (mkstate (Some (mkdate 2024 1 1))
              [("2024-01-02", 2); ("2024-01-01", 1)])
           (sample_world (mkdate 2024 1 3) Missing 0 SwaksOk));
    reflexivity.
Defined.

(** *** One send *)

Module SendFacts.

(** An argument that is not a string: nothing is run. *)
Lemma send_email_not_text a b c d e g w :
  as_str a = None \/ as_str b = None \/ as_str d = None \/
  as_str e = None \/ as_str g = None ->
  fst (send_email a b c d e g w) = Ok false /\
  swaks_runs (snd (send_email a b c d e g w)) = swaks_runs w.
Proof.
  intros Hnot. unfold send_email, bind.
  destruct (random_choice_ok X_MAILERS w) as (xm & _ & ->); [discriminate|].
  destruct (random_choice_ok PRIORITIES (drew w)) as (pr & _ & ->);
    [discriminate|].
  cbn [print].
  destruct (as_str a); [|now split].
  destruct (as_str b); [|now split].
  destruct (as_str d); [|now split].
  destruct (as_str e); [|now split].
  destruct (as_str g); [|now split].
  repeat (destruct Hnot as [Hnot|Hnot]; [discriminate|]). discriminate.
Qed.

End SendFacts.
Import SendFacts.

(** X18: [send_email] runs swaks at most once and writes no file.
    Whenever it returns, it returns [True] exactly when it ran swaks and
    that run ended with return code 0: a failed run, a timeout and an error
    of the launch all give [False]. With an argument of the command line
    that is not a string nothing is run. *)
Theorem X18_send_email_outcome
    (sender_email sender_password sender_display_name recipient_email
     subject body : pyval) (w : world) :
  let run := send_email sender_email sender_password sender_display_name
               recipient_email subject body w in
  (swaks_runs (snd run) = swaks_runs w \/
   swaks_runs (snd run) = S (swaks_runs w)) /\
  (forall sent,
      fst run = Ok sent ->
      (sent = true <->
       swaks_runs (snd run) = S (swaks_runs w) /\
       swaks_run w (swaks_runs w) = SwaksOk)) /\
  (as_str sender_email = None \/ as_str sender_password = None \/
   as_str recipient_email = None \/ as_str subject = None \/
   as_str body = None ->
   swaks_runs (snd run) = swaks_runs w /\
   forall sent, fst run = Ok sent -> sent = false) /\
  files (snd run) = files w.
Proof.
  cbv zeta.
  destruct (counts_send_email sender_email sender_password
              sender_display_name recipient_email subject body w)
    as (_ & _ & Hcount).
  pose proof (attempt_runs _ _ _ _
                (logs_send_email sender_email sender_password
                   sender_display_name recipient_email subject body w))
    as Hruns.
  assert (Hcases : swaks_runs (snd (send_email sender_email sender_password
                                      sender_display_name recipient_email
                                      subject body w)) = swaks_runs w \/
                   swaks_runs (snd (send_email sender_email sender_password
                                      sender_display_name recipient_email
                                      subject body w)) = S (swaks_runs w))
    by lia.
  split; [exact Hcases|]. split; [|split].
  - intros sent Hsent. specialize (Hcount sent Hsent).
    destruct Hcases as [Hsame|Hone]; rewrite ?Hsame, ?Hone in Hcount.
    + rewrite Nat.sub_diag in Hcount. cbn [successes] in Hcount.
      destruct sent; cbn in Hcount; [lia|].
      split; [discriminate|]. intros [Hrun _]. lia.
    + replace (S (swaks_runs w) - swaks_runs w)%nat with 1%nat in Hcount
        by lia.
      cbn [successes] in Hcount.
      destruct sent, (swaks_run w (swaks_runs w)); cbn in Hcount;
        try lia; split; try discriminate; try (intros [_ H]; discriminate);
        auto.
  - intros Hnot.
    destruct (send_email_not_text sender_email sender_password
                sender_display_name recipient_email subject body w Hnot)
      as [Hres Hsame].
    split; [exact Hsame|]. intros sent Hsent. congruence.
  - now apply keeps_send_email.
Qed.

(** *** A whole scheduled run *)

Module WholeRunFacts.

End WholeRunFacts.
Import WholeRunFacts.

(** X19: a whole scheduled run that ends normally. On a well-shaped (or
    absent) record, when [main] without options returns: the three
    datasets are non-empty arrays and the swaks executable is in place; it
    has run swaks at most [max(0, day_number - already_sent)] times, for
    the date the clock shows after the trigger check; and the record
    afterwards holds the successes of this run added to today's count, or
    is what it was when no send succeeded. *)
Theorem X19_scheduled_run_end_to_end
    (a : args) (st : campaign_state) (w : world) :
  setup_cron a = false -> remove_cron a = false -> status a = false ->
  force_requested a = false ->
  loaded_history w = encode st ->
  start_valid st = true ->
  clock_valid w = true ->
  valid_date
    (today_of (snd (check_and_cleanup_crontab (encode st) w))) = true ->
  fst (main a w) = Ok tt ->
  let today := today_of (snd (check_and_cleanup_crontab (encode st) w)) in
  let w' := snd (main a w) in
  let sent := successes (swaks_run w) (swaks_runs w)
                (swaks_runs w' - swaks_runs w) in
  usable (dataset w SendJson) && usable (dataset w MessagesJson)
  && usable (dataset w ReceiveJson) && swaks_present w = true /\
  (swaks_runs w <= swaks_runs w')%nat /\
  Z.of_nat (swaks_runs w' - swaks_runs w) <=
  Z.max 0 (day_of st today - already_sent st (strftime today)) /\
  files w' HistoryJson =
  (if 0 <? sent
   then Json (encode (record_sent (begun st today) (strftime today) sent))
   else files w HistoryJson).
Proof.
  intros Hsetup Hremove Hstatus Hforce Hloaded Hstart Hclock Htoday Hok.
  cbv zeta.
  destruct (main a w) as [r w'] eqn:Hmain. cbn [fst snd] in *. subst r.
  rewrite (main_config a w Hsetup Hremove Hstatus) in Hmain.
  unfold bind in Hmain. rewrite load_history_loaded, Hloaded in Hmain.
  pose proof (keeps_check_and_cleanup_crontab
                (fun w => (files w, swaks_present w, swaks_run w,
                           swaks_runs w))
                (fun _ _ => eq_refl) (fun _ _ => eq_refl) (fun _ => eq_refl)
                (encode st) w) as Hkeep1.
  cbn beta in Hkeep1.
  destruct (check_and_cleanup_crontab (encode st) w) as [[[]| |] w1];
    try discriminate.
  cbn [fst snd] in *.
  injection Hkeep1 as Hfiles1 Hpresent1 Hrun1 Hruns1.
  pose proof (load_config_result (config_state w1) w1) as Hconfig.
  pose proof (keeps_load_config
                (fun w => (files w, swaks_run w, swaks_runs w, today_of w))
                (fun _ _ => eq_refl) w1) as Hkeep2.
  cbn beta in Hkeep2.
  destruct (load_config w1) as [[config| |] w2]; try discriminate.
  cbn [fst snd] in *.
  injection Hkeep2 as Hfiles2 Hrun2 Hruns2 Htoday2.
  destruct (Hconfig config eq_refl eq_refl)
    as (-> & Husable1 & Husable2 & Husable3 & Hpresent).
  unfold config_state in *. cbn [fst snd] in *.
  unfold dataset. rewrite <- Hfiles1, Husable1, Husable2, Husable3.
  rewrite <- Hpresent1, Hpresent. split; [reflexivity|].
  rewrite <- Htoday2 in Htoday.
  pose proof (plan_scheduled a st w2 Hforce Hstart Htoday) as Hplan.
  cbv zeta in Hplan.
  pose proof (run_campaign_budget a (encode st)
                (list_of (data_of (files w1 SendJson)))
                (list_of (data_of (files w1 MessagesJson)))
                (list_of (data_of (files w1 ReceiveJson))) w2 _ _ _ _
                (f_equal fst Hplan)) as Hlog.
  apply attempt_runs in Hlog. rewrite Hmain in Hlog. cbn [snd] in Hlog.
  destruct (run_campaign_outcome a st
              (list_of (data_of (files w1 SendJson)))
              (list_of (data_of (files w1 MessagesJson)))
              (list_of (data_of (files w1 ReceiveJson))) w2 (Ok tt) w'
              Hforce Hstart Htoday Hmain) as (_ & Hrecord & _).
  specialize (Hrecord eq_refl).
  rewrite Htoday2, Hrun2, Hrun1, Hruns2, Hruns1, Hfiles2, Hfiles1 in *.
  repeat split; [lia|lia|exact Hrecord].
Qed.

Lemma X19_scheduled_run_end_to_end_witness :
  files (snd (main SCHEDULED
                (sample_world (mkdate 2024 1 1) Missing 0 SwaksOk)))
    HistoryJson =
  Json (encode (mkstate (Some (mkdate 2024 1 1)) [("2024-01-01", 1)])).
Proof.
  apply (X19_scheduled_run_end_to_end SCHEDULED (mkstate None [])
           (sample_world (mkdate 2024 1 1) Missing 0 SwaksOk));
    reflexivity.
Defined.

(** *** A run that does not end normally *)

(** X20: a scheduled run that does not end normally records nothing. On a
    well-shaped record, when [run_campaign] without [--force-send] ends with
    an exception (credentials or a message that are no object, a record
    that cannot be written), the files are afterwards what they were:
    whatever this run has sent with success is in no record. *)
Theorem X20_aborted_run_records_nothing
    (a : args) (st : campaign_state)
    (send_data messages_data receive_data : list pyval) (w : world) :
  force_requested a = false ->
  start_valid st = true ->
  valid_date (today_of w) = true ->
  (forall u,
      fst (run_campaign a (encode st) send_data messages_data receive_data w)
      <> Ok u) ->
  files (snd (run_campaign a (encode st) send_data messages_data
                receive_data w)) = files w.
Proof.
  intros Hforce Hstart Htoday Hnot.
  destruct (run_campaign a (encode st) send_data messages_data receive_data w)
    as [r w'] eqn:Hrun.
  cbn [fst snd] in *.
  destruct (run_campaign_outcome a st send_data messages_data receive_data
              w r w' Hforce Hstart Htoday Hrun) as (_ & _ & Hsame).
  exact (Hsame Hnot).
Qed.

Lemma X20_aborted_run_records_nothing_witness :
  swaks_runs
    (snd (run_campaign SCHEDULED
            (encode (mkstate (Some (mkdate 2024 1 1)) []))
            MIXED_CREDENTIALS (list_of MESSAGES) (list_of RECIPIENTS)
            (counting_world (mkdate 2024 1 2)))) = 1%nat /\
  files
    (snd (run_campaign SCHEDULED
            (encode (mkstate (Some (mkdate 2024 1 1)) []))
            MIXED_CREDENTIALS (list_of MESSAGES) (list_of RECIPIENTS)
            (counting_world (mkdate 2024 1 2)))) =
  files (counting_world (mkdate 2024 1 2)).
Proof.
  split; [vm_compute; reflexivity|].
  apply (X20_aborted_run_records_nothing SCHEDULED
           (mkstate (Some (mkdate 2024 1 1)) [])
           MIXED_CREDENTIALS (list_of MESSAGES) (list_of RECIPIENTS)
           (counting_world (mkdate 2024 1 2)));
    try reflexivity.
  intros u. vm_compute. discriminate.
Defined.
